(** * Personal custom formats: versioning, batch deployment and drift

    A shallow embedding of the route handlers of
    [apps/api/src/routes/personal-custom-formats.ts] and
    [apps/api/src/routes/personal-custom-formats-deployment.ts].

    The handlers are asynchronous functions over three collaborators: the
    Prisma client (tables [personalCustomFormat], [personalCFDeployment],
    [serviceInstance]), the ARR API client of one instance, and the clock.
    They are embedded in a state-and-exception monad over a state that
    holds the tables, the outside world, the log of external calls and the
    handler's local [results] object.

    The web client is embedded as far as it decides what the routes are
    asked and when their answers are read again: the API functions, the
    react-query hooks with their keys and invalidations, the editor, the
    deploy dialog and the selection step of the template wizard. *)

From stdpp Require Import base strings list gmap.
From Stdlib Require Import ZArith Lia.

#[local] Set Warnings "-clear-no-such-hyp".
Local Open Scope Z_scope.

(** ** Data model *)

(** A JSON value, the content of [Record<string, unknown>]. *)
#[local] Set Warnings "-register-all".
Inductive Json : Type :=
| JNull
| JBool (b : bool)
| JNum (z : Z)
| JStr (s : string)
| JArr (items : list Json)
| JObj (members : list (string * Json)).

(** [z.enum(["RADARR", "SONARR"])]. *)
Inductive ServiceType : Type := RADARR | SONARR.

#[global] Instance ServiceType_eq_dec : EqDecision ServiceType.
Proof. solve_decision. Defined.

Definition serviceTypeName (s : ServiceType) : string :=
  match s with RADARR => "RADARR" | SONARR => "SONARR" end.

(** [CustomFormatSpecification] of the shared types. *)
Record CustomFormatSpecification : Type := mkSpec {
  spec_name : string;
  spec_implementation : string;
  spec_negate : bool;
  spec_required : bool;
  spec_fields : list (string * Json)
}.

(** A specification as sent to the instance: [fields] in array format. *)
Record TransformedSpecification : Type := mkTSpec {
  tspec_name : string;
  tspec_implementation : string;
  tspec_negate : bool;
  tspec_required : bool;
  tspec_fields : Json
}.

(** A custom format as the ARR API client exchanges it; [id] is optional
    ([existing?.id], [updated.id!], [created.id!]). *)
Record CustomFormat : Type := mkCustomFormat {
  rcf_id : option Z;
  rcf_name : string;
  rcf_includeCustomFormatWhenRenaming : option bool;
  rcf_specifications : list TransformedSpecification
}.

(** A row of [personalCustomFormat].  The column [specifications] holds
    [JSON.stringify] of a schema-validated array (lines 554 and 655 are the
    only writers) and every reader applies [JSON.parse]; the row carries the
    parsed value.  Dates are instants on the clock. *)
Record PersonalCustomFormat : Type := mkPersonalCF {
  cf_id : string;
  cf_userId : string;
  cf_name : string;
  cf_serviceType : ServiceType;
  cf_includeCustomFormatWhenRenaming : bool;
  cf_specifications : list CustomFormatSpecification;
  cf_version : Z;
  cf_createdAt : Z;
  cf_updatedAt : Z;
  cf_deletedAt : option Z
}.

(** A row of [personalCFDeployment]. *)
Record PersonalCFDeployment : Type := mkDeployment {
  dep_id : string;
  dep_userId : string;
  dep_personalCFId : string;
  dep_instanceId : string;
  dep_instanceCFId : Z;
  dep_deployedVersion : Z;
  dep_deployedSpecsSnapshot : list CustomFormatSpecification;
  dep_deployedAt : Z
}.

(** The columns of [serviceInstance] the handlers read. *)
Record ServiceInstance : Type := mkInstance {
  inst_id : string;
  inst_userId : string;
  inst_label : string;
  inst_service : string
}.

Record Db : Type := mkDb {
  personalCustomFormat : list PersonalCustomFormat;
  personalCFDeployment : list PersonalCFDeployment;
  serviceInstance : list ServiceInstance
}.

(** ** Thrown values and outcomes *)

(** What a [catch (error)] clause receives: an [Error] with its message, or
    any other value. *)
Inductive Thrown : Type :=
| ErrorObject (message : string)
| NonError.

(** [error instanceof Error ? error.message : fallback]. *)
Definition errorMessage (fallback : string) (error : Thrown) : string :=
  match error with
  | ErrorObject message => message
  | NonError => fallback
  end.

Inductive Outcome (A : Type) : Type :=
| Returned (a : A)
| Threw (error : Thrown).
Arguments Returned {A} a.
Arguments Threw {A} error.

(** ** The log of external calls *)

Inductive Event : Type :=
| EvGetCustomFormats (r : Outcome (list CustomFormat))
| EvUpdateCustomFormat (id : Z) (payload : CustomFormat) (r : Outcome CustomFormat)
| EvCreateCustomFormat (payload : CustomFormat) (r : Outcome CustomFormat)
| EvRecordDeployment (instanceId : string) (personalCF : PersonalCustomFormat)
    (instanceCFId : option Z) (r : Outcome unit).

(** The handler-local [results] object of the deployment route. *)
Record Results : Type := mkResults {
  created : list string;
  updated : list string;
  failed : list (string * string)
}.

(** ** Replies *)

Record FormattedDeployment : Type := mkFormattedDeployment {
  fd_id : string;
  fd_personalCFId : string;
  fd_personalCFName : string;
  fd_instanceId : string;
  fd_instanceLabel : string;
  fd_instanceCFId : Z;
  fd_deployedVersion : Z;
  fd_currentVersion : Z;
  fd_needsUpdate : bool;
  fd_deployedAt : Z
}.

Record UpdateNotification : Type := mkUpdateNotification {
  un_deploymentId : string;
  un_personalCFId : string;
  un_personalCFName : string;
  un_instanceId : string;
  un_instanceLabel : string;
  un_serviceType : ServiceType;
  un_deployedVersion : Z;
  un_currentVersion : Z
}.

Inductive Body : Type :=
| ErrorBody (error message : string)
| CustomFormatBody (customFormat : PersonalCustomFormat)
| MessageBody (message : string)
| DeployBody (success : bool) (created updated : list string)
    (failed : list (string * string))
| DeploymentsBody (deployments : list FormattedDeployment)
| UpdatesBody (hasUpdates : bool) (updates : list UpdateNotification)
    (totalDeployed outdatedCount : nat).

Record Reply : Type := mkReply { status : Z; body : Body }.

(** ** JavaScript truthiness of the values the handlers test *)

(** [name && ...] on an optional string: [undefined] and the empty string
    are falsy. *)
Definition truthyString (s : option string) : bool :=
  match s with
  | Some s => negb (bool_decide (s = EmptyString))
  | None => false
  end.

(** [specifications ? ... : ...] on an optional array: every array is
    truthy, [undefined] is falsy. *)
Definition truthyArray {A} (l : option (list A)) : bool :=
  match l with Some _ => true | None => false end.

(** [existing?.id] on an optional number: [undefined] and [0] are falsy. *)
Definition truthyNumber (n : option Z) : option Z :=
  match n with
  | Some z => if bool_decide (z = 0) then None else Some z
  | None => None
  end.

Definition quote : string := String (Ascii.ascii_of_nat 34) EmptyString.

(** ** Request bodies and their zod schemas *)

Record CreatePersonalCFRequest : Type := mkCreateReq {
  creq_name : string;
  creq_serviceType : ServiceType;
  creq_includeCustomFormatWhenRenaming : option bool;
  creq_specifications : list CustomFormatSpecification
}.

Record UpdatePersonalCFRequest : Type := mkUpdateReq {
  ureq_name : option string;
  ureq_includeCustomFormatWhenRenaming : option bool;
  ureq_specifications : option (list CustomFormatSpecification)
}.

Record DeployMultiplePersonalCFsRequest : Type := mkDeployReq {
  personalCFIds : list string;
  dreq_instanceId : string
}.

Definition createPersonalCFSchema (b : CreatePersonalCFRequest) : bool :=
  (1 <=? String.length (creq_name b))%nat
  && (String.length (creq_name b) <=? 100)%nat
  && (1 <=? length (creq_specifications b))%nat.

Definition updatePersonalCFSchema (b : UpdatePersonalCFRequest) : bool :=
  match ureq_name b with
  | Some n => (1 <=? String.length n)%nat && (String.length n <=? 100)%nat
  | None => true
  end
  && match ureq_specifications b with
     | Some l => (1 <=? length l)%nat
     | None => true
     end.

Definition deployMultipleSchema (b : DeployMultiplePersonalCFsRequest) : bool :=
  (1 <=? length (personalCFIds b))%nat
  && (1 <=? String.length (dreq_instanceId b))%nat.

(** ** The outside world *)

(** Everything the handlers do not control.  [World] is the state of the
    outside (the instance behind the ARR API, the clock, the id generator,
    the health of the database connection); it moves on with [tick] at
    every write and every remote call.  [transformFieldsToArray] lives in
    [lib/trash-guides/utils.ts]; the routes use it as a pure function. *)
Record Env : Type := mkEnv {
  World : Type;
  tick : World -> World;
  now : World -> Z;
  cuid : World -> string;
  createArrApiClient : ServiceInstance -> option Thrown;
  getCustomFormats : ServiceInstance -> World -> Outcome (list CustomFormat);
  createCustomFormat :
    ServiceInstance -> CustomFormat -> World -> Outcome CustomFormat;
  updateCustomFormat :
    ServiceInstance -> Z -> CustomFormat -> World -> Outcome CustomFormat;
  upsertFault : World -> option Thrown;
  transformFieldsToArray : list (string * Json) -> Json
}.

Section Routes.

Context (E : Env).

Record St : Type := mkSt {
  st_db : Db;
  st_world : World E;
  st_log : list Event;
  st_results : Results
}.

(** ** The handler monad: state and exceptions *)

Definition M (A : Type) : Type := St -> Outcome A * St.

Definition ret {A} (a : A) : M A := fun st => (Returned a, st).

Definition bind {A B} (m : M A) (k : A -> M B) : M B :=
  fun st =>
    match m st with
    | (Returned a, st') => k a st'
    | (Threw e, st') => (Threw e, st')
    end.

Definition throw {A} (e : Thrown) : M A := fun st => (Threw e, st).

(** [try { m } catch (error) { h error }]: the effects of [m] before the
    throw stay. *)
Definition try_catch {A} (m : M A) (h : Thrown -> M A) : M A :=
  fun st =>
    match m st with
    | (Returned a, st') => (Returned a, st')
    | (Threw e, st') => h e st'
    end.

Notation "x <- m ;; k" := (bind m (fun x => k))
  (at level 100, m at next level, right associativity).
Notation "m ;;; k" := (bind m (fun _ => k))
  (at level 100, right associativity).

(** [for (const x of l) { body x }]. *)
Fixpoint forOf {A} (body : A -> M unit) (l : list A) : M unit :=
  match l with
  | [] => ret tt
  | x :: rest => body x ;;; forOf body rest
  end.

(** A route handler: the body runs inside the outer [try], whose [catch]
    turns a thrown value into the route's 500 reply. *)
Definition handle (m : M Reply) (onError : Thrown -> Reply) : St -> Reply * St :=
  fun st =>
    match m st with
    | (Returned r, st') => (r, st')
    | (Threw e, st') => (onError e, st')
    end.

Definition setDb (db : Db) (st : St) : St :=
  mkSt db (tick E (st_world st)) (st_log st) (st_results st).

(** ** The Prisma client *)

(** [where: { id, userId, deletedAt: null }]. *)
Definition ownedLive (id userId : string) (cf : PersonalCustomFormat) : bool :=
  bool_decide (cf_id cf = id)
  && bool_decide (cf_userId cf = userId)
  && bool_decide (cf_deletedAt cf = None).

(** [where: { userId, name, serviceType, deletedAt: null }]. *)
Definition liveNamed (userId name : string) (serviceType : ServiceType)
    (cf : PersonalCustomFormat) : bool :=
  bool_decide (cf_userId cf = userId)
  && bool_decide (cf_name cf = name)
  && bool_decide (cf_serviceType cf = serviceType)
  && bool_decide (cf_deletedAt cf = None).

(** [where: { id: { in: ids }, userId, deletedAt: null }]. *)
Definition ownedLiveIn (ids : list string) (userId : string)
    (cf : PersonalCustomFormat) : bool :=
  bool_decide (cf_id cf ∈ ids)
  && bool_decide (cf_userId cf = userId)
  && bool_decide (cf_deletedAt cf = None).

Definition personalCustomFormat_findFirst (p : PersonalCustomFormat -> bool)
    : M (option PersonalCustomFormat) :=
  fun st => (Returned (List.find p (personalCustomFormat (st_db st))), st).

Definition personalCustomFormat_findMany (p : PersonalCustomFormat -> bool)
    : M (list PersonalCustomFormat) :=
  fun st => (Returned (List.filter p (personalCustomFormat (st_db st))), st).

Definition serviceInstance_findFirst (p : ServiceInstance -> bool)
    : M (option ServiceInstance) :=
  fun st => (Returned (List.find p (serviceInstance (st_db st))), st).

(** Modelled from the spec: the Prisma schema
    ([apps/api/prisma/schema.prisma]) is not among the sources.  The spec
    has the store enforce "a uniqueness invariant on (owner, name,
    service-kind)", and the repository's implementation notes list, for the
    model [PersonalCustomFormat], "Unique constraint: (userId, name,
    serviceType)".  A unique index is over every row of the table, and a
    soft-deleted row is still a row. *)
Definition sameUniqueKey (a b : PersonalCustomFormat) : bool :=
  bool_decide (cf_userId a = cf_userId b)
  && bool_decide (cf_name a = cf_name b)
  && bool_decide (cf_serviceType a = cf_serviceType b).

Definition uniqueConstraintFailed : Thrown :=
  ErrorObject "Unique constraint failed on the fields: (`userId`,`name`,`serviceType`)".

Definition setPersonalCustomFormat (rows : list PersonalCustomFormat) (db : Db) : Db :=
  mkDb rows (personalCFDeployment db) (serviceInstance db).

Definition setPersonalCFDeployment (rows : list PersonalCFDeployment) (db : Db) : Db :=
  mkDb (personalCustomFormat db) rows (serviceInstance db).

(** [prisma.personalCustomFormat.create({ data })]: [id] defaults to a
    cuid, [createdAt] and [updatedAt] to the current instant; the insert
    fails on the primary key and on the unique index. *)
Definition personalCustomFormat_create (userId name : string)
    (serviceType : ServiceType) (includeCustomFormatWhenRenaming : bool)
    (specifications : list CustomFormatSpecification) (version : Z)
    : M PersonalCustomFormat :=
  fun st =>
    let w := st_world st in
    let rows := personalCustomFormat (st_db st) in
    let row :=
      mkPersonalCF (cuid E w) userId name serviceType
        includeCustomFormatWhenRenaming specifications version
        (now E w) (now E w) None in
    if existsb (fun r => bool_decide (cf_id r = cf_id row)) rows
    then (Threw (ErrorObject "Unique constraint failed on the fields: (`id`)"), st)
    else if existsb (sameUniqueKey row) rows
    then (Threw uniqueConstraintFailed, st)
    else (Returned row, setDb (setPersonalCustomFormat (rows ++ [row]) (st_db st)) st).

(** The [data] argument of [update]: an absent field is left as it is. *)
Record UpdateData : Type := mkUpdateData {
  data_name : option string;
  data_includeCustomFormatWhenRenaming : option bool;
  data_specifications : option (list CustomFormatSpecification);
  data_version : option Z;
  data_deletedAt : option Z
}.

Definition applyData (data : UpdateData) (updatedAt : Z)
    (cf : PersonalCustomFormat) : PersonalCustomFormat :=
  mkPersonalCF (cf_id cf) (cf_userId cf)
    (default (cf_name cf) (data_name data))
    (cf_serviceType cf)
    (default (cf_includeCustomFormatWhenRenaming cf)
       (data_includeCustomFormatWhenRenaming data))
    (default (cf_specifications cf) (data_specifications data))
    (default (cf_version cf) (data_version data))
    (cf_createdAt cf)
    updatedAt
    (match data_deletedAt data with
     | Some t => Some t
     | None => cf_deletedAt cf
     end).

(** [prisma.personalCustomFormat.update({ where: { id }, data })]: throws
    when no row has the id or when the new row collides with another row on
    the unique index; [updatedAt] is set by the database. *)
Definition personalCustomFormat_update (id : string) (data : UpdateData)
    : M PersonalCustomFormat :=
  fun st =>
    let w := st_world st in
    let rows := personalCustomFormat (st_db st) in
    match List.find (fun r => bool_decide (cf_id r = id)) rows with
    | None => (Threw (ErrorObject "Record to update not found."), st)
    | Some old =>
      let new := applyData data (now E w) old in
      if existsb (fun r => negb (bool_decide (cf_id r = id)) && sameUniqueKey new r) rows
      then (Threw uniqueConstraintFailed, st)
      else
        let rows' :=
          map (fun r => if bool_decide (cf_id r = id)
                        then applyData data (now E w) r else r) rows in
        (Returned new, setDb (setPersonalCustomFormat rows' (st_db st)) st)
    end.

(** ** CRUD routes ([registerPersonalCFRoutes]) *)

Definition duplicateNameMessage (name : string) (serviceType : ServiceType) : string :=
  "A custom format named " +:+ quote +:+ name +:+ quote
  +:+ " already exists for " +:+ serviceTypeName serviceType.

(** [POST /api/personal-custom-formats]. *)
Definition POST_root (userId : string) (requestBody : CreatePersonalCFRequest)
    : St -> Reply * St :=
  if negb (createPersonalCFSchema requestBody)
  then fun st => (mkReply 400 (ErrorBody "VALIDATION_ERROR" "Invalid request body"), st)
  else
    let name := creq_name requestBody in
    let serviceType := creq_serviceType requestBody in
    handle
      (existing <- personalCustomFormat_findFirst (liveNamed userId name serviceType) ;;
       match existing with
       | Some _ =>
         ret (mkReply 409
                (ErrorBody "DUPLICATE_NAME" (duplicateNameMessage name serviceType)))
       | None =>
         cf <- personalCustomFormat_create userId name serviceType
                 (default false (creq_includeCustomFormatWhenRenaming requestBody))
                 (creq_specifications requestBody) 1 ;;
         ret (mkReply 201 (CustomFormatBody cf))
       end)
      (fun error =>
         mkReply 500
           (ErrorBody "CREATE_FAILED"
              (errorMessage "Failed to create custom format" error))).

(** [PUT /api/personal-custom-formats/:id]. *)
Definition PUT_id (userId id : string) (requestBody : UpdatePersonalCFRequest)
    : St -> Reply * St :=
  if negb (updatePersonalCFSchema requestBody)
  then fun st => (mkReply 400 (ErrorBody "VALIDATION_ERROR" "Invalid request body"), st)
  else
    let name := ureq_name requestBody in
    let includeCustomFormatWhenRenaming :=
      ureq_includeCustomFormatWhenRenaming requestBody in
    let specifications := ureq_specifications requestBody in
    handle
      (cf <- personalCustomFormat_findFirst (ownedLive id userId) ;;
       match cf with
       | None =>
         ret (mkReply 404
                (ErrorBody "NOT_FOUND" "Custom format not found or access denied"))
       | Some cf =>
         existing <-
           (if truthyString name && negb (bool_decide (name = Some (cf_name cf)))
            then personalCustomFormat_findFirst
                   (liveNamed userId (default EmptyString name) (cf_serviceType cf))
            else ret None) ;;
         match existing with
         | Some _ =>
           ret (mkReply 409
                  (ErrorBody "DUPLICATE_NAME"
                     (duplicateNameMessage (default EmptyString name)
                        (cf_serviceType cf))))
         | None =>
           let newVersion :=
             if truthyArray specifications then cf_version cf + 1 else cf_version cf in
           updated <- personalCustomFormat_update id
                        (mkUpdateData
                           (if truthyString name then name else None)
                           includeCustomFormatWhenRenaming
                           (if truthyArray specifications then specifications else None)
                           (Some newVersion)
                           None) ;;
           ret (mkReply 200 (CustomFormatBody updated))
         end
       end)
      (fun error =>
         mkReply 500
           (ErrorBody "UPDATE_FAILED"
              (errorMessage "Failed to update custom format" error))).

(** [DELETE /api/personal-custom-formats/:id]: soft delete. *)
Definition DELETE_id (userId id : string) : St -> Reply * St :=
  handle
    (cf <- personalCustomFormat_findFirst (ownedLive id userId) ;;
     match cf with
     | None =>
       ret (mkReply 404
              (ErrorBody "NOT_FOUND" "Custom format not found or access denied"))
     | Some cf =>
       (fun st =>
          personalCustomFormat_update id
            (mkUpdateData None None None None (Some (now E (st_world st)))) st) ;;;
       ret (mkReply 200
              (MessageBody ("Deleted custom format " +:+ quote +:+ cf_name cf +:+ quote)))
     end)
    (fun error =>
       mkReply 500
         (ErrorBody "DELETE_FAILED"
            (errorMessage "Failed to delete custom format" error))).

(** ** The deployment ledger *)

(** [where: { instanceId_personalCFId: { instanceId, personalCFId } }]. *)
Definition ledgerKey (instanceId personalCFId : string)
    (d : PersonalCFDeployment) : bool :=
  bool_decide (dep_instanceId d = instanceId)
  && bool_decide (dep_personalCFId d = personalCFId).

(** The [update] and [create] arguments of the upsert. *)
Record DeploymentUpdate : Type := mkDeploymentUpdate {
  upd_instanceCFId : option Z;
  upd_deployedVersion : Z;
  upd_deployedSpecsSnapshot : list CustomFormatSpecification;
  upd_deployedAt : Z
}.

Record DeploymentCreate : Type := mkDeploymentCreate {
  new_userId : string;
  new_personalCFId : string;
  new_instanceId : string;
  new_instanceCFId : option Z;
  new_deployedVersion : Z;
  new_deployedSpecsSnapshot : list CustomFormatSpecification
}.

Definition applyDeploymentUpdate (u : DeploymentUpdate)
    (d : PersonalCFDeployment) : PersonalCFDeployment :=
  mkDeployment (dep_id d) (dep_userId d) (dep_personalCFId d) (dep_instanceId d)
    (default (dep_instanceCFId d) (upd_instanceCFId u))
    (upd_deployedVersion u) (upd_deployedSpecsSnapshot u) (upd_deployedAt u).

(** The rows after [upsert]: the rows under the key are overwritten in
    place; when there is none, one row is added, its [id] and [deployedAt]
    taking their defaults. *)
Definition upsertRows (instanceId personalCFId : string)
    (update : DeploymentUpdate) (create : DeploymentCreate)
    (instanceCFId : Z) (id : string) (createdNow : Z)
    (rows : list PersonalCFDeployment) : list PersonalCFDeployment :=
  if existsb (ledgerKey instanceId personalCFId) rows
  then map (fun d => if ledgerKey instanceId personalCFId d
                     then applyDeploymentUpdate update d else d) rows
  else rows ++ [mkDeployment id (new_userId create) (new_personalCFId create)
                  (new_instanceId create) instanceCFId
                  (new_deployedVersion create)
                  (new_deployedSpecsSnapshot create) createdNow].

(** [prisma.personalCFDeployment.upsert({ where, update, create })].  The
    client validates its arguments before it talks to the database: the
    required [instanceCFId] of [create] must be there.  The database may
    then fail ([upsertFault]). *)
Definition personalCFDeployment_upsert (instanceId personalCFId : string)
    (update : DeploymentUpdate) (create : DeploymentCreate) : M unit :=
  fun st =>
    let w := st_world st in
    match new_instanceCFId create with
    | None => (Threw (ErrorObject "Argument `instanceCFId` is missing."), st)
    | Some instanceCFId =>
      match upsertFault E w with
      | Some e =>
        (Threw e, mkSt (st_db st) (tick E w) (st_log st) (st_results st))
      | None =>
        (Returned tt,
         setDb (setPersonalCFDeployment
                  (upsertRows instanceId personalCFId update create
                     instanceCFId (cuid E w) (now E w)
                     (personalCFDeployment (st_db st)))
                  (st_db st)) st)
      end
    end.

(** ** The ARR API client *)

Definition remoteCall {A} (r : World E -> Outcome A) (ev : Outcome A -> Event)
    : M A :=
  fun st =>
    let w := st_world st in
    (r w, mkSt (st_db st) (tick E w) (st_log st ++ [ev (r w)]) (st_results st)).

Definition arrClient_getCustomFormats (instance : ServiceInstance)
    : M (list CustomFormat) :=
  remoteCall (getCustomFormats E instance) EvGetCustomFormats.

Definition arrClient_updateCustomFormat (instance : ServiceInstance) (id : Z)
    (payload : CustomFormat) : M CustomFormat :=
  remoteCall (updateCustomFormat E instance id payload)
    (EvUpdateCustomFormat id payload).

Definition arrClient_createCustomFormat (instance : ServiceInstance)
    (payload : CustomFormat) : M CustomFormat :=
  remoteCall (createCustomFormat E instance payload)
    (EvCreateCustomFormat payload).

(** ** Deployment routes ([registerPersonalCFDeploymentRoutes]) *)

Definition setResults (r : Results) : M unit :=
  fun st => (Returned tt, mkSt (st_db st) (st_world st) (st_log st) r).

Definition getResults : M Results :=
  fun st => (Returned (st_results st), st).

Definition results_created_push (name : string) : M unit :=
  fun st =>
    let r := st_results st in
    setResults (mkResults (created r ++ [name]) (updated r) (failed r)) st.

Definition results_updated_push (name : string) : M unit :=
  fun st =>
    let r := st_results st in
    setResults (mkResults (created r) (updated r ++ [name]) (failed r)) st.

Definition results_failed_push (entry : string * string) : M unit :=
  fun st =>
    let r := st_results st in
    setResults (mkResults (created r) (updated r) (failed r ++ [entry])) st.

(** [new Map(existingFormats.map((cf) => [cf.name, cf]))]: a later entry
    of the list replaces an earlier one of the same name. *)
Definition existingByNameOf (existingFormats : list CustomFormat)
    : gmap string CustomFormat :=
  foldl (fun m cf => <[rcf_name cf := cf]> m) ∅ existingFormats.

(** [{ ...spec, fields: transformFieldsToArray(spec.fields) }]. *)
Definition transformSpec (spec : CustomFormatSpecification)
    : TransformedSpecification :=
  mkTSpec (spec_name spec) (spec_implementation spec) (spec_negate spec)
    (spec_required spec) (transformFieldsToArray E (spec_fields spec)).

(** The "Record deployment" step: the upsert with the arguments the route
    gives it, [new Date()] being the instant of the call. *)
Definition recordDeployment (userId instanceId : string)
    (personalCF : PersonalCustomFormat) (instanceCFId : option Z) : M unit :=
  fun st =>
    let r :=
      personalCFDeployment_upsert instanceId (cf_id personalCF)
        (mkDeploymentUpdate instanceCFId (cf_version personalCF)
           (cf_specifications personalCF) (now E (st_world st)))
        (mkDeploymentCreate userId (cf_id personalCF) instanceId instanceCFId
           (cf_version personalCF) (cf_specifications personalCF)) st in
    (r.1,
     mkSt (st_db r.2) (st_world r.2)
       (st_log r.2 ++ [EvRecordDeployment instanceId personalCF instanceCFId r.1])
       (st_results r.2)).

(** The body of [for (const personalCF of personalCFs)], with its own
    [try]/[catch]. *)
Definition deployOne (userId instanceId : string) (instance : ServiceInstance)
    (existingByName : gmap string CustomFormat)
    (personalCF : PersonalCustomFormat) : M unit :=
  try_catch
    (let specifications := cf_specifications personalCF in
     let existing := existingByName !! cf_name personalCF in
     let transformedSpecs := map transformSpec specifications in
     let createNew : M (option Z) :=
       created <- arrClient_createCustomFormat instance
                    (mkCustomFormat None (cf_name personalCF)
                       (Some (cf_includeCustomFormatWhenRenaming personalCF))
                       transformedSpecs) ;;
       results_created_push (cf_name personalCF) ;;;
       ret (rcf_id created) in
     instanceCFId <-
       match existing with
       | Some existing =>
         match truthyNumber (rcf_id existing) with
         | Some existingId =>
           updated <- arrClient_updateCustomFormat instance existingId
                        (mkCustomFormat (rcf_id existing) (cf_name personalCF)
                           (Some (cf_includeCustomFormatWhenRenaming personalCF))
                           transformedSpecs) ;;
           results_updated_push (cf_name personalCF) ;;;
           ret (rcf_id updated)
         | None => createNew
         end
       | None => createNew
       end ;;
     recordDeployment userId instanceId personalCF instanceCFId)
    (fun error =>
       results_failed_push
         (cf_name personalCF, errorMessage "Unknown error" error)).

Definition serviceMismatchMessage (mismatch : PersonalCustomFormat)
    (instance : ServiceInstance) : string :=
  "CF " +:+ quote +:+ cf_name mismatch +:+ quote +:+ " is for "
  +:+ serviceTypeName (cf_serviceType mismatch) +:+ ", instance is "
  +:+ inst_service instance.

(** [POST /api/personal-custom-formats/deploy-multiple]. *)
Definition POST_deploy_multiple (userId : string)
    (requestBody : DeployMultiplePersonalCFsRequest) : St -> Reply * St :=
  if negb (deployMultipleSchema requestBody)
  then fun st => (mkReply 400 (ErrorBody "VALIDATION_ERROR" "Invalid request body"), st)
  else
    let personalCFIds := personalCFIds requestBody in
    let instanceId := dreq_instanceId requestBody in
    handle
      (instance <- serviceInstance_findFirst
                     (fun i => bool_decide (inst_id i = instanceId)
                               && bool_decide (inst_userId i = userId)) ;;
       match instance with
       | None => ret (mkReply 404 (ErrorBody "NOT_FOUND" "Instance not found"))
       | Some instance =>
         personalCFs <- personalCustomFormat_findMany
                          (ownedLiveIn personalCFIds userId) ;;
         if negb (bool_decide (length personalCFs = length personalCFIds))
         then ret (mkReply 404
                     (ErrorBody "SOME_CFS_NOT_FOUND"
                        "Some custom formats were not found"))
         else
           match List.find
                   (fun cf => negb (bool_decide
                      (serviceTypeName (cf_serviceType cf) = inst_service instance)))
                   personalCFs with
           | Some mismatch =>
             ret (mkReply 400
                    (ErrorBody "SERVICE_MISMATCH"
                       (serviceMismatchMessage mismatch instance)))
           | None =>
             match createArrApiClient E instance with
             | Some e => throw e
             | None =>
               existingFormats <- arrClient_getCustomFormats instance ;;
               let existingByName := existingByNameOf existingFormats in
               setResults (mkResults [] [] []) ;;;
               forOf (deployOne userId instanceId instance existingByName)
                 personalCFs ;;;
               results <- getResults ;;
               let success := bool_decide (length (failed results) = 0%nat) in
               let response :=
                 DeployBody success (created results) (updated results)
                   (failed results) in
               if success
               then ret (mkReply 200 response)
               else ret (mkReply 400 response)
             end
           end
       end)
      (fun error =>
         mkReply 500
           (ErrorBody "DEPLOYMENT_FAILED"
              (errorMessage "Failed to deploy custom formats" error))).

(** [include: { personalCF: true, instance: { select: ... } }]: each row
    with the rows its foreign keys point to. *)
Definition Joined : Type :=
  PersonalCFDeployment * PersonalCustomFormat * ServiceInstance.

Definition includeRelations (db : Db) (d : PersonalCFDeployment)
    : option Joined :=
  match List.find (fun cf => bool_decide (cf_id cf = dep_personalCFId d))
          (personalCustomFormat db),
        List.find (fun i => bool_decide (inst_id i = dep_instanceId d))
          (serviceInstance db) with
  | Some cf, Some i => Some (d, cf, i)
  | _, _ => None
  end.

(** [orderBy: [{ instanceId: "asc" }, { deployedAt: "desc" }]]. *)
Definition orderedBefore (a b : PersonalCFDeployment) : bool :=
  String.ltb (dep_instanceId a) (dep_instanceId b)
  || (bool_decide (dep_instanceId a = dep_instanceId b)
      && (dep_deployedAt b <=? dep_deployedAt a)).

Fixpoint insertOrdered (d : PersonalCFDeployment)
    (l : list PersonalCFDeployment) : list PersonalCFDeployment :=
  match l with
  | [] => [d]
  | x :: rest =>
    if orderedBefore d x then d :: l else x :: insertOrdered d rest
  end.

Definition orderByInstanceThenDate (l : list PersonalCFDeployment)
    : list PersonalCFDeployment :=
  foldr insertOrdered [] l.

(** [where] of both list routes: [{ userId }], and [instanceId] when the
    query gives a truthy one. *)
Definition ledgerWhere (userId : string) (instanceId : option string)
    (d : PersonalCFDeployment) : bool :=
  bool_decide (dep_userId d = userId)
  && (if truthyString instanceId
      then bool_decide (Some (dep_instanceId d) = instanceId)
      else true).

Definition personalCFDeployment_findMany
    (p : PersonalCFDeployment -> bool)
    (orderBy : list PersonalCFDeployment -> list PersonalCFDeployment)
    : M (list Joined) :=
  fun st =>
    let rows := orderBy (List.filter p (personalCFDeployment (st_db st))) in
    match mapM (includeRelations (st_db st)) rows with
    | Some joined => (Returned joined, st)
    | None =>
      (Threw (ErrorObject "Inconsistent query result: a required relation is missing"), st)
    end.

Definition formatDeployment (j : Joined) : FormattedDeployment :=
  let '(d, personalCF, instance) := j in
  mkFormattedDeployment (dep_id d) (dep_personalCFId d) (cf_name personalCF)
    (dep_instanceId d) (inst_label instance) (dep_instanceCFId d)
    (dep_deployedVersion d) (cf_version personalCF)
    (cf_version personalCF >? dep_deployedVersion d)
    (dep_deployedAt d).

(** [GET /api/personal-custom-formats/deployments]. *)
Definition GET_deployments (userId : string) (instanceId : option string)
    : St -> Reply * St :=
  handle
    (deployments <- personalCFDeployment_findMany
                      (ledgerWhere userId instanceId) orderByInstanceThenDate ;;
     ret (mkReply 200 (DeploymentsBody (map formatDeployment deployments))))
    (fun error =>
       mkReply 500
         (ErrorBody "LIST_FAILED"
            (errorMessage "Failed to list deployments" error))).

(** The predicate of [deployments.filter(...)] in the updates route. *)
Definition hasDrift (serviceType : option string) (j : Joined) : bool :=
  let '(d, personalCF, _) := j in
  if truthyString serviceType
     && negb (bool_decide
                (Some (serviceTypeName (cf_serviceType personalCF)) = serviceType))
  then false
  else cf_version personalCF >? dep_deployedVersion d.

Definition toUpdateNotification (j : Joined) : UpdateNotification :=
  let '(d, personalCF, instance) := j in
  mkUpdateNotification (dep_id d) (dep_personalCFId d) (cf_name personalCF)
    (dep_instanceId d) (inst_label instance) (cf_serviceType personalCF)
    (dep_deployedVersion d) (cf_version personalCF).

(** [GET /api/personal-custom-formats/updates]. *)
Definition GET_updates (userId : string) (instanceId serviceType : option string)
    : St -> Reply * St :=
  handle
    (deployments <- personalCFDeployment_findMany
                      (ledgerWhere userId instanceId) (fun l => l) ;;
     let updates :=
       map toUpdateNotification (List.filter (hasDrift serviceType) deployments) in
     ret (mkReply 200
            (UpdatesBody (bool_decide (0 < length updates)%nat) updates
               (length deployments) (length updates))))
    (fun error =>
       mkReply 500
         (ErrorBody "CHECK_FAILED"
            (errorMessage "Failed to check for updates" error))).

(** ** The remaining routes *)

(** What a route sends: one of the replies above, or the list body of
    [GET /api/personal-custom-formats]. *)
Inductive Response : Type :=
| Plain (reply : Reply)
| CustomFormatsList (status : Z) (customFormats : list PersonalCustomFormat).

(** The [preHandler] hook of both plugins: [!request.currentUser?.id]. *)
Definition preHandler (currentUser : option string) : option Reply :=
  if truthyString currentUser
  then None
  else Some (mkReply 401 (ErrorBody "UNAUTHORIZED" "Authentication required")).

Fixpoint insertBy {A} (before : A -> A -> bool) (x : A) (l : list A) : list A :=
  match l with
  | [] => [x]
  | y :: rest => if before x y then x :: l else y :: insertBy before x rest
  end.

Definition sortBy {A} (before : A -> A -> bool) (l : list A) : list A :=
  foldr (insertBy before) [] l.

(** [GET /api/personal-custom-formats], for a query of the declared type
    ([serviceType?: "RADARR" | "SONARR"]): [where] is [{ userId, deletedAt:
    null }], and [serviceType] when the query gives one.  [before] is the
    database's order for [orderBy: [{ serviceType: "asc" }, { name: "asc" }]].
    The queries of the model do not throw, so the [catch] of the route has
    no counterpart. *)
Definition GET_root (before : PersonalCustomFormat -> PersonalCustomFormat -> bool)
    (userId : string) (serviceType : option ServiceType) : St -> Response * St :=
  fun st =>
    let where_ cf :=
      bool_decide (cf_userId cf = userId)
      && bool_decide (cf_deletedAt cf = None)
      && match serviceType with
         | Some t => bool_decide (cf_serviceType cf = t)
         | None => true
         end in
    (CustomFormatsList 200
       (sortBy before (List.filter where_ (personalCustomFormat (st_db st)))),
     st).

(** [GET /api/personal-custom-formats/:id]. *)
Definition GET_id (userId id : string) : St -> Reply * St :=
  handle
    (cf <- personalCustomFormat_findFirst (ownedLive id userId) ;;
     match cf with
     | None =>
       ret (mkReply 404
              (ErrorBody "NOT_FOUND" "Custom format not found or access denied"))
     | Some cf => ret (mkReply 200 (CustomFormatBody cf))
     end)
    (fun error =>
       mkReply 500
         (ErrorBody "FETCH_FAILED"
            (errorMessage "Failed to fetch custom format" error))).

(** [prisma.personalCFDeployment.findFirst({ where: { id, userId },
    include: { personalCF: true } })]. *)
Definition personalCFDeployment_findFirst (id userId : string)
    : M (option (PersonalCFDeployment * PersonalCustomFormat)) :=
  fun st =>
    match List.find (fun d => bool_decide (dep_id d = id)
                              && bool_decide (dep_userId d = userId))
            (personalCFDeployment (st_db st)) with
    | None => (Returned None, st)
    | Some d =>
      match List.find (fun cf => bool_decide (cf_id cf = dep_personalCFId d))
              (personalCustomFormat (st_db st)) with
      | Some cf => (Returned (Some (d, cf)), st)
      | None =>
        (Threw (ErrorObject "Inconsistent query result: a required relation is missing"), st)
      end
    end.

(** [prisma.personalCFDeployment.delete({ where: { id } })]. *)
Definition personalCFDeployment_delete (id : string) : M unit :=
  fun st =>
    let rows := personalCFDeployment (st_db st) in
    if existsb (fun d => bool_decide (dep_id d = id)) rows
    then (Returned tt,
          setDb (setPersonalCFDeployment
                   (List.filter (fun d => negb (bool_decide (dep_id d = id))) rows)
                   (st_db st)) st)
    else (Threw (ErrorObject "Record to delete does not exist."), st).

(** [DELETE /api/personal-custom-formats/deployments/:id]. *)
Definition DELETE_deployments_id (userId id : string) : St -> Reply * St :=
  handle
    (deployment <- personalCFDeployment_findFirst id userId ;;
     match deployment with
     | None =>
       ret (mkReply 404 (ErrorBody "NOT_FOUND" "Deployment record not found"))
     | Some (_, personalCF) =>
       personalCFDeployment_delete id ;;;
       ret (mkReply 200
              (MessageBody
                 ("Stopped tracking deployment of " +:+ quote
                  +:+ cf_name personalCF +:+ quote)))
     end)
    (fun error =>
       mkReply 500
         (ErrorBody "DELETE_FAILED"
            (errorMessage "Failed to delete deployment record" error))).

(** The requests the two plugins serve. *)
Inductive Request : Type :=
| ReqList (serviceType : option ServiceType)
| ReqGet (id : string)
| ReqCreate (requestBody : CreatePersonalCFRequest)
| ReqUpdate (id : string) (requestBody : UpdatePersonalCFRequest)
| ReqDelete (id : string)
| ReqDeployMultiple (requestBody : DeployMultiplePersonalCFsRequest)
| ReqDeployments (instanceId : option string)
| ReqUpdates (instanceId serviceType : option string)
| ReqStopTracking (id : string).

(** A request through the hook and on to its route, [userId] being
    [request.currentUser!.id]. *)
Definition serve (before : PersonalCustomFormat -> PersonalCustomFormat -> bool)
    (currentUser : option string) (request : Request) : St -> Response * St :=
  fun st =>
    match preHandler currentUser with
    | Some reply => (Plain reply, st)
    | None =>
      let userId := default EmptyString currentUser in
      let plain (r : Reply * St) := (Plain r.1, r.2) in
      match request with
      | ReqList serviceType => GET_root before userId serviceType st
      | ReqGet id => plain (GET_id userId id st)
      | ReqCreate requestBody => plain (POST_root userId requestBody st)
      | ReqUpdate id requestBody => plain (PUT_id userId id requestBody st)
      | ReqDelete id => plain (DELETE_id userId id st)
      | ReqDeployMultiple requestBody =>
        plain (POST_deploy_multiple userId requestBody st)
      | ReqDeployments instanceId => plain (GET_deployments userId instanceId st)
      | ReqUpdates instanceId serviceType =>
        plain (GET_updates userId instanceId serviceType st)
      | ReqStopTracking id => plain (DELETE_deployments_id userId id st)
      end
    end.

End Routes.

Arguments st_db {E} s.
Arguments st_world {E} s.
Arguments st_log {E} s.
Arguments st_results {E} s.

(** ** Reading the log and the reconciliation plan *)

(** A call to the instance for one record. *)
Inductive RemoteCall : Type :=
| CallUpdate (id : Z) (payload : CustomFormat)
| CallCreate (payload : CustomFormat).

Definition remoteEvent (c : RemoteCall) (r : Outcome CustomFormat) : Event :=
  match c with
  | CallUpdate id payload => EvUpdateCustomFormat id payload r
  | CallCreate payload => EvCreateCustomFormat payload r
  end.

Definition remoteCallOf (ev : Event) : option RemoteCall :=
  match ev with
  | EvUpdateCustomFormat id payload _ => Some (CallUpdate id payload)
  | EvCreateCustomFormat payload _ => Some (CallCreate payload)
  | _ => None
  end.

Definition isGetCustomFormats (ev : Event) : bool :=
  match ev with EvGetCustomFormats _ => true | _ => false end.

Definition payloadOf (c : RemoteCall) : CustomFormat :=
  match c with CallUpdate _ payload => payload | CallCreate payload => payload end.

(** The name a successful create (update) call was made for. *)
Definition createdName (ev : Event) : option string :=
  match ev with
  | EvCreateCustomFormat payload (Returned _) => Some (rcf_name payload)
  | _ => None
  end.

Definition updatedName (ev : Event) : option string :=
  match ev with
  | EvUpdateCustomFormat _ payload (Returned _) => Some (rcf_name payload)
  | _ => None
  end.

(** The [{ name, error }] entry of a call that threw. *)
Definition failureOf (ev : Event) : option (string * string) :=
  match ev with
  | EvUpdateCustomFormat _ payload (Threw e)
  | EvCreateCustomFormat payload (Threw e) =>
    Some (rcf_name payload, errorMessage "Unknown error" e)
  | EvRecordDeployment _ personalCF _ (Threw e) =>
    Some (cf_name personalCF, errorMessage "Unknown error" e)
  | _ => None
  end.

(** The record a ledger write was made for. *)
Definition ledgerWrite (ev : Event) : option PersonalCustomFormat :=
  match ev with
  | EvRecordDeployment _ personalCF _ (Returned _) => Some personalCF
  | _ => None
  end.

(** The reconciliation rule in words: a record whose name is a key of the
    index, the indexed object carrying a defined, non-zero id, is updated
    under that id, the payload being the indexed object with the record's
    name, rename flag and transformed specifications; any other record is
    created. *)
Definition plannedCall (E : Env) (existingByName : gmap string CustomFormat)
    (personalCF : PersonalCustomFormat) : RemoteCall :=
  let specifications := map (transformSpec E) (cf_specifications personalCF) in
  let include := Some (cf_includeCustomFormatWhenRenaming personalCF) in
  match existingByName !! cf_name personalCF with
  | Some (mkCustomFormat (Some id) _ _ _) =>
    if bool_decide (id = 0)
    then CallCreate (mkCustomFormat None (cf_name personalCF) include specifications)
    else CallUpdate id
           (mkCustomFormat (Some id) (cf_name personalCF) include specifications)
  | _ => CallCreate (mkCustomFormat None (cf_name personalCF) include specifications)
  end.

(** The shape of the log of one loop iteration: the planned call, and after
    a call that returned, the ledger write with the returned id. *)
Inductive ItemLog (E : Env) (instanceId : string)
    (existingByName : gmap string CustomFormat)
    (personalCF : PersonalCustomFormat) : list Event -> Prop :=
| ItemLog_call_threw e :
    ItemLog E instanceId existingByName personalCF
      [remoteEvent (plannedCall E existingByName personalCF) (Threw e)]
| ItemLog_call_returned r o :
    ItemLog E instanceId existingByName personalCF
      [remoteEvent (plannedCall E existingByName personalCF) (Returned r);
       EvRecordDeployment instanceId personalCF (rcf_id r) o].

Inductive BatchLog (E : Env) (instanceId : string)
    (existingByName : gmap string CustomFormat)
    : list PersonalCustomFormat -> list Event -> Prop :=
| BatchLog_nil : BatchLog E instanceId existingByName [] []
| BatchLog_cons personalCF rest evs1 evs :
    ItemLog E instanceId existingByName personalCF evs1 ->
    BatchLog E instanceId existingByName rest evs ->
    BatchLog E instanceId existingByName (personalCF :: rest) (evs1 ++ evs).

(** At most one ledger entry under every (instance, record) key. *)
Definition ledgerUnique (rows : list PersonalCFDeployment) : Prop :=
  forall instanceId personalCFId,
    (length (List.filter (ledgerKey instanceId personalCFId) rows) <= 1)%nat.

(** ** The guards of a batch, by name *)

(** The instance the deployment route finds for the caller. *)
Definition fetchedInstance (userId instanceId : string) (db : Db)
    : option ServiceInstance :=
  List.find (fun i => bool_decide (inst_id i = instanceId)
                      && bool_decide (inst_userId i = userId))
    (serviceInstance db).

(** The records it fetches: owned, not deleted, id among the requested. *)
Definition fetchedRecords (userId : string) (ids : list string) (db : Db)
    : list PersonalCustomFormat :=
  List.filter (ownedLiveIn ids userId) (personalCustomFormat db).

(** The first fetched record whose service type is not the instance's. *)
Definition serviceMismatch (instance : ServiceInstance)
    (personalCFs : list PersonalCustomFormat) : option PersonalCustomFormat :=
  List.find
    (fun cf => negb (bool_decide
       (serviceTypeName (cf_serviceType cf) = inst_service instance)))
    personalCFs.

(** A request passes the guards, the client is built and the listing of the
    instance returns [existingFormats]. *)
Definition batchStarts (E : Env) (userId : string)
    (requestBody : DeployMultiplePersonalCFsRequest) (st : St E)
    (instance : ServiceInstance) (existingFormats : list CustomFormat) : Prop :=
  deployMultipleSchema requestBody = true
  /\ fetchedInstance userId (dreq_instanceId requestBody) (st_db st) = Some instance
  /\ length (fetchedRecords userId (personalCFIds requestBody) (st_db st))
     = length (personalCFIds requestBody)
  /\ serviceMismatch instance
       (fetchedRecords userId (personalCFIds requestBody) (st_db st)) = None
  /\ createArrApiClient E instance = None
  /\ getCustomFormats E instance (st_world st) = Returned existingFormats.

(** The unique index of [personalCustomFormat] holds of the table. *)
Definition tableUnique (rows : list PersonalCustomFormat) : Prop :=
  NoDup (map (fun cf => (cf_userId cf, cf_name cf, cf_serviceType cf)) rows).

(** The ledger has exactly one row for the record at the instance, and
    the row carries the record's version and specifications. *)
Definition ledgered (instanceId : string) (personalCF : PersonalCustomFormat)
    (rows : list PersonalCFDeployment) : Prop :=
  exists d,
    List.filter (ledgerKey instanceId (cf_id personalCF)) rows = [d]
    /\ dep_deployedVersion d = cf_version personalCF
    /\ dep_deployedSpecsSnapshot d = cf_specifications personalCF.

(** The foreign keys of the ledger resolve: every row points to a record
    and to an instance ([personalCFId] and [instanceId] are required
    relations; a record is never removed, only soft-deleted). *)
Definition refIntegrity (db : Db) : Prop :=
  Forall (fun d => is_Some (includeRelations db d)) (personalCFDeployment db).

(** The ledger rows in the scope of a list query, each with its record and
    instance. *)
Definition inScope (userId : string) (instanceId : option string) (db : Db)
    (j : Joined) : Prop :=
  exists d, d ∈ personalCFDeployment db
            /\ ledgerWhere userId instanceId d = true
            /\ includeRelations db d = Some j.

(** The record a ledger write that threw was made for. *)
Definition ledgerFailure (ev : Event) : option PersonalCustomFormat :=
  match ev with
  | EvRecordDeployment _ personalCF _ (Threw _) => Some personalCF
  | _ => None
  end.

(** ** Invariants of the records table *)

(** The primary key: no two rows share an [id]. *)
Definition primaryKey (rows : list PersonalCustomFormat) : Prop :=
  NoDup (map cf_id rows).

(** No two rows that are not deleted share owner, name and service type. *)
Definition liveUnique (rows : list PersonalCustomFormat) : Prop :=
  forall i j a b,
    rows !! i = Some a -> rows !! j = Some b ->
    cf_deletedAt a = None -> cf_deletedAt b = None ->
    cf_userId a = cf_userId b -> cf_name a = cf_name b ->
    cf_serviceType a = cf_serviceType b ->
    i = j.

(** The rows of the records table that belong to other users. *)
Definition rowsOfOthers (userId : string) (rows : list PersonalCustomFormat)
    : list PersonalCustomFormat :=
  List.filter (fun cf => negb (bool_decide (cf_userId cf = userId))) rows.

(** The reply every record route gives for a record it does not find. *)
Definition notFound : Reply :=
  mkReply 404 (ErrorBody "NOT_FOUND" "Custom format not found or access denied").

(** The [data] the update route builds from a valid patch for the record
    it found. *)
Definition putData (cf : PersonalCustomFormat)
    (requestBody : UpdatePersonalCFRequest) : UpdateData :=
  mkUpdateData
    (if truthyString (ureq_name requestBody) then ureq_name requestBody else None)
    (ureq_includeCustomFormatWhenRenaming requestBody)
    (if truthyArray (ureq_specifications requestBody)
     then ureq_specifications requestBody else None)
    (Some (if truthyArray (ureq_specifications requestBody)
           then cf_version cf + 1 else cf_version cf))
    None.

(** The rows after [update({ where: { id }, data })] at instant [t]. *)
Definition updatedRows (id : string) (data : UpdateData) (t : Z)
    (rows : list PersonalCustomFormat) : list PersonalCustomFormat :=
  map (fun r => if bool_decide (cf_id r = id) then applyData data t r else r) rows.

(** A ledger row of another instance than the given one. *)
Definition otherInstance (instanceId : string) (d : PersonalCFDeployment) : bool :=
  negb (bool_decide (dep_instanceId d = instanceId)).

(** ** Invariants of the ledger *)

(** The primary key of [serviceInstance]. *)
Definition instanceKey (rows : list ServiceInstance) : Prop :=
  NoDup (map inst_id rows).

(** The columns of a ledger row that say whose it is and what it points
    to. *)
Definition ledgerKeys (d : PersonalCFDeployment) : string * string * string :=
  (dep_userId d, dep_personalCFId d, dep_instanceId d).

(** The row's foreign keys resolve, to a record and to an instance of the
    row's own user. *)
Definition rowOwned (db : Db) (d : PersonalCFDeployment) : Prop :=
  exists cf i,
    includeRelations db d = Some (d, cf, i)
    /\ cf_userId cf = dep_userId d
    /\ inst_userId i = dep_userId d.

Definition ledgerOwned (db : Db) : Prop :=
  forall d, d ∈ personalCFDeployment db -> rowOwned db d.

(** The records of a table are still there in another, under their ids
    and with their owners. *)
Definition recordsKept (rows rows' : list PersonalCustomFormat) : Prop :=
  forall id cf,
    List.find (fun r => bool_decide (cf_id r = id)) rows = Some cf ->
    exists cf',
      List.find (fun r => bool_decide (cf_id r = id)) rows' = Some cf'
      /\ cf_userId cf' = cf_userId cf.

(** Every requested id names a live record of the caller. *)
Definition allOwnedLive (userId : string) (ids : list string)
    (rows : list PersonalCustomFormat) : Prop :=
  forall id, id ∈ ids -> is_Some (List.find (ownedLive id userId) rows).

(** The reply of the count guard of the deployment route. *)
Definition someNotFound : Reply :=
  mkReply 404 (ErrorBody "SOME_CFS_NOT_FOUND" "Some custom formats were not found").

(** The primary key of the ledger. *)
Definition ledgerPrimaryKey (rows : list PersonalCFDeployment) : Prop :=
  NoDup (map dep_id rows).

(** The ledger rows of other users. *)
Definition ledgerOfOthers (userId : string) (rows : list PersonalCFDeployment)
    : list PersonalCFDeployment :=
  List.filter (fun d => negb (bool_decide (dep_userId d = userId))) rows.

(** ** The client: API functions and react-query hooks

    [lib/api-client/personal-custom-formats.ts] and
    [hooks/api/usePersonalCustomFormats.ts].  A call of an API function is
    identified with the request it makes: the route it reaches and the
    parameters the route reads. *)











(** An element of a query key: a string, or an object of parameters. *)
Inductive KeyPart : Type :=
| KStr (s : string)
| KParams (params : list (string * option string)).

#[global] Instance KeyPart_eq_dec : EqDecision KeyPart.
Proof. solve_decision. Defined.







(** The mutation hooks, each with the variables of [mutateAsync]. *)
Inductive MutationHook : Type :=
| useCreatePersonalCustomFormat (payload : CreatePersonalCFRequest)
| useUpdatePersonalCustomFormat (id : string) (payload : UpdatePersonalCFRequest)
| useDeletePersonalCustomFormat (id : string)
| useDeployMultiplePersonalCFs (payload : DeployMultiplePersonalCFsRequest)
| useDeletePersonalCFDeployment (deploymentId : string).





(** ** The client: editor and deploy dialog

    [PersonalCFEditor], [PersonalCFClient] and [PersonalCFDeployModal]:
    the state updates and the requests the handlers make. *)

Section Editor.

Context (isWhiteSpace : Ascii.ascii -> bool).
Context (JSON_stringify : list CustomFormatSpecification -> string).

(** [String.prototype.trim], for the white space [isWhiteSpace]. *)
Fixpoint trimStart (s : string) : string :=
  match s with
  | EmptyString => EmptyString
  | String c rest => if isWhiteSpace c then trimStart rest else s
  end.

Definition trim (s : string) : string :=
  String.rev (trimStart (String.rev (trimStart s))).

(** The form state of the editor. *)
Record EditorForm : Type := mkForm {
  form_name : string;
  form_serviceType : ServiceType;
  form_includeWhenRenaming : bool;
  form_specifications : list CustomFormatSpecification
}.

(** The initial values of the [useState] calls. *)
Definition initialForm (customFormat : option PersonalCustomFormat)
    (initialServiceType : option ServiceType) : EditorForm :=
  match customFormat with
  | Some customFormat =>
    mkForm (cf_name customFormat) (cf_serviceType customFormat)
      (cf_includeCustomFormatWhenRenaming customFormat)
      (cf_specifications customFormat)
  | None => mkForm EmptyString (default RADARR initialServiceType) false []
  end.

Definition newSpec : CustomFormatSpecification :=
  mkSpec "New Condition" "ReleaseTitleSpecification" false false
    [("value", JStr EmptyString)].

Definition addSpecification (specifications : list CustomFormatSpecification)
    : list CustomFormatSpecification :=
  specifications ++ [newSpec].

(** [specifications.filter((_, i) => i !== index)]. *)
Fixpoint filterIndex {A} (keep : nat -> bool) (i : nat) (l : list A) : list A :=
  match l with
  | [] => []
  | x :: rest =>
    if keep i then x :: filterIndex keep (S i) rest else filterIndex keep (S i) rest
  end.

Definition removeSpecification (index : nat)
    (specifications : list CustomFormatSpecification)
    : list CustomFormatSpecification :=
  filterIndex (fun i => negb (bool_decide (i = index))) 0 specifications.

Definition validate (form : EditorForm) : option string :=
  if bool_decide (trim (form_name form) = EmptyString)
  then Some "Name is required"
  else if bool_decide (length (form_specifications form) = 0%nat)
  then Some "At least one specification is required"
  else if existsb
            (fun spec => bool_decide (spec_name spec = EmptyString)
                         || bool_decide (spec_implementation spec = EmptyString))
            (form_specifications form)
  then Some "All specifications must have a name and implementation"
  else None.

(** What a handler of the client does: an error toast, or a mutation. *)
Inductive Action : Type :=
| ToastError (message : string)
| MutateAsync (m : MutationHook).

(** [handleSave] of the editor, up to the call of the mutation. *)
Definition handleSave (customFormat : option PersonalCustomFormat)
    (form : EditorForm) : Action :=
  match validate form with
  | Some validationError => ToastError validationError
  | None =>
    match customFormat with
    | Some customFormat =>
      MutateAsync
        (useUpdatePersonalCustomFormat (cf_id customFormat)
           (mkUpdateReq
              (if bool_decide (form_name form <> cf_name customFormat)
               then Some (form_name form) else None)
              (if bool_decide (form_includeWhenRenaming form
                               <> cf_includeCustomFormatWhenRenaming customFormat)
               then Some (form_includeWhenRenaming form) else None)
              (if bool_decide (JSON_stringify (form_specifications form)
                               <> JSON_stringify (cf_specifications customFormat))
               then Some (form_specifications form) else None)))
    | None =>
      MutateAsync
        (useCreatePersonalCustomFormat
           (mkCreateReq (form_name form) (form_serviceType form)
              (Some (form_includeWhenRenaming form))
              (form_specifications form)))
    end
  end.

(** [handleDeploy] of [PersonalCFClient]: the dialog opens on the one
    record. *)
Definition deployingCFs (cf : PersonalCustomFormat) : list PersonalCustomFormat :=
  [cf].

(** [handleDeploy] of the dialog, up to the call of the mutation. *)
Definition handleDeploy (customFormats : list PersonalCustomFormat)
    (selectedInstanceId : string) : Action :=
  if bool_decide (selectedInstanceId = EmptyString)
  then ToastError "Please select an instance"
  else MutateAsync
         (useDeployMultiplePersonalCFs
            (mkDeployReq (map cf_id customFormats) selectedInstanceId)).

End Editor.

(** ** The client: selection of records for a template

    [PersonalCFSelection]: the [selections] state, an object keyed by
    record id, and its updates. *)

Section Selection.

(** [number], and [Number.parseInt(score, 10)]. *)
Context {Number : Type} (parseInt : string -> Number).

Record SelectionEntry : Type := mkSelection {
  selected : bool;
  scoreOverride : option Number
}.

#[local] Abbreviation Selections := (gmap string SelectionEntry).

(** [prev[cfId]?.selected] as a condition, and [prev[cfId]?.scoreOverride]. *)
Definition isSelected (prev : Selections) (cfId : string) : bool :=
  default false (selected <$> prev !! cfId).

Definition scoreOf (prev : Selections) (cfId : string) : option Number :=
  prev !! cfId ≫= scoreOverride.

Definition toggleCF (cfId : string) (prev : Selections) : Selections :=
  <[cfId := mkSelection (negb (isSelected prev cfId)) (scoreOf prev cfId)]> prev.

Definition updateScore (cfId score : string) (prev : Selections) : Selections :=
  let scoreValue :=
    if bool_decide (score = EmptyString) then None else Some (parseInt score) in
  <[cfId := mkSelection (isSelected prev cfId) scoreValue]> prev.

(** The loop of [selectAll] and [deselectAll] over the loaded records:
    [updated[cf.id] = { selected, scoreOverride: prev[cf.id]?.scoreOverride }]. *)
Definition setAll (value : bool) (customFormats : list PersonalCustomFormat)
    (prev : Selections) : Selections :=
  foldl (fun updated cf =>
           <[cf_id cf := mkSelection value (scoreOf prev (cf_id cf))]> updated)
    prev customFormats.

Definition selectAll : list PersonalCustomFormat -> Selections -> Selections :=
  setAll true.

Definition deselectAll : list PersonalCustomFormat -> Selections -> Selections :=
  setAll false.

(** [Object.values(selections).filter(s => s?.selected).length]. *)
Definition selectedCount (selections : Selections) : nat :=
  length (List.filter selected (map snd (map_to_list selections))).

End Selection.

(** ** A small world for the examples *)

(** The instance answers with the stored object, numbered by the instant of
    the call; it refuses a custom format named "broken".  Its listing has
    an object with id 0 and an object without id.  The database refuses
    the ledger write at instant 7. *)
Definition demoRemote (payload : CustomFormat) (w : nat) : Outcome CustomFormat :=
  if bool_decide (rcf_name payload = "broken")
  then Threw (ErrorObject "Bad Request")
  else Returned (mkCustomFormat
                   (Some (match rcf_id payload with
                          | Some i => i
                          | None => 100 + Z.of_nat w
                          end))
                   (rcf_name payload)
                   (rcf_includeCustomFormatWhenRenaming payload)
                   (rcf_specifications payload)).

(** The transformer of the examples, after the spec's "object-of-fields to
    ordered array-of-fields": every field becomes one element of the array,
    in the order of the keys. *)
Definition demoTransform (fields : list (string * Json)) : Json :=
  JArr (map (fun kv => JObj [("name", JStr kv.1); ("value", kv.2)]) fields).

Definition demoExisting : list CustomFormat :=
  [mkCustomFormat (Some 7) "HDR" (Some false) [];
   mkCustomFormat (Some 0) "Zero" (Some false) [];
   mkCustomFormat None "Draft" (Some false) []].

Definition demoEnv : Env :=
  mkEnv nat S Z.of_nat
    (fun w => String (Ascii.ascii_of_nat (97 + w)) EmptyString)
    (fun _ => None)
    (fun _ _ => Returned demoExisting)
    (fun _ payload w => demoRemote payload w)
    (fun _ _ payload w => demoRemote payload w)
    (fun w => if bool_decide (w = 7%nat) then Some (ErrorObject "database is locked") else None)
    demoTransform.

Definition demoSpec : CustomFormatSpecification :=
  mkSpec "x265" "ReleaseTitleSpecification" false true [("value", JStr "x265")].

Definition demoCF (id name : string) (version : Z) (deletedAt : option Z)
    : PersonalCustomFormat :=
  mkPersonalCF id "alice" name RADARR false [demoSpec] version 0 0 deletedAt.

Definition demoInstance : ServiceInstance :=
  mkInstance "radarr-1" "alice" "Radarr" "RADARR".

Definition demoSonarr : ServiceInstance :=
  mkInstance "sonarr-1" "alice" "Sonarr" "SONARR".

Definition demoSt (w : nat) (cfs : list PersonalCustomFormat)
    (ledger : list PersonalCFDeployment) : St demoEnv :=
  mkSt demoEnv (mkDb cfs ledger [demoInstance; demoSonarr]) w []
    (mkResults [] [] []).

(** Three records, the second of which the instance refuses. *)
Definition demoRecords : list PersonalCustomFormat :=
  [demoCF "r1" "HDR" 1 None; demoCF "r2" "broken" 1 None; demoCF "r3" "DV" 4 None].

Definition demoRequest : DeployMultiplePersonalCFsRequest :=
  mkDeployReq ["r1"; "r2"; "r3"] "radarr-1".

Definition demoPayload (id : option Z) (name : string) : CustomFormat :=
  mkCustomFormat id name (Some false)
    [mkTSpec "x265" "ReleaseTitleSpecification" false true
       (JArr [JObj [("name", JStr "value"); ("value", JStr "x265")]])].

(** A ledger of two rows; the record of the first was edited after its
    deployment and then soft-deleted. *)
Definition demoLedgerSt : St demoEnv :=
  demoSt 9 [demoCF "r1" "HDR" 2 (Some 8); demoCF "r9" "Old" 1 None]
    [mkDeployment "d" "alice" "r1" "radarr-1" 7 1 [demoSpec] 3;
     mkDeployment "f" "alice" "r9" "radarr-1" 104 1 [demoSpec] 5].

(** A record of another user. *)
Definition demoOther : PersonalCustomFormat :=
  mkPersonalCF "o" "bob" "HDR" RADARR false [] 1 0 0 None.

(** A table of four records: two live records of alice, one she deleted,
    and the record of bob. *)
Definition demoTable : list PersonalCustomFormat :=
  [demoCF "r1" "HDR" 1 None; demoOther; demoCF "t" "Gone" 2 (Some 0);
   demoCF "r3" "DV" 4 None].

(** Service type first, then name. *)
Definition demoBefore (a b : PersonalCustomFormat) : bool :=
  String.ltb (serviceTypeName (cf_serviceType a)) (serviceTypeName (cf_serviceType b))
  || (bool_decide (cf_serviceType a = cf_serviceType b)
      && String.leb (cf_name a) (cf_name b)).

(** Two records the instance accepts. *)
Definition demoCleanRecords : list PersonalCustomFormat :=
  [demoCF "r1" "HDR" 1 None; demoCF "r3" "DV" 4 None].

(** A printer of specifications for the examples: names and
    implementations, in order. *)
Definition demoStringify (specifications : list CustomFormatSpecification) : string :=
  foldr (fun spec rest =>
           spec_name spec +:+ ":" +:+ spec_implementation spec +:+ ";" +:+ rest)
    EmptyString specifications.

(** A database two users share: alice's record "r9", deployed to her
    instance, and bob's record "o", deployed to his. *)
Definition demoBobInstance : ServiceInstance :=
  mkInstance "radarr-b" "bob" "Radarr of bob" "RADARR".

Definition demoSharedSt : St demoEnv :=
  mkSt demoEnv
    (mkDb [demoCF "r9" "Old" 1 None; demoOther]
       [mkDeployment "f" "alice" "r9" "radarr-1" 104 1 [demoSpec] 5;
        mkDeployment "g" "bob" "o" "radarr-b" 9 1 [] 6]
       [demoInstance; demoSonarr; demoBobInstance])
    9%nat [] (mkResults [] [] []).

(** * Properties *)

Section Properties.

Context (E : Env).

(** ** Generic facts about the table operations *)

Lemma find_map_stable {A} (p : A -> bool) (f : A -> A) (l : list A) :
  (forall x, p (f x) = p x) ->
  List.find p (map f l) = f <$> List.find p l.
Proof.
  intros Hp. induction l as [|x l IH]; simpl; [done|].
  rewrite Hp. destruct (p x); [done|apply IH].
Qed.

Lemma ownedLive_applyData id userId data t cf :
  data_deletedAt data = None ->
  ownedLive id userId (applyData data t cf) = ownedLive id userId cf.
Proof. intros Hd. unfold ownedLive, applyData. simpl. by rewrite Hd. Qed.

Lemma ownedLive_id id userId cf : ownedLive id userId cf = true -> cf_id cf = id.
Proof.
  unfold ownedLive. rewrite !andb_true_iff, !bool_decide_eq_true. tauto.
Qed.

(** What a successful [PUT] leaves in the table. *)
Lemma PUT_id_200 userId id requestBody st reply st' :
  PUT_id E userId id requestBody st = (reply, st') ->
  status reply = 200 ->
  exists cf data,
    List.find (ownedLive id userId) (personalCustomFormat (st_db st)) = Some cf
    /\ data_deletedAt data = None
    /\ data_version data =
         Some (if truthyArray (ureq_specifications requestBody)
               then cf_version cf + 1 else cf_version cf)
    /\ personalCustomFormat (st_db st') =
         map (fun r => if bool_decide (cf_id r = id)
                       then applyData data (now E (st_world st)) r else r)
           (personalCustomFormat (st_db st)).
Proof.
  unfold PUT_id. destruct (updatePersonalCFSchema requestBody); simpl;
    [|intros [= <- <-]; done].
  unfold handle, bind, personalCustomFormat_findFirst, ret.
  destruct (List.find (ownedLive id userId) _) as [cf|] eqn:Hcf;
    [|intros [= <- <-]; done].
  destruct (truthyString (ureq_name requestBody)
            && negb (bool_decide (ureq_name requestBody = Some (cf_name cf)))).
  - destruct (List.find (liveNamed _ _ _) _); [intros [= <- <-]; done|].
    unfold personalCustomFormat_update.
    destruct (List.find (fun r => bool_decide (cf_id r = id)) _); [|intros [= <- <-]; done].
    destruct (existsb _ _); [intros [= <- <-]; done|].
    intros [= <- <-] _. eexists cf, _. split; [done|]. simpl.
    split_and!; [| |reflexivity]; reflexivity.
  - unfold personalCustomFormat_update.
    destruct (List.find (fun r => bool_decide (cf_id r = id)) _); [|intros [= <- <-]; done].
    destruct (existsb _ _); [intros [= <- <-]; done|].
    intros [= <- <-] _. eexists cf, _. split; [done|]. simpl.
    split_and!; [| |reflexivity]; reflexivity.
Qed.

(** A [PUT] that is not answered 200 changes nothing. *)
Lemma PUT_id_rejected userId id requestBody st :
  status (PUT_id E userId id requestBody st).1 <> 200 ->
  (PUT_id E userId id requestBody st).2 = st.
Proof.
  unfold PUT_id. destruct (updatePersonalCFSchema requestBody); simpl; [|done].
  unfold handle, bind, personalCustomFormat_findFirst, ret.
  destruct (List.find (ownedLive id userId) _) as [cf|]; [|done].
  destruct (truthyString (ureq_name requestBody)
            && negb (bool_decide (ureq_name requestBody = Some (cf_name cf))));
    [destruct (List.find (liveNamed _ _ _) _); [done|]|];
    unfold personalCustomFormat_update;
    (destruct (List.find (fun r => bool_decide (cf_id r = id)) _); [|done]);
    (destruct (existsb _ _); [done|]); simpl; done.
Qed.

(** C1. Every applied update ([PUT] answering 200) of a record leaves the
    stored version at the old version plus one exactly when the patch has a
    [specifications] field, whatever the submitted specifications are (equal
    to the stored ones or not); when the field is omitted the version stays,
    whatever [name] and [includeCustomFormatWhenRenaming] are. *)
Theorem PUT_version_increment userId id requestBody st reply st' :
  PUT_id E userId id requestBody st = (reply, st') ->
  status reply = 200 ->
  exists cf cf',
    List.find (ownedLive id userId) (personalCustomFormat (st_db st)) = Some cf
    /\ List.find (ownedLive id userId) (personalCustomFormat (st_db st')) = Some cf'
    /\ (cf_version cf' = cf_version cf + 1
        <-> is_Some (ureq_specifications requestBody))
    /\ (cf_version cf' = cf_version cf
        <-> ureq_specifications requestBody = None).
Proof.
  intros Hrun Hok.
  destruct (PUT_id_200 _ _ _ _ _ _ Hrun Hok) as (cf & data & Hcf & Hdel & Hver & Hrows).
  exists cf, (applyData data (now E (st_world st)) cf).
  split; [done|]. split.
  - rewrite Hrows, find_map_stable, Hcf; simpl.
    + apply find_some in Hcf as [_ Hcf].
      by rewrite (ownedLive_id _ _ _ Hcf), bool_decide_true.
    + intros x. case_bool_decide; [|done]. by apply ownedLive_applyData.
  - unfold applyData; simpl. rewrite Hver; simpl.
    destruct (ureq_specifications requestBody) as [specs|]; simpl;
      split; split; intros H; try done; try lia; try (by eexists);
      try (by destruct H).
Qed.

(** ** Creation, soft deletion and the unique index *)

(** A live record with the same owner, name and service type: the route
    answers 409 and touches nothing. *)
Lemma POST_root_conflict userId requestBody st :
  createPersonalCFSchema requestBody = true ->
  (exists cf, cf ∈ personalCustomFormat (st_db st)
     /\ liveNamed userId (creq_name requestBody) (creq_serviceType requestBody) cf = true) ->
  POST_root E userId requestBody st =
    (mkReply 409
       (ErrorBody "DUPLICATE_NAME"
          (duplicateNameMessage (creq_name requestBody) (creq_serviceType requestBody))),
     st).
Proof.
  intros Hvalid (cf & Hin & Hlive). unfold POST_root. rewrite Hvalid. simpl.
  unfold handle, bind, personalCustomFormat_findFirst.
  destruct (List.find _ _) eqn:Hfind; [done|].
  apply list_elem_of_In in Hin.
  by rewrite (find_none _ _ Hfind _ Hin) in Hlive.
Qed.

(** Only a soft-deleted record has the same owner, name and service type:
    the duplicate check lets the request through and the insert fails on
    the table, so the route answers 500 and the table is as before. *)
Lemma POST_root_tombstone_collision userId requestBody st :
  createPersonalCFSchema requestBody = true ->
  (exists cf, cf ∈ personalCustomFormat (st_db st)
     /\ cf_userId cf = userId
     /\ cf_name cf = creq_name requestBody
     /\ cf_serviceType cf = creq_serviceType requestBody
     /\ cf_deletedAt cf <> None) ->
  (forall cf, cf ∈ personalCustomFormat (st_db st) ->
     liveNamed userId (creq_name requestBody) (creq_serviceType requestBody) cf = false) ->
  exists message,
    POST_root E userId requestBody st =
      (mkReply 500 (ErrorBody "CREATE_FAILED" message), st).
Proof.
  intros Hvalid (cf & Hin & Hu & Hn & Hs & _) Hnolive.
  unfold POST_root. rewrite Hvalid. simpl.
  unfold handle, bind, personalCustomFormat_findFirst.
  destruct (List.find _ _) as [x|] eqn:Hfind.
  { apply find_some in Hfind as [Hx Hlx].
    apply list_elem_of_In in Hx. by rewrite (Hnolive _ Hx) in Hlx. }
  unfold personalCustomFormat_create.
  destruct (existsb (fun r => bool_decide (cf_id r = _)) _); [by eexists|].
  match goal with |- context [existsb ?p ?l] => assert (existsb p l = true) as -> end;
    [|by eexists].
  apply existsb_exists. exists cf. split; [by apply list_elem_of_In|].
  unfold sameUniqueKey. simpl. rewrite Hu, Hn, Hs.
  by rewrite !bool_decide_true.
Qed.

(** ** One iteration of the deployment loop *)

Ltac case_remote :=
  match goal with
  | |- context [updateCustomFormat E ?i ?n ?p ?w] =>
    destruct (updateCustomFormat E i n p w) as [?r|?e] eqn:?
  | |- context [createCustomFormat E ?i ?p ?w] =>
    destruct (createCustomFormat E i p w) as [?r|?e] eqn:?
  end.

Ltac case_ledger :=
  match goal with
  | |- context [rcf_id ?r] =>
    is_var r; destruct (rcf_id r) eqn:?; simpl;
    [match goal with
     | |- context [upsertFault E ?w] => destruct (upsertFault E w) eqn:?
     end|]
  end.

Lemma ItemLog_threw instanceId existingByName personalCF c e :
  plannedCall E existingByName personalCF = c ->
  ItemLog E instanceId existingByName personalCF [remoteEvent c (Threw e)].
Proof. intros <-. constructor. Qed.

Lemma ItemLog_returned instanceId existingByName personalCF c r x o :
  plannedCall E existingByName personalCF = c ->
  rcf_id r = x ->
  ItemLog E instanceId existingByName personalCF
    [remoteEvent c (Returned r);
     EvRecordDeployment instanceId personalCF x o].
Proof. intros <- <-. constructor. Qed.

(** The loop body never throws; its log has the shape [ItemLog], and the
    three result lists grow by what the log shows. *)
Lemma deployOne_run userId instanceId instance existingByName personalCF st :
  exists st' evs,
    deployOne E userId instanceId instance existingByName personalCF st
      = (Returned tt, st')
    /\ st_log st' = st_log st ++ evs
    /\ ItemLog E instanceId existingByName personalCF evs
    /\ created (st_results st') = created (st_results st) ++ omap createdName evs
    /\ updated (st_results st') = updated (st_results st) ++ omap updatedName evs
    /\ failed (st_results st') = failed (st_results st) ++ omap failureOf evs
    /\ personalCustomFormat (st_db st') = personalCustomFormat (st_db st)
    /\ serviceInstance (st_db st') = serviceInstance (st_db st)
    /\ (personalCFDeployment (st_db st') = personalCFDeployment (st_db st)
        /\ omap ledgerWrite evs = []
        \/ omap ledgerWrite evs = [personalCF]
           /\ exists instanceCFId w,
               personalCFDeployment (st_db st') =
                 upsertRows instanceId (cf_id personalCF)
                   (mkDeploymentUpdate (Some instanceCFId) (cf_version personalCF)
                      (cf_specifications personalCF) (now E w))
                   (mkDeploymentCreate userId (cf_id personalCF) instanceId
                      (Some instanceCFId) (cf_version personalCF)
                      (cf_specifications personalCF))
                   instanceCFId (cuid E w) (now E w)
                   (personalCFDeployment (st_db st))).
Proof.
  unfold deployOne, try_catch, bind, arrClient_updateCustomFormat,
    arrClient_createCustomFormat, remoteCall, recordDeployment,
    personalCFDeployment_upsert, results_created_push, results_updated_push,
    results_failed_push, setResults, ret.
  pose proof (eq_refl (plannedCall E existingByName personalCF)) as Hplan.
  unfold plannedCall at 2 in Hplan.
  destruct (existingByName !! cf_name personalCF) as [[[id|] n i s]|] eqn:Hidx;
    simpl in *; [destruct (bool_decide (id = 0)) eqn:?; simpl in *|..];
    (case_remote; simpl; [case_ledger; simpl|]);
    eexists _, _; (split; [reflexivity|]); simpl; rewrite <- ?app_assoc; simpl;
    (split; [reflexivity|]);
    (split; [first [exact (ItemLog_threw _ _ _ _ _ Hplan)
                   |match goal with
                    | H : rcf_id _ = _ |- _ =>
                      exact (ItemLog_returned _ _ _ _ _ _ _ Hplan H)
                    end]|]);
    simpl; rewrite ?app_nil_r; split_and!; try reflexivity;
    first [by left|right; split; [reflexivity|by eexists _, _]].
Qed.

(** ** The upsert on the rows of the ledger *)

Lemma filter_map_stable {A} (p : A -> bool) (f : A -> A) (l : list A) :
  (forall x, p (f x) = p x) ->
  List.filter p (map f l) = map f (List.filter p l).
Proof.
  intros Hp. induction l as [|x l IH]; simpl; [done|].
  rewrite Hp. destruct (p x); simpl; by rewrite IH.
Qed.

Lemma filter_nil_of_existsb {A} (p : A -> bool) (l : list A) :
  existsb p l = false -> List.filter p l = [].
Proof.
  induction l as [|x l IH]; simpl; [done|].
  destruct (p x); simpl; [done|apply IH].
Qed.

Lemma existsb_filter_nonempty {A} (p : A -> bool) (l : list A) :
  existsb p l = true -> List.filter p l <> [].
Proof.
  induction l as [|x l IH]; simpl; [done|].
  destruct (p x); simpl; [done|apply IH].
Qed.

Lemma ledgerKey_applyDeploymentUpdate i c u d :
  ledgerKey i c (applyDeploymentUpdate u d) = ledgerKey i c d.
Proof. reflexivity. Qed.

Section Upsert.

Context (instanceId personalCFId : string).
Context (update : DeploymentUpdate) (create : DeploymentCreate).
Context (instanceCFId : Z) (id : string) (createdNow : Z).
Context (rows : list PersonalCFDeployment).
Hypothesis create_instanceId : new_instanceId create = instanceId.
Hypothesis create_personalCFId : new_personalCFId create = personalCFId.

Let rows' :=
  upsertRows instanceId personalCFId update create instanceCFId id createdNow rows.

Lemma upsertRows_filter i c :
  List.filter (ledgerKey i c) rows' =
    if existsb (ledgerKey instanceId personalCFId) rows
    then map (fun d => if ledgerKey instanceId personalCFId d
                       then applyDeploymentUpdate update d else d)
           (List.filter (ledgerKey i c) rows)
    else List.filter (ledgerKey i c) rows
         ++ (if bool_decide (i = instanceId) && bool_decide (c = personalCFId)
             then [mkDeployment id (new_userId create) personalCFId instanceId
                     instanceCFId (new_deployedVersion create)
                     (new_deployedSpecsSnapshot create) createdNow]
             else []).
Proof.
  unfold rows', upsertRows.
  destruct (existsb (ledgerKey instanceId personalCFId) rows).
  - apply filter_map_stable. intros d.
    destruct (ledgerKey instanceId personalCFId d); done.
  - rewrite List.filter_app. f_equal. simpl.
    rewrite create_instanceId, create_personalCFId.
    unfold ledgerKey; simpl.
    rewrite (bool_decide_ext (instanceId = i) (i = instanceId)) by done.
    rewrite (bool_decide_ext (personalCFId = c) (c = personalCFId)) by done.
    by destruct (_ && _).
Qed.

Lemma upsertRows_unique : ledgerUnique rows -> ledgerUnique rows'.
Proof.
  intros Hu i c. rewrite upsertRows_filter.
  destruct (existsb (ledgerKey instanceId personalCFId) rows) eqn:Hex.
  - rewrite length_map. apply Hu.
  - rewrite length_app.
    destruct (bool_decide (i = instanceId)) eqn:Hi;
      destruct (bool_decide (c = personalCFId)) eqn:Hc; simpl;
      try (specialize (Hu i c); lia).
    apply bool_decide_eq_true in Hi, Hc. subst.
    by rewrite (filter_nil_of_existsb _ _ Hex).
Qed.

(** After the upsert there is exactly one row under the key, and it carries
    the deployed version, the snapshot, the instant and the remote id of
    this call. *)
Lemma upsertRows_entry :
  ledgerUnique rows ->
  upd_instanceCFId update = Some instanceCFId ->
  new_deployedVersion create = upd_deployedVersion update ->
  new_deployedSpecsSnapshot create = upd_deployedSpecsSnapshot update ->
  createdNow = upd_deployedAt update ->
  exists d,
    List.filter (ledgerKey instanceId personalCFId) rows' = [d]
    /\ dep_instanceCFId d = instanceCFId
    /\ dep_deployedVersion d = upd_deployedVersion update
    /\ dep_deployedSpecsSnapshot d = upd_deployedSpecsSnapshot update
    /\ dep_deployedAt d = upd_deployedAt update.
Proof.
  intros Hu Hid Hv Hs Ht. rewrite upsertRows_filter.
  destruct (existsb (ledgerKey instanceId personalCFId) rows) eqn:Hex.
  - pose proof (existsb_filter_nonempty _ _ Hex) as Hne.
    specialize (Hu instanceId personalCFId).
    destruct (List.filter (ledgerKey instanceId personalCFId) rows)
      as [|d [|d' l]] eqn:Hf; simpl in *; [done| |lia].
    assert (ledgerKey instanceId personalCFId d = true) as ->.
    { eapply (proj1 (filter_In _ d rows)). rewrite Hf. by left. }
    eexists. split; [reflexivity|]. simpl. by rewrite Hid.
  - rewrite (filter_nil_of_existsb _ _ Hex), !bool_decide_true by done. simpl.
    eexists. split; [reflexivity|]. simpl. by rewrite Hv, Hs, Ht.
Qed.

(** The rows under every other key are as they were. *)
Lemma upsertRows_others i c :
  (i, c) <> (instanceId, personalCFId) ->
  List.filter (ledgerKey i c) rows' = List.filter (ledgerKey i c) rows.
Proof.
  intros Hne. rewrite upsertRows_filter.
  destruct (existsb (ledgerKey instanceId personalCFId) rows).
  - rewrite <- (map_id (List.filter (ledgerKey i c) rows)) at 2.
    apply map_ext_in. intros d [_ Hd]%filter_In.
    destruct (ledgerKey instanceId personalCFId d) eqn:Hk; [|done].
    unfold ledgerKey in *.
    rewrite !andb_true_iff, !bool_decide_eq_true in Hd, Hk.
    destruct Hd as [<- <-], Hk as [<- <-]. done.
  - destruct (bool_decide (i = instanceId)) eqn:Hi;
      destruct (bool_decide (c = personalCFId)) eqn:Hc; simpl;
      rewrite ?app_nil_r; try done.
    apply bool_decide_eq_true in Hi, Hc. by subst.
Qed.

(** No second row: the table grows by one row only when the key was new. *)
Lemma upsertRows_length :
  length rows' =
    if existsb (ledgerKey instanceId personalCFId) rows
    then length rows else S (length rows).
Proof.
  unfold rows', upsertRows.
  destruct (existsb (ledgerKey instanceId personalCFId) rows).
  - apply length_map.
  - rewrite length_app. simpl. lia.
Qed.

End Upsert.

(** ** The deployment loop *)

Lemma deployOne_ledgerUnique userId instanceId instance existingByName personalCF st :
  ledgerUnique (personalCFDeployment (st_db st)) ->
  ledgerUnique
    (personalCFDeployment
       (st_db (deployOne E userId instanceId instance existingByName personalCF st).2)).
Proof.
  intros Hu.
  destruct (deployOne_run userId instanceId instance existingByName personalCF st)
    as (st' & evs & -> & _ & _ & _ & _ & _ & _ & _ & Hledger). simpl.
  destruct Hledger as [[-> _]|[_ (rid & w & ->)]]; [done|].
  by apply upsertRows_unique.
Qed.

(** The loop attempts every record, whatever happened to the records before
    it, and never throws. *)
Lemma deployLoop_run userId instanceId instance existingByName personalCFs st :
  exists st' evs,
    forOf E (deployOne E userId instanceId instance existingByName) personalCFs st
      = (Returned tt, st')
    /\ st_log st' = st_log st ++ evs
    /\ BatchLog E instanceId existingByName personalCFs evs
    /\ created (st_results st') = created (st_results st) ++ omap createdName evs
    /\ updated (st_results st') = updated (st_results st) ++ omap updatedName evs
    /\ failed (st_results st') = failed (st_results st) ++ omap failureOf evs
    /\ personalCustomFormat (st_db st') = personalCustomFormat (st_db st)
    /\ serviceInstance (st_db st') = serviceInstance (st_db st)
    /\ (ledgerUnique (personalCFDeployment (st_db st)) ->
        ledgerUnique (personalCFDeployment (st_db st'))).
Proof.
  revert st. induction personalCFs as [|personalCF rest IH]; intros st; simpl.
  - exists st, []. rewrite !app_nil_r. split_and!; try done. constructor.
  - pose proof (deployOne_ledgerUnique userId instanceId instance existingByName
                  personalCF st) as Hu1.
    destruct (deployOne_run userId instanceId instance existingByName personalCF st)
      as (st1 & evs1 & Hrun1 & Hlog1 & Hitem & Hc1 & Hu1' & Hf1 & Hcf1 & Hi1 & _).
    destruct (IH st1)
      as (st' & evs & Hrun & Hlog & Hbatch & Hc & Hu & Hf & Hcf & Hi & Huniq).
    exists st', (evs1 ++ evs). unfold bind. rewrite Hrun1 in *. simpl in Hu1.
    rewrite Hrun, Hlog, Hlog1, Hc, Hc1, Hu, Hu1', Hf, Hf1, Hcf, Hcf1, Hi, Hi1.
    rewrite !omap_app, !app_assoc. split_and!; try done.
    + by constructor.
    + auto.
Qed.

(** An iteration touches the rows of its own key only. *)
Lemma deployOne_frame userId instanceId instance existingByName personalCF st i c :
  (i, c) <> (instanceId, cf_id personalCF) ->
  List.filter (ledgerKey i c)
    (personalCFDeployment
       (st_db (deployOne E userId instanceId instance existingByName personalCF st).2))
  = List.filter (ledgerKey i c) (personalCFDeployment (st_db st)).
Proof.
  intros Hne.
  destruct (deployOne_run userId instanceId instance existingByName personalCF st)
    as (st' & evs & -> & _ & _ & _ & _ & _ & _ & _ & Hledger). simpl.
  destruct Hledger as [[-> _]|[_ (rid & w & ->)]]; [done|].
  by apply upsertRows_others.
Qed.

Lemma deployLoop_frame userId instanceId instance existingByName personalCFs st i c :
  (forall personalCF, personalCF ∈ personalCFs ->
     (i, c) <> (instanceId, cf_id personalCF)) ->
  List.filter (ledgerKey i c)
    (personalCFDeployment
       (st_db (forOf E (deployOne E userId instanceId instance existingByName)
                 personalCFs st).2))
  = List.filter (ledgerKey i c) (personalCFDeployment (st_db st)).
Proof.
  revert st. induction personalCFs as [|personalCF rest IH]; intros st Hne; [done|].
  simpl. unfold bind.
  pose proof (deployOne_frame userId instanceId instance existingByName personalCF
                st i c) as Hframe.
  destruct (deployOne_run userId instanceId instance existingByName personalCF st)
    as (st1 & evs1 & Hrun1 & _).
  rewrite Hrun1 in *. simpl in Hframe.
  rewrite IH, Hframe; [done|apply Hne; left|intros; apply Hne; by right].
Qed.

(** After the loop, every record with a ledger write in the log has its one
    row, at the record's version. *)
Lemma deployLoop_ledgered userId instanceId instance existingByName personalCFs :
  forall st st' evs,
    forOf E (deployOne E userId instanceId instance existingByName) personalCFs st
      = (Returned tt, st') ->
    st_log st' = st_log st ++ evs ->
    NoDup (map cf_id personalCFs) ->
    ledgerUnique (personalCFDeployment (st_db st)) ->
    forall personalCF,
      personalCF ∈ omap ledgerWrite evs ->
      ledgered instanceId personalCF (personalCFDeployment (st_db st')).
Proof.
  induction personalCFs as [|head rest IH]; intros st st' evs Hrun Hlog Hnd Hu cf Hcf.
  { simpl in Hrun. injection Hrun as <-.
    rewrite <- (app_nil_r (st_log st)) in Hlog at 1.
    apply app_inv_head in Hlog as <-. by apply elem_of_nil in Hcf. }
  change (NoDup (cf_id head :: map cf_id rest)) in Hnd.
  apply NoDup_cons in Hnd as [Hfresh Hnd].
  pose proof (deployOne_ledgerUnique userId instanceId instance existingByName
                head st Hu) as Hu1.
  pose proof (deployLoop_frame userId instanceId instance existingByName rest
                (deployOne E userId instanceId instance existingByName head st).2
                instanceId (cf_id head)) as Hframe.
  simpl in Hrun. unfold bind in Hrun.
  destruct (deployOne_run userId instanceId instance existingByName head st)
    as (st1 & evs1 & Hrun1 & Hlog1 & _ & _ & _ & _ & _ & _ & Hledger).
  rewrite Hrun1 in *. simpl in Hu1, Hframe.
  destruct (deployLoop_run userId instanceId instance existingByName rest st1)
    as (st2 & evs2 & Hrun2 & Hlog2 & _).
  rewrite Hrun2 in Hrun. injection Hrun as ->. rewrite Hrun2 in Hframe. simpl in Hframe.
  rewrite Hlog2, Hlog1, <- app_assoc in Hlog. apply app_inv_head in Hlog as <-.
  rewrite omap_app, elem_of_app in Hcf. destruct Hcf as [Hcf|Hcf].
  - destruct Hledger as [[_ Hnone]|[Hone (rid & w & Hrows)]].
    { rewrite Hnone in Hcf. by apply elem_of_nil in Hcf. }
    rewrite Hone in Hcf. apply list_elem_of_singleton in Hcf as ->.
    unfold ledgered. rewrite Hframe.
    + rewrite Hrows.
      destruct (upsertRows_entry instanceId (cf_id head)
                  (mkDeploymentUpdate (Some rid) (cf_version head)
                     (cf_specifications head) (now E w))
                  (mkDeploymentCreate userId (cf_id head) instanceId (Some rid)
                     (cf_version head) (cf_specifications head))
                  rid (cuid E w) (now E w) (personalCFDeployment (st_db st)))
        as (d & Hd & _ & Hv & Hs & _); try done.
      by exists d.
    + intros other Hother [= Heq]. apply Hfresh. rewrite Heq.
      apply list_elem_of_In, in_map. by apply list_elem_of_In.
  - by apply (IH st1 st' evs2).
Qed.

(** ** What the shape of the log says *)

Section BatchLogFacts.

Context (instanceId : string) (existingByName : gmap string CustomFormat).

Lemma plannedCall_name personalCF :
  rcf_name (payloadOf (plannedCall E existingByName personalCF)) = cf_name personalCF.
Proof.
  unfold plannedCall.
  destruct (existingByName !! cf_name personalCF) as [[[id|] ? ? ?]|];
    [destruct (bool_decide (id = 0))|..]; done.
Qed.

Lemma remoteEvent_call c r : remoteCallOf (remoteEvent c r) = Some c.
Proof. by destruct c. Qed.

Lemma remoteEvent_not_list c r : isGetCustomFormats (remoteEvent c r) = false.
Proof. by destruct c. Qed.

Lemma remoteEvent_ledgerWrite c r : ledgerWrite (remoteEvent c r) = None.
Proof. by destruct c. Qed.

Lemma remoteEvent_failure c e :
  failureOf (remoteEvent c (Threw e))
    = Some (rcf_name (payloadOf c), errorMessage "Unknown error" e).
Proof. by destruct c. Qed.

Lemma remoteEvent_no_failure c r : failureOf (remoteEvent c (Returned r)) = None.
Proof. by destruct c. Qed.


Lemma remoteEvent_no_success c e :
  createdName (remoteEvent c (Threw e)) = None
  /\ updatedName (remoteEvent c (Threw e)) = None.
Proof. by destruct c. Qed.

(** One remote call per record, in the order of the batch, each the planned
    one. *)
Lemma BatchLog_calls personalCFs evs :
  BatchLog E instanceId existingByName personalCFs evs ->
  omap remoteCallOf evs = map (plannedCall E existingByName) personalCFs.
Proof.
  induction 1 as [|personalCF rest evs1 evs Hitem _ IH]; [done|].
  rewrite omap_app, IH. destruct Hitem; simpl; by rewrite remoteEvent_call.
Qed.

Lemma BatchLog_no_list personalCFs evs :
  BatchLog E instanceId existingByName personalCFs evs ->
  List.filter isGetCustomFormats evs = [].
Proof.
  induction 1 as [|personalCF rest evs1 evs Hitem _ IH]; [done|].
  rewrite List.filter_app, IH.
  destruct Hitem; simpl; by rewrite remoteEvent_not_list.
Qed.

(** A failure entry names a record of the batch. *)
Lemma BatchLog_failed_names personalCFs evs :
  BatchLog E instanceId existingByName personalCFs evs ->
  (omap failureOf evs).*1 ⊆ map cf_name personalCFs.
Proof.
  induction 1 as [|personalCF rest evs1 evs Hitem _ IH]; [done|].
  rewrite omap_app, fmap_app. simpl.
  destruct Hitem as [e|r [[]|e]]; simpl;
    rewrite ?remoteEvent_failure, ?remoteEvent_no_failure; simpl;
    rewrite ?plannedCall_name; set_solver.
Qed.

(** The ledger writes of a batch are the records with no failure entry. *)
Lemma BatchLog_ledger_writes personalCFs evs :
  NoDup (map cf_name personalCFs) ->
  BatchLog E instanceId existingByName personalCFs evs ->
  omap ledgerWrite evs =
    List.filter
      (fun personalCF =>
         negb (bool_decide (cf_name personalCF ∈ (omap failureOf evs).*1)))
      personalCFs.
Proof.
  intros Hnd Hbatch.
  induction Hbatch as [|personalCF rest evs1 evs Hitem Hbatch IH]; [done|].
  change (NoDup (cf_name personalCF :: map cf_name rest)) in Hnd.
  apply NoDup_cons in Hnd as [Hfresh Hnd]. specialize (IH Hnd).
  pose proof (BatchLog_failed_names _ _ Hbatch) as Hsub.
  assert (Hrest : forall names : list string,
             (forall x, x ∈ names ->
                x = cf_name personalCF \/ x ∈ (omap failureOf evs).*1) ->
             (forall x, x ∈ (omap failureOf evs).*1 -> x ∈ names) ->
             List.filter
               (fun p => negb (bool_decide (cf_name p ∈ names))) rest
             = omap ledgerWrite evs).
  { intros names Hnames1 Hnames2. rewrite IH. apply List.filter_ext_in.
    intros p Hp%list_elem_of_In. f_equal. apply bool_decide_ext.
    split; [|by auto]. intros [Hin|]%Hnames1; [|done].
    destruct Hfresh. rewrite <- Hin. apply list_elem_of_In, in_map.
    by apply list_elem_of_In. }
  change (map cf_name (personalCF :: rest))
    with (cf_name personalCF :: map cf_name rest) in *.
  rewrite !omap_app, fmap_app. simpl.
  destruct Hitem as [e|r [[]|e]]; simpl;
    rewrite ?remoteEvent_failure, ?remoteEvent_no_failure,
      ?remoteEvent_ledgerWrite; simpl; rewrite ?plannedCall_name.
  - rewrite bool_decide_true by set_solver. simpl.
    symmetry. apply Hrest; set_solver.
  - rewrite bool_decide_false; simpl.
    + f_equal. symmetry. apply Hrest; set_solver.
    + intros Hin. by apply Hsub in Hin.
  - rewrite bool_decide_true by set_solver. simpl.
    symmetry. apply Hrest; set_solver.
Qed.



End BatchLogFacts.

(** ** The records of a batch have distinct names *)

Lemma NoDup_map_filter {A B} (f : A -> B) (p : A -> bool) (l : list A) :
  NoDup (map f l) -> NoDup (map f (List.filter p l)).
Proof.
  induction l as [|x l IH]; simpl; [done|].
  intros [Hx Hl]%NoDup_cons. destruct (p x); simpl; [|by apply IH].
  apply NoDup_cons. split; [|by apply IH].
  intros Hin. apply Hx. apply list_elem_of_In, in_map_iff in Hin as (y & <- & Hy).
  apply filter_In in Hy as [Hy _]. apply list_elem_of_In, in_map_iff. eauto.
Qed.

Lemma NoDup_map_coarser {A B C} (f : A -> B) (g : A -> C) (l : list A) :
  NoDup (map f l) ->
  (forall x y, In x l -> In y l -> g x = g y -> f x = f y) ->
  NoDup (map g l).
Proof.
  induction l as [|x l IH]; simpl; [constructor|].
  intros [Hx Hl]%NoDup_cons Hfg. apply NoDup_cons. split.
  - intros Hin. apply Hx. apply list_elem_of_In, in_map_iff in Hin as (y & Hy & Hin).
    apply list_elem_of_In, in_map_iff. exists y. split; [|done].
    symmetry. apply Hfg; auto.
  - apply IH; [done|]. intros; apply Hfg; auto.
Qed.

Lemma serviceTypeName_inj a b : serviceTypeName a = serviceTypeName b -> a = b.
Proof. by destruct a, b. Qed.

Lemma fetchedRecords_names_NoDup userId ids db instance :
  tableUnique (personalCustomFormat db) ->
  serviceMismatch instance (fetchedRecords userId ids db) = None ->
  NoDup (map cf_name (fetchedRecords userId ids db)).
Proof.
  intros Hu Hmis.
  apply (NoDup_map_coarser
           (fun cf => (cf_userId cf, cf_name cf, cf_serviceType cf))).
  { by apply NoDup_map_filter. }
  intros x y Hx Hy Hname.
  pose proof (find_none _ _ Hmis x Hx) as Hsx.
  pose proof (find_none _ _ Hmis y Hy) as Hsy.
  apply negb_false_iff, bool_decide_eq_true in Hsx, Hsy.
  apply filter_In in Hx as [_ Hx], Hy as [_ Hy].
  unfold ownedLiveIn in Hx, Hy.
  rewrite !andb_true_iff, !bool_decide_eq_true in Hx, Hy.
  destruct Hx as [[_ ->] _], Hy as [[_ ->] _].
  rewrite Hname. f_equal. apply serviceTypeName_inj. congruence.
Qed.

(** ** A batch that starts *)

(** The run of the deployment route once the guards are passed and the
    instance has been listed: the listing is the first new entry of the
    log, the loop follows, and the reply carries the three lists. *)
Lemma POST_deploy_multiple_run userId requestBody st instance existingFormats :
  batchStarts E userId requestBody st instance existingFormats ->
  exists st' evs,
    POST_deploy_multiple E userId requestBody st =
      (mkReply (if bool_decide (length (omap failureOf evs) = 0%nat)
                then 200 else 400)
         (DeployBody (bool_decide (length (omap failureOf evs) = 0%nat))
            (omap createdName evs) (omap updatedName evs)
            (omap failureOf evs)),
       st')
    /\ st_log st' = st_log st ++ EvGetCustomFormats (Returned existingFormats) :: evs
    /\ BatchLog E (dreq_instanceId requestBody) (existingByNameOf existingFormats)
         (fetchedRecords userId (personalCFIds requestBody) (st_db st)) evs
    /\ personalCustomFormat (st_db st') = personalCustomFormat (st_db st)
    /\ (ledgerUnique (personalCFDeployment (st_db st)) ->
        ledgerUnique (personalCFDeployment (st_db st')))
    /\ (NoDup (map cf_id (personalCustomFormat (st_db st))) ->
        ledgerUnique (personalCFDeployment (st_db st)) ->
        forall personalCF,
          personalCF ∈ omap ledgerWrite evs ->
          ledgered (dreq_instanceId requestBody) personalCF
            (personalCFDeployment (st_db st'))).
Proof.
  intros (Hschema & Hinst & Hlen & Hmis & Hclient & Hlist).
  unfold POST_deploy_multiple. rewrite Hschema. simpl.
  unfold handle, bind at 1, serviceInstance_findFirst.
  unfold fetchedInstance in Hinst. rewrite Hinst.
  unfold bind at 1, personalCustomFormat_findMany.
  unfold fetchedRecords in *. rewrite bool_decide_true by done. simpl.
  unfold serviceMismatch in Hmis. rewrite Hmis, Hclient.
  unfold bind at 1, arrClient_getCustomFormats, remoteCall. rewrite Hlist.
  unfold bind at 1, setResults. unfold bind at 1.
  match goal with
  | |- context [forOf E ?body ?l ?s] =>
    destruct (deployLoop_run userId (dreq_instanceId requestBody) instance
                (existingByNameOf existingFormats) l s)
      as (st' & evs & Hloop & Hlog & Hbatch & Hc & Hu & Hf & Hcf & _ & Huniq);
    pose proof (deployLoop_ledgered userId (dreq_instanceId requestBody) instance
                  (existingByNameOf existingFormats) l s st' evs Hloop Hlog)
      as Hledgered;
    rewrite Hloop
  end.
  simpl in *. exists st', evs. unfold bind, getResults, ret.
  rewrite Hc, Hu, Hf.
  split; [by destruct (bool_decide _)|]. rewrite <- app_assoc in Hlog.
  split_and!; try done.
  intros Hpk. apply Hledgered. by apply NoDup_map_filter.
Qed.

(** ** The index of the instance's objects *)

Lemma existingByNameOf_snoc existingFormats cf :
  existingByNameOf (existingFormats ++ [cf])
    = <[rcf_name cf := cf]> (existingByNameOf existingFormats).
Proof. unfold existingByNameOf. by rewrite foldl_app. Qed.

(** The index maps a name to the last object of the listing with that
    name. *)
Lemma existingByNameOf_lookup existingFormats name :
  existingByNameOf existingFormats !! name
    = List.find (fun cf => bool_decide (rcf_name cf = name)) (rev existingFormats).
Proof.
  induction existingFormats as [|cf l IH] using rev_ind; [done|].
  rewrite existingByNameOf_snoc, rev_unit, lookup_insert. simpl.
  case_decide; [by rewrite bool_decide_true|by rewrite bool_decide_false].
Qed.

(** ** The guards *)

(** C4. When the instance is not found for the caller, or fewer records are
    fetched than ids were requested, or a fetched record's service type is
    not the instance's, the route answers with one error object (404 or
    400) and the state is the state before the request: no call to the
    instance is in the log, no ledger row is written, no record of the
    batch is attempted. *)
Theorem deploy_guard_failure userId requestBody st :
  (fetchedInstance userId (dreq_instanceId requestBody) (st_db st) = None
   \/ (length (fetchedRecords userId (personalCFIds requestBody) (st_db st))
       < length (personalCFIds requestBody))%nat
   \/ exists instance cf,
        fetchedInstance userId (dreq_instanceId requestBody) (st_db st) = Some instance
        /\ cf ∈ fetchedRecords userId (personalCFIds requestBody) (st_db st)
        /\ serviceTypeName (cf_serviceType cf) <> inst_service instance) ->
  exists code error message,
    POST_deploy_multiple E userId requestBody st
      = (mkReply code (ErrorBody error message), st)
    /\ (code = 404 \/ code = 400).
Proof.
  intros Hguard. unfold POST_deploy_multiple.
  destruct (deployMultipleSchema requestBody); simpl; [|by eexists _, _, _; eauto].
  unfold handle, bind at 1, serviceInstance_findFirst.
  unfold fetchedInstance, fetchedRecords in Hguard.
  destruct (List.find _ (serviceInstance (st_db st))) as [instance|] eqn:Hinst;
    [|by eexists _, _, _; eauto].
  unfold bind at 1, personalCustomFormat_findMany.
  case_bool_decide as Hlen; simpl; [|by eexists _, _, _; eauto].
  destruct (List.find _ (List.filter _ _)) as [mismatch|] eqn:Hmis;
    [by eexists _, _, _; eauto|].
  exfalso. destruct Hguard as [?|[?|(i & cf & [= <-] & Hcf & Hne)]]; [done|lia|].
  apply list_elem_of_In in Hcf.
  pose proof (find_none _ _ Hmis cf Hcf) as Hs.
  by apply negb_false_iff, bool_decide_eq_true in Hs.
Qed.

(** C9. A request that names an id twice is rejected with the
    records-not-found error, whatever the ids refer to: the schema accepts
    it, the fetch returns every row once, and the count of fetched rows
    stays below the count of requested ids. *)
Theorem deploy_duplicate_ids_rejected userId requestBody st instance :
  NoDup (map cf_id (personalCustomFormat (st_db st))) ->
  ~ NoDup (personalCFIds requestBody) ->
  dreq_instanceId requestBody <> EmptyString ->
  fetchedInstance userId (dreq_instanceId requestBody) (st_db st) = Some instance ->
  deployMultipleSchema requestBody = true
  /\ (length (fetchedRecords userId (personalCFIds requestBody) (st_db st))
      < length (personalCFIds requestBody))%nat
  /\ POST_deploy_multiple E userId requestBody st
     = (mkReply 404
          (ErrorBody "SOME_CFS_NOT_FOUND" "Some custom formats were not found"),
        st).
Proof.
  intros Hpk Hdup Hinstance Hinst.
  assert (Hschema : deployMultipleSchema requestBody = true).
  { unfold deployMultipleSchema. apply andb_true_iff. split; apply Nat.leb_le.
    - destruct (personalCFIds requestBody); [destruct Hdup; constructor|simpl; lia].
    - destruct (dreq_instanceId requestBody); [done|simpl; lia]. }
  assert (Hlen : (length (fetchedRecords userId (personalCFIds requestBody) (st_db st))
                  < length (personalCFIds requestBody))%nat).
  { apply Nat.nle_gt. intros Hle. apply Hdup. apply NoDup_ListNoDup.
    apply List.NoDup_incl_NoDup
      with (l := map cf_id (fetchedRecords userId (personalCFIds requestBody) (st_db st))).
    - by apply NoDup_ListNoDup, NoDup_map_filter.
    - by rewrite length_map.
    - intros x (cf & <- & Hcf)%in_map_iff.
      apply filter_In in Hcf as [_ Hcf]. unfold ownedLiveIn in Hcf.
      rewrite !andb_true_iff, !bool_decide_eq_true in Hcf.
      apply list_elem_of_In. tauto. }
  split; [done|]. split; [done|].
  unfold POST_deploy_multiple. rewrite Hschema. simpl.
  unfold handle, bind at 1, serviceInstance_findFirst.
  unfold fetchedInstance in Hinst. rewrite Hinst.
  unfold bind at 1, personalCustomFormat_findMany.
  unfold fetchedRecords in Hlen. rewrite bool_decide_false by lia. done.
Qed.

(** ** Reconciliation *)

(** C2, as the code has it.  In a batch that passes the guards and whose
    listing of the instance returns, the instance is listed once, before
    any other call, and the listing is indexed by name, the last object of
    a name winning.  Then every record of the batch gets one call, in the
    order of the batch: an update under the indexed object's id when the
    record's name is a key of the index and that object carries a defined,
    non-zero id, and a create in every other case ([plannedCall]); the
    reply's [updated] list holds the names of the update calls that
    returned and its [created] list the names of the create calls that
    returned. *)
Theorem deploy_reconciles_by_name userId requestBody st instance existingFormats :
  batchStarts E userId requestBody st instance existingFormats ->
  exists st' evs code success failed,
    POST_deploy_multiple E userId requestBody st
      = (mkReply code
           (DeployBody success (omap createdName evs) (omap updatedName evs) failed),
         st')
    /\ st_log st' = st_log st ++ EvGetCustomFormats (Returned existingFormats) :: evs
    /\ List.filter isGetCustomFormats evs = []
    /\ (forall name,
          existingByNameOf existingFormats !! name
            = List.find (fun cf => bool_decide (rcf_name cf = name))
                (rev existingFormats))
    /\ omap remoteCallOf evs
       = map (plannedCall E (existingByNameOf existingFormats))
           (fetchedRecords userId (personalCFIds requestBody) (st_db st)).
Proof.
  intros Hstart.
  destruct (POST_deploy_multiple_run _ _ _ _ _ Hstart)
    as (st' & evs & Hrun & Hlog & Hbatch & _).
  eexists st', evs, _, _, _. split; [exact Hrun|]. split; [exact Hlog|].
  split; [by eapply BatchLog_no_list|].
  split; [apply existingByNameOf_lookup|]. by eapply BatchLog_calls.
Qed.

(** ** Partial failure *)


(** C7, as the code has it.  A batch in which a call threw is answered
    with status 400; the body is not an error object but the batch result:
    [success] false and the full [created], [updated] and [failed] lists,
    [failed] not empty.  A batch in which no call threw is answered with
    status 200 and [success] true. *)
Theorem deploy_reply_status userId requestBody st instance existingFormats :
  batchStarts E userId requestBody st instance existingFormats ->
  exists st' evs,
    st_log st' = st_log st ++ EvGetCustomFormats (Returned existingFormats) :: evs
    /\ (omap failureOf evs <> [] ->
        POST_deploy_multiple E userId requestBody st
          = (mkReply 400
               (DeployBody false (omap createdName evs) (omap updatedName evs)
                  (omap failureOf evs)),
             st'))
    /\ (omap failureOf evs = [] ->
        POST_deploy_multiple E userId requestBody st
          = (mkReply 200
               (DeployBody true (omap createdName evs) (omap updatedName evs) []),
             st'))
    /\ (forall c e, remoteEvent c (Threw e) ∈ evs -> omap failureOf evs <> []).
Proof.
  intros Hstart.
  destruct (POST_deploy_multiple_run _ _ _ _ _ Hstart)
    as (st' & evs & Hrun & Hlog & _).
  exists st', evs. split; [exact Hlog|]. split_and!.
  - intros Hne. rewrite Hrun, bool_decide_false; [done|].
    by destruct (omap failureOf evs).
  - intros Hnil. rewrite Hrun, Hnil. done.
  - intros c e Hin Hnil.
    assert ((rcf_name (payloadOf c), errorMessage "Unknown error" e)
              ∈ omap failureOf evs) as Hf.
    { apply list_elem_of_omap. eexists. split; [exact Hin|].
      apply remoteEvent_failure. }
    rewrite Hnil in Hf. by apply elem_of_nil in Hf.
Qed.

(** ** The ledger *)

Lemma POST_deploy_multiple_ledgerUnique userId requestBody st :
  ledgerUnique (personalCFDeployment (st_db st)) ->
  ledgerUnique
    (personalCFDeployment (st_db (POST_deploy_multiple E userId requestBody st).2)).
Proof.
  intros Hu. unfold POST_deploy_multiple.
  destruct (deployMultipleSchema requestBody); simpl; [|done].
  unfold handle, bind at 1, serviceInstance_findFirst.
  destruct (List.find _ (serviceInstance (st_db st))) as [instance|]; [|done].
  unfold bind at 1, personalCustomFormat_findMany.
  case_bool_decide; simpl; [|done].
  destruct (List.find _ (List.filter _ _)); [done|].
  destruct (createArrApiClient E instance); [done|].
  unfold bind at 1, arrClient_getCustomFormats, remoteCall.
  destruct (getCustomFormats E instance (st_world st)) as [existingFormats|e]; [|done].
  unfold bind at 1, setResults. unfold bind at 1.
  match goal with
  | |- context [forOf E ?body ?l ?s] =>
    destruct (deployLoop_run userId (dreq_instanceId requestBody) instance
                (existingByNameOf existingFormats) l s)
      as (st' & evs & -> & _ & _ & _ & _ & _ & _ & _ & Huniq)
  end.
  unfold bind, getResults, ret. simpl in *.
  destruct (bool_decide _); simpl; auto.
Qed.

(** C5. Recording a deployment is an upsert under the key (instance,
    record).  From a ledger with at most one row per key, a deployment
    request leaves a ledger with at most one row per key; after a batch,
    every record with a ledger write has exactly one row at the instance,
    at the record's version and with its specifications as snapshot; and
    one recorded deployment leaves exactly one row under its key, carrying
    the record's version at this deployment, its specifications as
    snapshot, the instant of this deployment and the remote id of this
    deployment: the row that was there is overwritten, the table growing by
    a row only when the key was new, and the rows under other keys are
    untouched. *)
Theorem ledger_upsert_keyed st :
  ledgerUnique (personalCFDeployment (st_db st)) ->
  (forall userId requestBody,
     ledgerUnique
       (personalCFDeployment
          (st_db (POST_deploy_multiple E userId requestBody st).2)))
  /\ (forall userId requestBody instance existingFormats,
        NoDup (map cf_id (personalCustomFormat (st_db st))) ->
        batchStarts E userId requestBody st instance existingFormats ->
        exists reply st' evs,
          POST_deploy_multiple E userId requestBody st = (reply, st')
          /\ st_log st'
             = st_log st ++ EvGetCustomFormats (Returned existingFormats) :: evs
          /\ forall personalCF,
               personalCF ∈ omap ledgerWrite evs ->
               ledgered (dreq_instanceId requestBody) personalCF
                 (personalCFDeployment (st_db st')))
  /\ (forall userId instanceId personalCF instanceCFId st',
        recordDeployment E userId instanceId personalCF (Some instanceCFId) st
          = (Returned tt, st') ->
        let rows := personalCFDeployment (st_db st) in
        let rows' := personalCFDeployment (st_db st') in
        ledgerUnique rows'
        /\ (exists d,
              List.filter (ledgerKey instanceId (cf_id personalCF)) rows' = [d]
              /\ dep_deployedVersion d = cf_version personalCF
              /\ dep_deployedSpecsSnapshot d = cf_specifications personalCF
              /\ dep_deployedAt d = now E (st_world st)
              /\ dep_instanceCFId d = instanceCFId)
        /\ length rows'
           = (if existsb (ledgerKey instanceId (cf_id personalCF)) rows
              then length rows else S (length rows))
        /\ (forall i c,
              (i, c) <> (instanceId, cf_id personalCF) ->
              List.filter (ledgerKey i c) rows' = List.filter (ledgerKey i c) rows)).
Proof.
  intros Hu. split; [intros; by apply POST_deploy_multiple_ledgerUnique|].
  split.
  { intros userId requestBody instance existingFormats Hpk Hstart.
    destruct (POST_deploy_multiple_run _ _ _ _ _ Hstart)
      as (st' & evs & Hrun & Hlog & _ & _ & _ & Hledgered).
    eexists _, st', evs. split; [exact Hrun|]. split; [exact Hlog|]. auto. }
  intros userId instanceId personalCF instanceCFId st'.
  unfold recordDeployment, personalCFDeployment_upsert. simpl.
  destruct (upsertFault E (st_world st)); simpl; [done|].
  intros [= <-]. simpl. split_and!.
  - by apply upsertRows_unique.
  - destruct (upsertRows_entry instanceId (cf_id personalCF)
                (mkDeploymentUpdate (Some instanceCFId) (cf_version personalCF)
                   (cf_specifications personalCF) (now E (st_world st)))
                (mkDeploymentCreate userId (cf_id personalCF) instanceId
                   (Some instanceCFId) (cf_version personalCF)
                   (cf_specifications personalCF))
                instanceCFId (cuid E (st_world st)) (now E (st_world st))
                (personalCFDeployment (st_db st)))
      as (d & Hd & ? & ? & ? & ?); try done.
    exists d. by split_and!.
  - by apply upsertRows_length.
  - intros i c Hne. by apply upsertRows_others.
Qed.

(** ** The list routes *)

Lemma insertOrdered_elem d l x : x ∈ insertOrdered d l <-> x = d \/ x ∈ l.
Proof.
  induction l as [|y l IH]; simpl; [set_solver|].
  destruct (orderedBefore d y); set_solver.
Qed.

Lemma orderByInstanceThenDate_elem l x : x ∈ orderByInstanceThenDate l <-> x ∈ l.
Proof.
  unfold orderByInstanceThenDate.
  induction l as [|y l IH]; simpl; [done|].
  rewrite insertOrdered_elem, IH. set_solver.
Qed.

Lemma Forall2_Some_elem {A B} (f : A -> option B) l k y :
  Forall2 (fun x y => f x = Some y) l k ->
  y ∈ k <-> exists x, x ∈ l /\ f x = Some y.
Proof.
  induction 1 as [|x y' l k Hxy _ IH].
  - split; [by intros ?%elem_of_nil|by intros (? & ?%elem_of_nil & _)].
  - rewrite elem_of_cons, IH. split.
    + intros [->|(x' & ? & ?)]; [exists x|exists x']; set_solver.
    + intros (x' & [->|?]%elem_of_cons & Hx'); [left; congruence|right; eauto].
Qed.

(** The query of both list routes: under referential integrity it returns,
    and what it returns are the rows in scope, joined. *)
Lemma personalCFDeployment_findMany_run userId instanceId orderBy st :
  refIntegrity (st_db st) ->
  (forall l x, x ∈ orderBy l <-> x ∈ l) ->
  exists joined,
    personalCFDeployment_findMany E (ledgerWhere userId instanceId) orderBy st
      = (Returned joined, st)
    /\ forall j, j ∈ joined <-> inScope userId instanceId (st_db st) j.
Proof.
  intros Href Horder. unfold personalCFDeployment_findMany.
  destruct (mapM _ _) as [joined|] eqn:Hjoin.
  - exists joined. split; [done|]. intros j.
    apply mapM_Some in Hjoin. rewrite (Forall2_Some_elem _ _ _ _ Hjoin).
    unfold inScope. split; intros (d & Hd & Hj); exists d.
    + apply Horder, list_elem_of_In, filter_In in Hd as [Hd Hw].
      by apply list_elem_of_In in Hd.
    + destruct Hj as [Hw Hj]. split; [|done].
      apply Horder, list_elem_of_In, filter_In. by rewrite <- list_elem_of_In.
  - exfalso. apply mapM_None in Hjoin.
    apply Exists_exists in Hjoin as (d & Hd & Hnone).
    apply Horder, list_elem_of_In, filter_In in Hd as [Hd _].
    unfold refIntegrity in Href. rewrite List.Forall_forall in Href.
    apply Href in Hd as [? Hd]. congruence.
Qed.

Lemma includeRelations_record db d j :
  includeRelations db d = Some j ->
  j.1.1 = d
  /\ List.find (fun cf => bool_decide (cf_id cf = dep_personalCFId d))
       (personalCustomFormat db) = Some j.1.2.
Proof.
  unfold includeRelations.
  destruct (List.find _ (personalCustomFormat db)); [|done].
  destruct (List.find _ (serviceInstance db)); [|done].
  by intros [= <-].
Qed.

Lemma hasDrift_spec serviceType d cf i :
  hasDrift serviceType (d, cf, i) = true
  <-> cf_version cf > dep_deployedVersion d
      /\ (truthyString serviceType = true ->
          serviceType = Some (serviceTypeName (cf_serviceType cf))).
Proof.
  unfold hasDrift. destruct (truthyString serviceType); simpl.
  - case_bool_decide; simpl.
    + rewrite Z.gtb_gt. naive_solver.
    + split; [done|]. intros [_ Hs]. by rewrite Hs in *.
  - rewrite Z.gtb_gt. naive_solver.
Qed.

(** C6. Both list routes compute drift from the live record when they are
    asked and store nothing (the state after is the state before).  Every
    entry [GET /deployments] returns comes from a ledger row in scope and
    the record its key points to, and its [needsUpdate] says whether that
    record's version is above the row's [deployedVersion]: true when the
    record is one version ahead, false when the versions are equal.
    [GET /updates] returns the entries in scope (and of the requested
    service type, when one is given) for which that comparison holds, and
    no other. *)
Theorem drift_computed_on_read userId instanceId serviceType st :
  refIntegrity (st_db st) ->
  exists joined joined',
    GET_deployments E userId instanceId st
      = (mkReply 200 (DeploymentsBody (map formatDeployment joined)), st)
    /\ GET_updates E userId instanceId serviceType st
       = (mkReply 200
            (UpdatesBody
               (bool_decide (0 < length (List.filter (hasDrift serviceType) joined'))%nat)
               (map toUpdateNotification (List.filter (hasDrift serviceType) joined'))
               (length joined')
               (length (List.filter (hasDrift serviceType) joined'))),
          st)
    /\ (forall j, j ∈ joined <-> inScope userId instanceId (st_db st) j)
    /\ (forall j, j ∈ joined' <-> inScope userId instanceId (st_db st) j)
    /\ (forall d cf i,
          inScope userId instanceId (st_db st) (d, cf, i) ->
          List.find (fun r => bool_decide (cf_id r = dep_personalCFId d))
            (personalCustomFormat (st_db st)) = Some cf
          /\ fd_deployedVersion (formatDeployment (d, cf, i)) = dep_deployedVersion d
          /\ fd_currentVersion (formatDeployment (d, cf, i)) = cf_version cf
          /\ (fd_needsUpdate (formatDeployment (d, cf, i)) = true
              <-> cf_version cf > dep_deployedVersion d)
          /\ (cf_version cf = dep_deployedVersion d + 1 ->
              fd_needsUpdate (formatDeployment (d, cf, i)) = true)
          /\ (cf_version cf = dep_deployedVersion d ->
              fd_needsUpdate (formatDeployment (d, cf, i)) = false)
          /\ ((d, cf, i) ∈ List.filter (hasDrift serviceType) joined'
              <-> cf_version cf > dep_deployedVersion d
                  /\ (truthyString serviceType = true ->
                      serviceType = Some (serviceTypeName (cf_serviceType cf))))).
Proof.
  intros Href.
  destruct (personalCFDeployment_findMany_run userId instanceId
              orderByInstanceThenDate st Href orderByInstanceThenDate_elem)
    as (joined & Hrun & Hjoined).
  destruct (personalCFDeployment_findMany_run userId instanceId
              (fun l => l) st Href (fun _ _ => reflexivity _))
    as (joined' & Hrun' & Hjoined').
  exists joined, joined'.
  unfold GET_deployments, GET_updates, handle, bind, ret.
  rewrite Hrun, Hrun', length_map.
  split_and!; try done.
  intros d cf i Hscope. split_and!.
  - destruct Hscope as (d' & _ & _ & Hj).
    by destruct (includeRelations_record _ _ _ Hj) as [[= ->] ?].
  - done.
  - done.
  - simpl. apply Z.gtb_gt.
  - simpl. intros ->. apply Z.gtb_gt. lia.
  - simpl. intros ->. rewrite Z.gtb_ltb. apply Z.ltb_irrefl.
  - rewrite list_elem_of_In, filter_In, <- list_elem_of_In, Hjoined', hasDrift_spec.
    tauto.
Qed.

(** C10. Neither list route looks at [deletedAt]: a ledger row in scope
    whose record is soft-deleted is returned by [GET /deployments] like any
    other, with [needsUpdate] from the same comparison, and when the
    record's version is above the row's [deployedVersion] it is among the
    updates [GET /updates] reports. *)
Theorem tombstoned_record_still_listed userId instanceId st d cf i deletedAt :
  refIntegrity (st_db st) ->
  inScope userId instanceId (st_db st) (d, cf, i) ->
  cf_deletedAt cf = Some deletedAt ->
  (exists deployments,
     GET_deployments E userId instanceId st
       = (mkReply 200 (DeploymentsBody deployments), st)
     /\ formatDeployment (d, cf, i) ∈ deployments
     /\ (fd_needsUpdate (formatDeployment (d, cf, i)) = true
         <-> cf_version cf > dep_deployedVersion d))
  /\ (cf_version cf > dep_deployedVersion d ->
      exists updates totalDeployed,
        GET_updates E userId instanceId None st
          = (mkReply 200 (UpdatesBody true updates totalDeployed (length updates)), st)
        /\ toUpdateNotification (d, cf, i) ∈ updates).
Proof.
  intros Href Hscope _.
  destruct (personalCFDeployment_findMany_run userId instanceId
              orderByInstanceThenDate st Href orderByInstanceThenDate_elem)
    as (joined & Hrun & Hjoined).
  destruct (personalCFDeployment_findMany_run userId instanceId
              (fun l => l) st Href (fun _ _ => reflexivity _))
    as (joined' & Hrun' & Hjoined').
  split.
  - exists (map formatDeployment joined).
    unfold GET_deployments, handle, bind, ret. rewrite Hrun.
    split; [done|]. split; [|simpl; apply Z.gtb_gt].
    apply list_elem_of_fmap_2. by apply Hjoined.
  - intros Hgt.
    assert (Hin : (d, cf, i) ∈ List.filter (hasDrift None) joined').
    { rewrite list_elem_of_In, filter_In, <- list_elem_of_In, Hjoined', hasDrift_spec.
      done. }
    exists (map toUpdateNotification (List.filter (hasDrift None) joined')),
      (length joined').
    unfold GET_updates, handle, bind, ret. rewrite Hrun', !length_map.
    split; [|by apply list_elem_of_fmap_2].
    rewrite bool_decide_true; [done|].
    destruct (List.filter _ _); [by apply elem_of_nil in Hin|simpl; lia].
Qed.

(** * More of the routes *)

(** ** Sorting loses and adds nothing *)

Lemma insertBy_Permutation {A} (before : A -> A -> bool) x l :
  insertBy before x l ≡ₚ x :: l.
Proof.
  induction l as [|y l IH]; simpl; [done|].
  destruct (before x y); [done|]. rewrite IH. apply Permutation_swap.
Qed.

Lemma sortBy_Permutation {A} (before : A -> A -> bool) (l : list A) :
  sortBy before l ≡ₚ l.
Proof.
  unfold sortBy. induction l as [|x l IH]; simpl; [done|].
  by rewrite insertBy_Permutation, IH.
Qed.

Lemma orderByInstanceThenDate_Permutation l : orderByInstanceThenDate l ≡ₚ l.
Proof.
  unfold orderByInstanceThenDate. induction l as [|x l IH]; simpl; [done|].
  rewrite <- IH at 2. clear IH. generalize (foldr insertOrdered [] l). intros k.
  induction k as [|y k IH]; simpl; [done|].
  destruct (orderedBefore x y); [done|]. rewrite IH. apply Permutation_swap.
Qed.

(** ** Reading records *)

(** The list route answers with the caller's records that are not deleted,
    of the requested service type when one is given: each of them once, no
    other row, and the state is left as it was. *)
Theorem GET_root_own_live_records before userId serviceType st :
  exists customFormats,
    GET_root E before userId serviceType st
      = (CustomFormatsList 200 customFormats, st)
    /\ customFormats
       ≡ₚ List.filter
            (fun cf => bool_decide (cf_userId cf = userId)
                       && bool_decide (cf_deletedAt cf = None)
                       && match serviceType with
                          | Some t => bool_decide (cf_serviceType cf = t)
                          | None => true
                          end)
            (personalCustomFormat (st_db st))
    /\ forall cf,
         cf ∈ customFormats
         <-> cf ∈ personalCustomFormat (st_db st)
             /\ cf_userId cf = userId
             /\ cf_deletedAt cf = None
             /\ (forall t, serviceType = Some t -> cf_serviceType cf = t).
Proof.
  eexists. split; [reflexivity|]. split; [apply sortBy_Permutation|].
  intros cf. rewrite sortBy_Permutation, list_elem_of_In, filter_In, <- list_elem_of_In.
  rewrite !andb_true_iff, !bool_decide_eq_true.
  destruct serviceType as [t|]; [rewrite bool_decide_eq_true|]; naive_solver.
Qed.

Lemma find_ownedLive_None id userId rows :
  (forall cf, cf ∈ rows -> cf_id cf = id ->
     cf_userId cf <> userId \/ cf_deletedAt cf <> None) ->
  List.find (ownedLive id userId) rows = None.
Proof.
  intros Hno. destruct (List.find _ _) as [cf|] eqn:Hfind; [|done].
  apply find_some in Hfind as [Hin Hcf]. apply list_elem_of_In in Hin.
  unfold ownedLive in Hcf. rewrite !andb_true_iff, !bool_decide_eq_true in Hcf.
  destruct Hcf as [[Hid Hu] Hd]. destruct (Hno cf Hin Hid); done.
Qed.

(** A record that is absent, a record of another user and a soft-deleted
    record are told apart by no record route: reading, updating and
    deleting answer the same 404 and leave the state as it was. *)
Theorem not_found_is_uniform userId id requestBody st :
  updatePersonalCFSchema requestBody = true ->
  (forall cf, cf ∈ personalCustomFormat (st_db st) -> cf_id cf = id ->
     cf_userId cf <> userId \/ cf_deletedAt cf <> None) ->
  GET_id E userId id st = (notFound, st)
  /\ PUT_id E userId id requestBody st = (notFound, st)
  /\ DELETE_id E userId id st = (notFound, st).
Proof.
  intros Hvalid Hno. apply find_ownedLive_None in Hno.
  unfold GET_id, PUT_id, DELETE_id. rewrite Hvalid. simpl.
  unfold handle, bind, personalCustomFormat_findFirst. by rewrite Hno.
Qed.

(** ** Creating *)

Lemma find_app_r {A} (p : A -> bool) (l k : list A) :
  List.find p l = None -> List.find p (l ++ k) = List.find p k.
Proof.
  induction l as [|x l IH]; simpl; [done|]. destruct (p x); [done|apply IH].
Qed.

Lemma existsb_false_forall {A} (p : A -> bool) (l : list A) :
  (forall x, x ∈ l -> p x = false) -> existsb p l = false.
Proof.
  intros Hp. induction l as [|x l IH]; simpl; [done|].
  rewrite Hp, IH; [done|set_solver|set_solver].
Qed.

(** A valid request whose owner, name and service type no row of the table
    has, deleted or not, creates the record at version 1, not deleted,
    stamped with the instant of the request; the table grows by this row
    alone, the ledger is untouched, and reading the new id gives the record
    back. *)
Theorem POST_root_creates userId requestBody st :
  createPersonalCFSchema requestBody = true ->
  (forall cf, cf ∈ personalCustomFormat (st_db st) ->
     ~ (cf_userId cf = userId
        /\ cf_name cf = creq_name requestBody
        /\ cf_serviceType cf = creq_serviceType requestBody)) ->
  (forall cf, cf ∈ personalCustomFormat (st_db st) ->
     cf_id cf <> cuid E (st_world st)) ->
  let cf :=
    mkPersonalCF (cuid E (st_world st)) userId (creq_name requestBody)
      (creq_serviceType requestBody)
      (default false (creq_includeCustomFormatWhenRenaming requestBody))
      (creq_specifications requestBody) 1
      (now E (st_world st)) (now E (st_world st)) None in
  exists st',
    POST_root E userId requestBody st = (mkReply 201 (CustomFormatBody cf), st')
    /\ personalCustomFormat (st_db st') = personalCustomFormat (st_db st) ++ [cf]
    /\ personalCFDeployment (st_db st') = personalCFDeployment (st_db st)
    /\ GET_id E userId (cf_id cf) st' = (mkReply 200 (CustomFormatBody cf), st').
Proof.
  intros Hvalid Hfree Hfresh cf.
  unfold POST_root. rewrite Hvalid. simpl.
  unfold handle, bind, personalCustomFormat_findFirst.
  destruct (List.find (liveNamed _ _ _) _) as [x|] eqn:Hfind.
  { apply find_some in Hfind as [Hx Hlx]. apply list_elem_of_In in Hx.
    unfold liveNamed in Hlx. rewrite !andb_true_iff, !bool_decide_eq_true in Hlx.
    destruct (Hfree x Hx). tauto. }
  unfold personalCustomFormat_create.
  rewrite existsb_false_forall.
  2:{ intros x Hx. apply bool_decide_eq_false. simpl. by apply Hfresh. }
  rewrite existsb_false_forall.
  2:{ intros x Hx. unfold sameUniqueKey. simpl.
      apply not_true_iff_false. rewrite !andb_true_iff, !bool_decide_eq_true.
      intros [[? ?] ?]. destruct (Hfree x Hx). done. }
  eexists. split; [reflexivity|]. simpl. split; [done|]. split; [done|].
  unfold GET_id, handle, bind, personalCustomFormat_findFirst. simpl.
  rewrite find_app_r.
  - simpl. unfold ownedLive. simpl. by rewrite !bool_decide_true.
  - apply find_ownedLive_None. intros x Hx Hid. by destruct (Hfresh x Hx).
Qed.

(** Whatever the request, creation leaves the rows of the table in place
    and adds at most one; unless it answers 201 it changes nothing at
    all. *)
Theorem POST_root_only_appends userId requestBody st :
  (status (POST_root E userId requestBody st).1 <> 201 ->
   (POST_root E userId requestBody st).2 = st)
  /\ (exists new,
        personalCustomFormat (st_db (POST_root E userId requestBody st).2)
          = personalCustomFormat (st_db st) ++ new
        /\ (length new <= 1)%nat
        /\ (new <> [] -> status (POST_root E userId requestBody st).1 = 201))
  /\ personalCFDeployment (st_db (POST_root E userId requestBody st).2)
     = personalCFDeployment (st_db st).
Proof.
  unfold POST_root. destruct (createPersonalCFSchema requestBody); simpl.
  2:{ split_and!; [done| |done]. exists []. rewrite app_nil_r. split_and!; [done|simpl; lia|done]. }
  unfold handle, bind, personalCustomFormat_findFirst.
  destruct (List.find (liveNamed _ _ _) _); simpl.
  { split_and!; [done| |done]. exists []. rewrite app_nil_r. split_and!; [done|simpl; lia|done]. }
  unfold personalCustomFormat_create.
  destruct (existsb _ _); simpl.
  { split_and!; [done| |done]. exists []. rewrite app_nil_r. split_and!; [done|simpl; lia|done]. }
  destruct (existsb _ _); simpl.
  { split_and!; [done| |done]. exists []. rewrite app_nil_r. split_and!; [done|simpl; lia|done]. }
  split_and!; [done| |done]. eexists [_]. split; [done|]. simpl. split; [lia|done].
Qed.

(** ** Updating *)

Lemma schema_name_truthy requestBody n :
  updatePersonalCFSchema requestBody = true ->
  ureq_name requestBody = Some n ->
  truthyString (Some n) = true.
Proof.
  unfold updatePersonalCFSchema. intros Hvalid Hn. rewrite Hn in Hvalid.
  apply andb_true_iff in Hvalid as [Hvalid _].
  apply andb_true_iff in Hvalid as [Hlen _]. apply Nat.leb_le in Hlen.
  simpl. apply negb_true_iff, bool_decide_eq_false. intros ->. simpl in Hlen. lia.
Qed.

(** What the update route does when it answers 200, in full. *)
Lemma PUT_id_applied userId id requestBody st reply st' :
  PUT_id E userId id requestBody st = (reply, st') ->
  status reply = 200 ->
  exists cf,
    updatePersonalCFSchema requestBody = true
    /\ List.find (ownedLive id userId) (personalCustomFormat (st_db st)) = Some cf
    /\ (forall n, ureq_name requestBody = Some n ->
          n = cf_name cf
          \/ List.find (liveNamed userId n (cf_serviceType cf))
               (personalCustomFormat (st_db st)) = None)
    /\ personalCustomFormat (st_db st')
       = updatedRows id (putData cf requestBody) (now E (st_world st))
           (personalCustomFormat (st_db st))
    /\ personalCFDeployment (st_db st') = personalCFDeployment (st_db st)
    /\ serviceInstance (st_db st') = serviceInstance (st_db st)
    /\ st_log st' = st_log st.
Proof.
  unfold PUT_id. destruct (updatePersonalCFSchema requestBody) eqn:Hvalid; simpl;
    [|intros [= <- <-]; done].
  unfold handle, bind, personalCustomFormat_findFirst, ret.
  destruct (List.find (ownedLive id userId) _) as [cf|] eqn:Hcf;
    [|intros [= <- <-]; done].
  destruct (truthyString (ureq_name requestBody)
            && negb (bool_decide (ureq_name requestBody = Some (cf_name cf))))
    eqn:Hrename.
  - destruct (List.find (liveNamed _ _ _) _) eqn:Hdup; [intros [= <- <-]; done|].
    unfold personalCustomFormat_update.
    destruct (List.find (fun r => bool_decide (cf_id r = id)) _); [|intros [= <- <-]; done].
    destruct (existsb _ _); [intros [= <- <-]; done|].
    intros [= <- <-] _. exists cf. split_and!; try done.
    intros n Hn. right. by rewrite Hn in Hdup.
  - unfold personalCustomFormat_update.
    destruct (List.find (fun r => bool_decide (cf_id r = id)) _); [|intros [= <- <-]; done].
    destruct (existsb _ _); [intros [= <- <-]; done|].
    intros [= <- <-] _. exists cf. split_and!; try done.
    intros n Hn. left.
    rewrite Hn, (schema_name_truthy _ _ Hvalid Hn) in Hrename. simpl in Hrename.
    apply negb_false_iff, bool_decide_eq_true in Hrename. congruence.
Qed.

Lemma updatedRows_lookup id data t rows i :
  updatedRows id data t rows !! i
  = (fun r => if bool_decide (cf_id r = id) then applyData data t r else r)
      <$> rows !! i.
Proof. unfold updatedRows. apply list_lookup_fmap. Qed.

Lemma updatedRows_ids id data t rows :
  map cf_id (updatedRows id data t rows) = map cf_id rows.
Proof.
  unfold updatedRows. rewrite map_map. apply map_ext.
  intros r. by case_bool_decide.
Qed.

(** Renaming a record to the name of another live record of the same owner
    and service type is refused with 409, and nothing changes. *)
Theorem PUT_id_rename_conflict userId id requestBody st cf other newName :
  updatePersonalCFSchema requestBody = true ->
  List.find (ownedLive id userId) (personalCustomFormat (st_db st)) = Some cf ->
  ureq_name requestBody = Some newName ->
  newName <> cf_name cf ->
  other ∈ personalCustomFormat (st_db st) ->
  liveNamed userId newName (cf_serviceType cf) other = true ->
  PUT_id E userId id requestBody st
    = (mkReply 409
         (ErrorBody "DUPLICATE_NAME"
            (duplicateNameMessage newName (cf_serviceType cf))),
       st).
Proof.
  intros Hvalid Hcf Hn Hne Hother Hlive.
  unfold PUT_id. rewrite Hvalid. simpl.
  unfold handle, bind, personalCustomFormat_findFirst. rewrite Hcf, Hn.
  rewrite (schema_name_truthy _ _ Hvalid Hn), bool_decide_false by congruence.
  simpl. destruct (List.find (liveNamed _ _ _) _) eqn:Hfind; [done|].
  apply list_elem_of_In in Hother.
  by rewrite (find_none _ _ Hfind _ Hother) in Hlive.
Qed.

(** An update that is applied touches the one record: every other row
    stays where it is, unchanged; the table keeps its length; the record
    keeps its id, owner, service type and creation instant and is still
    live; its name, rename flag and specifications are those of the patch
    where the patch has them and the old ones where it has not; the ledger
    is untouched. *)
Theorem PUT_id_touches_one_record userId id requestBody st reply st' :
  PUT_id E userId id requestBody st = (reply, st') ->
  status reply = 200 ->
  exists cf cf',
    List.find (ownedLive id userId) (personalCustomFormat (st_db st)) = Some cf
    /\ List.find (ownedLive id userId) (personalCustomFormat (st_db st')) = Some cf'
    /\ cf_id cf' = cf_id cf
    /\ cf_userId cf' = cf_userId cf
    /\ cf_serviceType cf' = cf_serviceType cf
    /\ cf_createdAt cf' = cf_createdAt cf
    /\ cf_deletedAt cf' = None
    /\ cf_updatedAt cf' = now E (st_world st)
    /\ cf_name cf' = default (cf_name cf) (ureq_name requestBody)
    /\ cf_includeCustomFormatWhenRenaming cf'
       = default (cf_includeCustomFormatWhenRenaming cf)
           (ureq_includeCustomFormatWhenRenaming requestBody)
    /\ cf_specifications cf'
       = default (cf_specifications cf) (ureq_specifications requestBody)
    /\ length (personalCustomFormat (st_db st'))
       = length (personalCustomFormat (st_db st))
    /\ (forall i r,
          personalCustomFormat (st_db st) !! i = Some r ->
          cf_id r <> id ->
          personalCustomFormat (st_db st') !! i = Some r)
    /\ personalCFDeployment (st_db st') = personalCFDeployment (st_db st).
Proof.
  intros Hrun Hok.
  destruct (PUT_id_applied _ _ _ _ _ _ Hrun Hok)
    as (cf & Hvalid & Hcf & _ & Hrows & Hledger & _).
  exists cf, (applyData (putData cf requestBody) (now E (st_world st)) cf).
  pose proof Hcf as Hcf'. apply find_some in Hcf' as [_ Hlive].
  pose proof Hlive as Hdel. unfold ownedLive in Hdel.
  rewrite !andb_true_iff, !bool_decide_eq_true in Hdel.
  destruct Hdel as [[Hid Hu] Hdel].
  split; [done|]. split.
  { rewrite Hrows. unfold updatedRows. rewrite find_map_stable, Hcf; simpl.
    - by rewrite Hid, bool_decide_true.
    - intros x. case_bool_decide; [|done]. by apply ownedLive_applyData. }
  split_and!; try done.
  - simpl. destruct (ureq_name requestBody) as [n|] eqn:Hn; [|done].
    by rewrite (schema_name_truthy _ _ Hvalid Hn).
  - simpl. by destruct (ureq_specifications requestBody).
  - rewrite Hrows. unfold updatedRows. by rewrite length_map.
  - intros i r Hr Hne. rewrite Hrows, updatedRows_lookup, Hr. simpl.
    by rewrite bool_decide_false.
Qed.

(** ** Soft deletion *)

Lemma existsb_other_key_false id rows old new :
  tableUnique rows ->
  old ∈ rows -> cf_id old = id ->
  sameUniqueKey new old = true ->
  existsb (fun r => negb (bool_decide (cf_id r = id)) && sameUniqueKey new r) rows
  = false.
Proof.
  intros Hu Hold Hid Hkey. apply existsb_false_forall. intros r Hr.
  apply not_true_iff_false. rewrite andb_true_iff, negb_true_iff, bool_decide_eq_false.
  intros [Hne Hsame].
  assert ((cf_userId r, cf_name r, cf_serviceType r)
          = (cf_userId old, cf_name old, cf_serviceType old)) as Heq.
  { unfold sameUniqueKey in *.
    rewrite !andb_true_iff, !bool_decide_eq_true in Hkey, Hsame.
    destruct Hkey as [[? ?] ?], Hsame as [[? ?] ?]. congruence. }
  apply list_elem_of_lookup in Hr as [i Hi], Hold as [j Hj].
  unfold tableUnique in Hu.
  assert (i = j); [|naive_solver].
  eapply (NoDup_lookup _ i j); [exact Hu| |]; rewrite list_lookup_fmap.
  - by rewrite Hi.
  - rewrite Hj. simpl. by rewrite Heq.
Qed.

(** Deleting is soft.  The route answers 200, stamps [deletedAt] on the
    record with the instant of the request and removes no row; the
    record's name, version and specifications stay, every other row stays
    as it is, and so does the ledger.  From then on the record is not
    found: reading it and deleting it again both answer 404. *)
Theorem DELETE_id_is_soft userId id st cf :
  tableUnique (personalCustomFormat (st_db st)) ->
  List.find (ownedLive id userId) (personalCustomFormat (st_db st)) = Some cf ->
  exists st',
    DELETE_id E userId id st
      = (mkReply 200
           (MessageBody ("Deleted custom format " +:+ quote +:+ cf_name cf +:+ quote)),
         st')
    /\ length (personalCustomFormat (st_db st'))
       = length (personalCustomFormat (st_db st))
    /\ (forall i r,
          personalCustomFormat (st_db st) !! i = Some r ->
          exists r',
            personalCustomFormat (st_db st') !! i = Some r'
            /\ cf_id r' = cf_id r /\ cf_userId r' = cf_userId r
            /\ cf_name r' = cf_name r /\ cf_serviceType r' = cf_serviceType r
            /\ cf_version r' = cf_version r
            /\ cf_specifications r' = cf_specifications r
            /\ (cf_id r = id -> cf_deletedAt r' = Some (now E (st_world st)))
            /\ (cf_id r <> id -> r' = r))
    /\ personalCFDeployment (st_db st') = personalCFDeployment (st_db st)
    /\ GET_id E userId id st' = (notFound, st')
    /\ DELETE_id E userId id st' = (notFound, st').
Proof.
  intros Hu Hcf. unfold DELETE_id at 1.
  unfold handle, bind, personalCustomFormat_findFirst. rewrite Hcf.
  unfold personalCustomFormat_update.
  destruct (List.find (fun r => bool_decide (cf_id r = id)) _) as [old|] eqn:Hold.
  2:{ apply find_some in Hcf as [Hin Hlive]. apply ownedLive_id in Hlive.
      pose proof (find_none _ _ Hold _ Hin) as Hno. simpl in Hno.
      by rewrite bool_decide_true in Hno. }
  apply find_some in Hold as [Hold Hid]. apply bool_decide_eq_true in Hid.
  rewrite (existsb_other_key_false id _ old);
    [|done|by apply list_elem_of_In|done|].
  2:{ unfold sameUniqueKey. simpl. by rewrite !bool_decide_true. }
  eexists. split; [reflexivity|]. simpl.
  assert (Hgone :
    List.find (ownedLive id userId)
      (map (fun r => if bool_decide (cf_id r = id)
                     then applyData
                            (mkUpdateData None None None None
                               (Some (now E (st_world st))))
                            (now E (st_world st)) r
                     else r)
         (personalCustomFormat (st_db st))) = None).
  { apply find_ownedLive_None. intros r [r0 [-> Hr0]]%list_elem_of_fmap Hrid.
    right. simpl in *.
    destruct (bool_decide (cf_id r0 = id)) eqn:Hb; [done|].
    by apply bool_decide_eq_false in Hb. }
  split_and!.
  - by rewrite length_map.
  - intros i r Hr. rewrite list_lookup_fmap, Hr. simpl. eexists. split; [done|].
    case_bool_decide; simpl; split_and!; done.
  - done.
  - unfold GET_id, handle, bind, personalCustomFormat_findFirst. simpl.
    by rewrite Hgone.
  - unfold DELETE_id, handle, bind, personalCustomFormat_findFirst. simpl.
    by rewrite Hgone.
Qed.

(** ** What a deployment leaves alone *)

Lemma filter_map_fixed {A} (p : A -> bool) (f : A -> A) (l : list A) :
  (forall x, p (f x) = p x) ->
  (forall x, p x = true -> f x = x) ->
  List.filter p (map f l) = List.filter p l.
Proof.
  intros Hp Hf. induction l as [|x l IH]; simpl; [done|].
  rewrite Hp. destruct (p x) eqn:Hx; [|done]. by rewrite IH, Hf.
Qed.

Lemma upsertRows_keeps_rows instanceId personalCFId update create instanceCFId id t rows :
  new_instanceId create = instanceId ->
  (exists new,
     map dep_id (upsertRows instanceId personalCFId update create instanceCFId id t rows)
     = map dep_id rows ++ new)
  /\ List.filter (otherInstance instanceId)
       (upsertRows instanceId personalCFId update create instanceCFId id t rows)
     = List.filter (otherInstance instanceId) rows.
Proof.
  intros Hinst. unfold upsertRows.
  destruct (existsb (ledgerKey instanceId personalCFId) rows).
  - split.
    + exists []. rewrite app_nil_r, map_map. apply map_ext.
      intros d. by destruct (ledgerKey instanceId personalCFId d).
    + apply filter_map_fixed.
      * intros d. by destruct (ledgerKey instanceId personalCFId d).
      * intros d Hd. destruct (ledgerKey instanceId personalCFId d) eqn:Hk; [|done].
        unfold ledgerKey in Hk. apply andb_true_iff in Hk as [Hk _].
        unfold otherInstance in Hd. by rewrite Hk in Hd.
  - split.
    + eexists. by rewrite map_app.
    + rewrite List.filter_app. simpl. unfold otherInstance at 2. simpl.
      rewrite Hinst, bool_decide_true by done. simpl. by rewrite app_nil_r.
Qed.

Lemma deployOne_keeps_rows userId instanceId instance existingByName personalCF st :
  (exists new,
     map dep_id
       (personalCFDeployment
          (st_db (deployOne E userId instanceId instance existingByName personalCF st).2))
     = map dep_id (personalCFDeployment (st_db st)) ++ new)
  /\ List.filter (otherInstance instanceId)
       (personalCFDeployment
          (st_db (deployOne E userId instanceId instance existingByName personalCF st).2))
     = List.filter (otherInstance instanceId) (personalCFDeployment (st_db st)).
Proof.
  destruct (deployOne_run userId instanceId instance existingByName personalCF st)
    as (st' & evs & -> & _ & _ & _ & _ & _ & _ & _ & Hledger). simpl.
  destruct Hledger as [[-> _]|[_ (rid & w & ->)]].
  - split; [|done]. exists []. by rewrite app_nil_r.
  - by apply upsertRows_keeps_rows.
Qed.

Lemma deployLoop_keeps_rows userId instanceId instance existingByName personalCFs st :
  (exists new,
     map dep_id
       (personalCFDeployment
          (st_db (forOf E (deployOne E userId instanceId instance existingByName)
                    personalCFs st).2))
     = map dep_id (personalCFDeployment (st_db st)) ++ new)
  /\ List.filter (otherInstance instanceId)
       (personalCFDeployment
          (st_db (forOf E (deployOne E userId instanceId instance existingByName)
                    personalCFs st).2))
     = List.filter (otherInstance instanceId) (personalCFDeployment (st_db st)).
Proof.
  revert st. induction personalCFs as [|personalCF rest IH]; intros st; simpl.
  { split; [|done]. exists []. by rewrite app_nil_r. }
  unfold bind.
  pose proof (deployOne_keeps_rows userId instanceId instance existingByName
                personalCF st) as [[new1 Hids1] Hother1].
  destruct (deployOne_run userId instanceId instance existingByName personalCF st)
    as (st1 & evs1 & Hrun1 & _).
  rewrite Hrun1 in *. simpl in Hids1, Hother1.
  destruct (IH st1) as [[new Hids] Hother].
  split.
  - exists (new1 ++ new). by rewrite Hids, Hids1, app_assoc.
  - by rewrite Hother, Hother1.
Qed.

(** Whatever the request and whatever the instance answers, the deployment
    route changes neither the records nor the instances; it removes no
    ledger row (the rows that were there keep their place, new rows follow
    them), and it leaves the ledger rows of every other instance exactly
    as they were. *)
Theorem deploy_leaves_the_rest userId requestBody st :
  let st' := (POST_deploy_multiple E userId requestBody st).2 in
  personalCustomFormat (st_db st') = personalCustomFormat (st_db st)
  /\ serviceInstance (st_db st') = serviceInstance (st_db st)
  /\ (exists new,
        map dep_id (personalCFDeployment (st_db st'))
        = map dep_id (personalCFDeployment (st_db st)) ++ new)
  /\ List.filter (otherInstance (dreq_instanceId requestBody))
       (personalCFDeployment (st_db st'))
     = List.filter (otherInstance (dreq_instanceId requestBody))
         (personalCFDeployment (st_db st)).
Proof.
  assert (Hsame : forall s : St E,
            (exists new,
               map dep_id (personalCFDeployment (st_db s))
               = map dep_id (personalCFDeployment (st_db s)) ++ new)).
  { intros s. exists []. by rewrite app_nil_r. }
  cbv zeta.
  destruct (POST_deploy_multiple E userId requestBody st) as [reply st'] eqn:Hrun.
  simpl. revert Hrun. unfold POST_deploy_multiple.
  destruct (deployMultipleSchema requestBody); simpl;
    [|intros [= <- <-]; split_and!; auto].
  unfold handle, bind at 1, serviceInstance_findFirst.
  destruct (List.find _ (serviceInstance (st_db st))) as [instance|];
    [|intros [= <- <-]; split_and!; auto].
  unfold bind at 1, personalCustomFormat_findMany.
  case_bool_decide; simpl; [|intros [= <- <-]; split_and!; auto].
  destruct (List.find _ (List.filter _ _)); [intros [= <- <-]; split_and!; auto|].
  destruct (createArrApiClient E instance); [intros [= <- <-]; split_and!; auto|].
  unfold bind at 1, arrClient_getCustomFormats, remoteCall.
  destruct (getCustomFormats E instance (st_world st)) as [existingFormats|e];
    [|intros [= <- <-]; simpl; split_and!; auto].
  unfold bind at 1, setResults. unfold bind at 1.
  match goal with
  | |- context [forOf E ?body ?l ?s] =>
    pose proof (deployLoop_keeps_rows userId (dreq_instanceId requestBody) instance
                  (existingByNameOf existingFormats) l s) as [Hids Hother];
    destruct (deployLoop_run userId (dreq_instanceId requestBody) instance
                (existingByNameOf existingFormats) l s)
      as (st1 & evs & Hloop & _ & _ & _ & _ & _ & Hcf & Hinst & _);
    rewrite Hloop in *
  end.
  unfold bind, getResults, ret. simpl in *.
  destruct (bool_decide _); intros [= <- <-]; split_and!; auto.
Qed.

(** ** Stop tracking *)

(** A deployment row that is not the caller's, or not there, is not found:
    404, and nothing changes. *)
Lemma DELETE_deployments_id_not_found userId id st :
  (forall d, d ∈ personalCFDeployment (st_db st) -> dep_id d = id ->
     dep_userId d <> userId) ->
  DELETE_deployments_id E userId id st
    = (mkReply 404 (ErrorBody "NOT_FOUND" "Deployment record not found"), st).
Proof.
  intros Hno. unfold DELETE_deployments_id, handle, bind,
    personalCFDeployment_findFirst.
  destruct (List.find _ _) as [d|] eqn:Hfind; [|done].
  apply find_some in Hfind as [Hin Hd]. apply list_elem_of_In in Hin.
  rewrite andb_true_iff, !bool_decide_eq_true in Hd. destruct Hd as [Hid Hu].
  by destruct (Hno d Hin Hid).
Qed.

(** Stop tracking removes the ledger row of the given id and nothing else:
    the other rows stay in order, the records and the instances are as
    they were, and no call to the instance is made (the log does not
    grow), so the object on the instance is left in place.  The reply
    names the record.  A row that is not the caller's is not found (404)
    and nothing changes. *)
Theorem stop_tracking_removes_row_only userId id st d personalCF :
  List.find (fun d => bool_decide (dep_id d = id) && bool_decide (dep_userId d = userId))
    (personalCFDeployment (st_db st)) = Some d ->
  List.find (fun cf => bool_decide (cf_id cf = dep_personalCFId d))
    (personalCustomFormat (st_db st)) = Some personalCF ->
  exists st',
    DELETE_deployments_id E userId id st
      = (mkReply 200
           (MessageBody
              ("Stopped tracking deployment of " +:+ quote
               +:+ cf_name personalCF +:+ quote)),
         st')
    /\ personalCFDeployment (st_db st')
       = List.filter (fun d => negb (bool_decide (dep_id d = id)))
           (personalCFDeployment (st_db st))
    /\ (forall d', d' ∈ personalCFDeployment (st_db st') -> dep_id d' <> id)
    /\ personalCustomFormat (st_db st') = personalCustomFormat (st_db st)
    /\ serviceInstance (st_db st') = serviceInstance (st_db st)
    /\ st_log st' = st_log st
    /\ (ledgerUnique (personalCFDeployment (st_db st)) ->
        ledgerUnique (personalCFDeployment (st_db st')))
    /\ forall otherUser,
         otherUser <> userId ->
         (forall d', d' ∈ personalCFDeployment (st_db st) -> dep_id d' = id ->
            d' = d) ->
         DELETE_deployments_id E otherUser id st
           = (mkReply 404 (ErrorBody "NOT_FOUND" "Deployment record not found"), st).
Proof.
  intros Hd Hcf.
  unfold DELETE_deployments_id at 1.
  unfold handle, bind, personalCFDeployment_findFirst. rewrite Hd, Hcf.
  unfold personalCFDeployment_delete.
  pose proof Hd as Hd'. apply find_some in Hd' as [Hin Hdd].
  rewrite andb_true_iff, !bool_decide_eq_true in Hdd. destruct Hdd as [Hid Hu].
  assert (existsb (fun d => bool_decide (dep_id d = id))
            (personalCFDeployment (st_db st)) = true) as ->.
  { apply existsb_exists. exists d. by rewrite bool_decide_true. }
  eexists. split; [reflexivity|]. simpl. split_and!; try done.
  - intros d' Hd'. apply list_elem_of_In, filter_In in Hd' as [_ Hd'].
    by apply negb_true_iff, bool_decide_eq_false in Hd'.
  - intros Huniq i c. specialize (Huniq i c).
    etransitivity; [|exact Huniq].
    generalize (personalCFDeployment (st_db st)). intros rows.
    induction rows as [|x rows IH]; simpl; [done|].
    destruct (negb (bool_decide (dep_id x = id))); simpl;
      destruct (ledgerKey i c x); simpl; lia.
  - intros otherUser Hother Honly. apply DELETE_deployments_id_not_found.
    intros d' Hd' Hid'. rewrite (Honly d' Hd' Hid'). congruence.
Qed.

(** ** The records table under any request *)

Lemma POST_root_effect userId requestBody st :
  (POST_root E userId requestBody st).2 = st
  \/ exists row,
       personalCustomFormat (st_db (POST_root E userId requestBody st).2)
       = personalCustomFormat (st_db st) ++ [row]
       /\ cf_userId row = userId
       /\ cf_deletedAt row = None
       /\ (forall r, r ∈ personalCustomFormat (st_db st) -> cf_id r <> cf_id row)
       /\ List.find (liveNamed userId (cf_name row) (cf_serviceType row))
            (personalCustomFormat (st_db st)) = None.
Proof.
  destruct (POST_root E userId requestBody st) as [reply st'] eqn:Hrun.
  simpl. revert Hrun. unfold POST_root.
  destruct (createPersonalCFSchema requestBody); simpl;
    [|intros [= <- <-]; by left].
  unfold handle, bind, personalCustomFormat_findFirst.
  destruct (List.find (liveNamed _ _ _) _) eqn:Hfind; simpl;
    [intros [= <- <-]; by left|].
  unfold personalCustomFormat_create.
  destruct (existsb _ _) eqn:Hid; simpl; [intros [= <- <-]; by left|].
  destruct (existsb (sameUniqueKey _) _); simpl; [intros [= <- <-]; by left|].
  intros [= <- <-].
  right. eexists. split; [reflexivity|]. simpl. split_and!; try done.
  intros r Hr Heq. apply list_elem_of_In in Hr.
  apply not_true_iff_false in Hid. apply Hid, existsb_exists.
  exists r. split; [done|]. by apply bool_decide_eq_true.
Qed.

Lemma DELETE_id_effect userId id st :
  (DELETE_id E userId id st).2 = st
  \/ exists cf,
       List.find (ownedLive id userId) (personalCustomFormat (st_db st)) = Some cf
       /\ personalCustomFormat (st_db (DELETE_id E userId id st).2)
          = updatedRows id
              (mkUpdateData None None None None (Some (now E (st_world st))))
              (now E (st_world st)) (personalCustomFormat (st_db st)).
Proof.
  destruct (DELETE_id E userId id st) as [reply st'] eqn:Hrun.
  simpl. revert Hrun.
  unfold DELETE_id, handle, bind, personalCustomFormat_findFirst.
  destruct (List.find (ownedLive id userId) _) as [cf|] eqn:Hcf;
    [|intros [= <- <-]; by left].
  unfold personalCustomFormat_update.
  destruct (List.find (fun r => bool_decide (cf_id r = id)) _);
    [|intros [= <- <-]; by left].
  destruct (existsb _ _); intros [= <- <-]; [by left|]. right. by exists cf.
Qed.

Lemma POST_deploy_multiple_records userId requestBody st :
  personalCustomFormat (st_db (POST_deploy_multiple E userId requestBody st).2)
  = personalCustomFormat (st_db st).
Proof.
  destruct (POST_deploy_multiple E userId requestBody st) as [reply st'] eqn:Hrun.
  simpl. revert Hrun. unfold POST_deploy_multiple.
  destruct (deployMultipleSchema requestBody); simpl; [|by intros [= <- <-]].
  unfold handle, bind at 1, serviceInstance_findFirst.
  destruct (List.find _ (serviceInstance (st_db st))) as [instance|];
    [|by intros [= <- <-]].
  unfold bind at 1, personalCustomFormat_findMany.
  case_bool_decide; simpl; [|by intros [= <- <-]].
  destruct (List.find _ (List.filter _ _)); [by intros [= <- <-]|].
  destruct (createArrApiClient E instance); [by intros [= <- <-]|].
  unfold bind at 1, arrClient_getCustomFormats, remoteCall.
  destruct (getCustomFormats E instance (st_world st)) as [existingFormats|e];
    [|by intros [= <- <-]].
  unfold bind at 1, setResults. unfold bind at 1.
  match goal with
  | |- context [forOf E ?body ?l ?s] =>
    destruct (deployLoop_run userId (dreq_instanceId requestBody) instance
                (existingByNameOf existingFormats) l s)
      as (st1 & evs & Hloop & _ & _ & _ & _ & _ & Hcf & _);
    rewrite Hloop
  end.
  unfold bind, getResults, ret. simpl in *.
  by destruct (bool_decide _); intros [= <- <-].
Qed.

Lemma reads_keep_state userId id instanceId serviceType st :
  (GET_id E userId id st).2 = st
  /\ (GET_deployments E userId instanceId st).2 = st
  /\ (GET_updates E userId instanceId serviceType st).2 = st.
Proof.
  unfold GET_id, GET_deployments, GET_updates, handle, bind,
    personalCustomFormat_findFirst, personalCFDeployment_findMany, ret.
  split_and!.
  - by destruct (List.find _ _).
  - by destruct (mapM _ _).
  - by destruct (mapM _ _).
Qed.

Lemma DELETE_deployments_id_records userId id st :
  personalCustomFormat (st_db (DELETE_deployments_id E userId id st).2)
  = personalCustomFormat (st_db st).
Proof.
  unfold DELETE_deployments_id, handle, bind, personalCFDeployment_findFirst,
    personalCFDeployment_delete.
  destruct (List.find _ (personalCFDeployment _)) as [d|]; [|done].
  destruct (List.find _ (personalCustomFormat _)); [|done].
  by destruct (existsb _ _).
Qed.

(** The three ways a request can leave the records table: as it was, one
    row of the caller's more, or one record of the caller's updated. *)
Lemma serve_records before currentUser request st :
  let userId := default EmptyString currentUser in
  let rows := personalCustomFormat (st_db st) in
  let rows' := personalCustomFormat (st_db (serve E before currentUser request st).2) in
  rows' = rows
  \/ (exists row,
        rows' = rows ++ [row]
        /\ cf_userId row = userId
        /\ cf_deletedAt row = None
        /\ (forall r, r ∈ rows -> cf_id r <> cf_id row)
        /\ List.find (liveNamed userId (cf_name row) (cf_serviceType row)) rows = None)
  \/ (exists id cf data t,
        List.find (ownedLive id userId) rows = Some cf
        /\ rows' = updatedRows id data t rows
        /\ (forall n, data_name data = Some n ->
              n = cf_name cf
              \/ List.find (liveNamed userId n (cf_serviceType cf)) rows = None)).
Proof.
  intros userId rows rows'. subst rows'. unfold serve.
  destruct (preHandler currentUser); [by left|].
  fold userId. destruct request; simpl.
  - by left.
  - left. by rewrite (proj1 (reads_keep_state userId id None None st)).
  - destruct (POST_root_effect userId requestBody st) as [->|Hrow]; [by left|].
    right. by left.
  - destruct (decide (status (PUT_id E userId id requestBody st).1 = 200)) as [Hok|Hno].
    + destruct (PUT_id E userId id requestBody st) as [reply st'] eqn:Hrun.
      destruct (PUT_id_applied _ _ _ _ _ _ Hrun Hok)
        as (cf & Hvalid & Hcf & Hname & Hrows & _).
      right. right. exists id, cf, (putData cf requestBody), (now E (st_world st)).
      split_and!; try done. simpl. intros n Hn.
      apply Hname. by destruct (truthyString (ureq_name requestBody)).
    + left. by rewrite (PUT_id_rejected _ _ _ _ Hno).
  - destruct (DELETE_id_effect userId id st) as [->|(cf & Hcf & Hrows)]; [by left|].
    right. right. eexists id, cf, _, _. split_and!; try done.
  - left. apply POST_deploy_multiple_records.
  - left. by rewrite (proj1 (proj2 (reads_keep_state userId EmptyString instanceId None st))).
  - left. by rewrite (proj2 (proj2 (reads_keep_state userId EmptyString instanceId serviceType st))).
  - left. apply DELETE_deployments_id_records.
Qed.

Lemma ownedLive_unique id userId rows cf i r :
  primaryKey rows ->
  List.find (ownedLive id userId) rows = Some cf ->
  rows !! i = Some r -> cf_id r = id -> r = cf.
Proof.
  intros Hpk Hcf Hr Hid. apply find_some in Hcf as [Hin Hlive].
  apply ownedLive_id in Hlive. apply list_elem_of_In, list_elem_of_lookup in Hin as [j Hj].
  assert (i = j); [|congruence].
  eapply (NoDup_lookup _ i j); [exact Hpk| |]; rewrite list_lookup_fmap.
  - by rewrite Hr.
  - rewrite Hj. simpl. congruence.
Qed.

Lemma liveNamed_spec userId name serviceType cf :
  liveNamed userId name serviceType cf = true
  <-> cf_userId cf = userId /\ cf_name cf = name
      /\ cf_serviceType cf = serviceType /\ cf_deletedAt cf = None.
Proof.
  unfold liveNamed. rewrite !andb_true_iff, !bool_decide_eq_true. tauto.
Qed.

Lemma ownedLive_spec id userId cf :
  ownedLive id userId cf = true
  <-> cf_id cf = id /\ cf_userId cf = userId /\ cf_deletedAt cf = None.
Proof.
  unfold ownedLive. rewrite !andb_true_iff, !bool_decide_eq_true. tauto.
Qed.

(** Every request, of whatever user and with whatever body, keeps the two
    invariants of the records table: ids stay distinct, and no two records
    that are not deleted share owner, name and service type. *)
Theorem serve_keeps_invariants before currentUser request st :
  primaryKey (personalCustomFormat (st_db st)) ->
  liveUnique (personalCustomFormat (st_db st)) ->
  primaryKey (personalCustomFormat (st_db (serve E before currentUser request st).2))
  /\ liveUnique (personalCustomFormat (st_db (serve E before currentUser request st).2)).
Proof.
  intros Hpk Hlu.
  destruct (serve_records before currentUser request st)
    as [->|[(row & -> & Hu & Hdel & Hfresh & Hfree)
           |(id & cf & data & t & Hcf & -> & Hname)]]; [done| |].
  - split.
    + unfold primaryKey. rewrite map_app. simpl.
      apply NoDup_app. split; [done|]. split; [|apply NoDup_singleton].
      intros x Hx ->%list_elem_of_singleton.
      apply list_elem_of_fmap in Hx as (r & Heq & Hr). by destruct (Hfresh r Hr).
    + intros i j a b Ha Hb Hda Hdb Hua Hna Hsa.
      assert (Hold : forall k r other,
                personalCustomFormat (st_db st) !! k = Some r ->
                cf_deletedAt r = None ->
                cf_userId r = cf_userId row -> cf_name r = cf_name row ->
                cf_serviceType r = cf_serviceType row -> other).
      { intros k r other Hr Hdr Hur Hnr Hsr. exfalso.
        apply list_elem_of_lookup_2, list_elem_of_In in Hr.
        pose proof (find_none _ _ Hfree _ Hr) as Hno.
        apply not_true_iff_false in Hno. apply Hno, liveNamed_spec.
        split_and!; congruence. }
      apply lookup_app_Some in Ha as [Ha|[Hia Ha]];
        apply lookup_app_Some in Hb as [Hb|[Hib Hb]].
      * by apply (Hlu i j a b).
      * apply list_lookup_singleton_Some in Hb as [_ <-].
        by apply (Hold i a).
      * apply list_lookup_singleton_Some in Ha as [_ <-].
        apply (Hold j b); congruence.
      * apply list_lookup_singleton_Some in Ha as [Ha _].
        apply list_lookup_singleton_Some in Hb as [Hb _]. lia.
  - split.
    + unfold primaryKey. by rewrite updatedRows_ids.
    + pose proof Hcf as Hcf'. apply find_some in Hcf' as [_ Hlive].
      apply ownedLive_spec in Hlive as (Hid & Hu & Hdel).
      intros i j a' b' Ha Hb Hda Hdb Hua Hna Hsa.
      rewrite updatedRows_lookup in Ha, Hb.
      destruct (personalCustomFormat (st_db st) !! i) as [a|] eqn:Hia; [|done].
      destruct (personalCustomFormat (st_db st) !! j) as [b|] eqn:Hjb; [|done].
      simpl in Ha, Hb. injection Ha as <-. injection Hb as <-.
      assert (Hmixed : forall k l x y,
                personalCustomFormat (st_db st) !! k = Some x ->
                personalCustomFormat (st_db st) !! l = Some y ->
                cf_id x = id -> cf_id y <> id ->
                cf_deletedAt (applyData data t x) = None -> cf_deletedAt y = None ->
                cf_userId (applyData data t x) = cf_userId y ->
                cf_name (applyData data t x) = cf_name y ->
                cf_serviceType (applyData data t x) = cf_serviceType y ->
                k = l).
      { intros k l x y Hx Hy Hidx Hidy Hdx Hdy Hux Hnx Hsx.
        assert (x = cf) as -> by (by eapply ownedLive_unique).
        simpl in Hux, Hnx, Hsx.
        destruct (data_name data) as [n|] eqn:Hn; simpl in Hnx.
        - destruct (Hname n eq_refl) as [->|Hfree].
          + by apply (Hlu k l cf y).
          + exfalso. apply list_elem_of_lookup_2, list_elem_of_In in Hy.
            pose proof (find_none _ _ Hfree _ Hy) as Hno.
            apply not_true_iff_false in Hno. apply Hno, liveNamed_spec.
            split_and!; congruence.
        - by apply (Hlu k l cf y). }
      destruct (bool_decide (cf_id a = id)) eqn:Hida;
        destruct (bool_decide (cf_id b = id)) eqn:Hidb;
        [apply bool_decide_eq_true_1 in Hida
        |apply bool_decide_eq_true_1 in Hida
        |apply bool_decide_eq_false_1 in Hida
        |apply bool_decide_eq_false_1 in Hida];
        [apply bool_decide_eq_true_1 in Hidb
        |apply bool_decide_eq_false_1 in Hidb
        |apply bool_decide_eq_true_1 in Hidb
        |apply bool_decide_eq_false_1 in Hidb].
      * eapply (NoDup_lookup _ i j); [exact Hpk| |]; rewrite list_lookup_fmap.
        -- by rewrite Hia.
        -- rewrite Hjb. simpl. congruence.
      * by apply (Hmixed i j a b).
      * symmetry. by apply (Hmixed j i b a).
      * by apply (Hlu i j a b).
Qed.

Lemma filter_map_fixed_in {A} (p : A -> bool) (f : A -> A) (l : list A) :
  (forall x, p (f x) = p x) ->
  (forall x, In x l -> p x = true -> f x = x) ->
  List.filter p (map f l) = List.filter p l.
Proof.
  intros Hp Hf. induction l as [|x l IH]; simpl; [done|].
  rewrite Hp. destruct (p x) eqn:Hx.
  - rewrite IH, Hf; [done|by left|done|]. intros; apply Hf; [by right|done].
  - apply IH. intros; apply Hf; [by right|done].
Qed.

(** No request changes a record of another user: whatever a caller sends,
    the rows of the records table that belong to other users are after
    the request what they were before it, in the same order; and a request
    without an authenticated user is answered 401 and changes nothing at
    all. *)
Theorem serve_isolates_owners before currentUser request st :
  primaryKey (personalCustomFormat (st_db st)) ->
  rowsOfOthers (default EmptyString currentUser)
    (personalCustomFormat (st_db (serve E before currentUser request st).2))
  = rowsOfOthers (default EmptyString currentUser) (personalCustomFormat (st_db st))
  /\ (truthyString currentUser = false ->
      serve E before currentUser request st
      = (Plain (mkReply 401 (ErrorBody "UNAUTHORIZED" "Authentication required")), st)).
Proof.
  intros Hpk. split.
  - destruct (serve_records before currentUser request st)
      as [->|[(row & -> & Hu & _)|(id & cf & data & t & Hcf & -> & _)]]; [done| |].
    + unfold rowsOfOthers. rewrite List.filter_app. simpl.
      rewrite bool_decide_true by done. simpl. by rewrite app_nil_r.
    + unfold rowsOfOthers, updatedRows.
      pose proof Hcf as Hcf'. apply find_some in Hcf' as [_ Hlive].
      apply ownedLive_spec in Hlive as (Hid & Hu & Hdel).
      apply filter_map_fixed_in.
      * intros r. by destruct (bool_decide (cf_id r = id)).
      * intros r Hr Hother. destruct (bool_decide (cf_id r = id)) eqn:Hrid; [|done].
        apply bool_decide_eq_true_1 in Hrid. exfalso.
        apply list_elem_of_In, list_elem_of_lookup in Hr as [i Hi].
        rewrite (ownedLive_unique _ _ _ _ _ _ Hpk Hcf Hi Hrid) in Hother.
        by rewrite Hu, bool_decide_true in Hother.
  - intros Hno. unfold serve, preHandler. by rewrite Hno.
Qed.

(** The unique index of the table is the stronger of the two: a table
    that satisfies it has no two live records with one owner, name and
    service type. *)
Lemma tableUnique_liveUnique rows : tableUnique rows -> liveUnique rows.
Proof.
  intros Hu i j a b Ha Hb _ _ Hua Hna Hsa.
  eapply (NoDup_lookup _ i j); [exact Hu| |]; rewrite list_lookup_fmap.
  - by rewrite Ha.
  - rewrite Hb. simpl. congruence.
Qed.

(** ** The count guard of a deployment *)

Lemma find_is_Some {A} (p : A -> bool) (l : list A) :
  is_Some (List.find p l) <-> exists x, x ∈ l /\ p x = true.
Proof.
  split.
  - intros [x Hx]. apply find_some in Hx as [Hin Hp].
    exists x. by rewrite list_elem_of_In.
  - intros (x & Hin & Hp). destruct (List.find p l) eqn:Hfind; [done|].
    apply list_elem_of_In in Hin. by rewrite (find_none _ _ Hfind _ Hin) in Hp.
Qed.

(** The ids of the fetched records are the requested ids that name a live
    record of the caller. *)
Lemma fetchedRecords_ids userId ids db x :
  x ∈ map cf_id (fetchedRecords userId ids db)
  <-> x ∈ ids /\ is_Some (List.find (ownedLive x userId) (personalCustomFormat db)).
Proof.
  rewrite find_is_Some. unfold fetchedRecords. split.
  - intros (cf & -> & Hcf)%list_elem_of_fmap.
    apply list_elem_of_In, filter_In in Hcf as [Hin Hcf].
    unfold ownedLiveIn in Hcf. rewrite !andb_true_iff, !bool_decide_eq_true in Hcf.
    split; [tauto|]. exists cf. rewrite list_elem_of_In. split; [done|].
    apply ownedLive_spec. tauto.
  - intros (Hx & cf & Hin & Hcf). apply ownedLive_spec in Hcf as (Hid & Hu & Hdel).
    subst x. apply list_elem_of_fmap. exists cf. split; [done|].
    apply list_elem_of_In, filter_In. split; [by apply list_elem_of_In|].
    unfold ownedLiveIn. by rewrite !andb_true_iff, !bool_decide_eq_true.
Qed.

(** As many records are fetched as ids were requested exactly when the
    ids are distinct and each names a live record of the caller. *)
Lemma fetchedRecords_count userId ids db :
  primaryKey (personalCustomFormat db) ->
  length (fetchedRecords userId ids db) = length ids
  <-> NoDup ids /\ allOwnedLive userId ids (personalCustomFormat db).
Proof.
  intros Hpk.
  assert (Hnd : NoDup (map cf_id (fetchedRecords userId ids db)))
    by (by apply NoDup_map_filter).
  assert (Hincl : incl (map cf_id (fetchedRecords userId ids db)) ids).
  { intros x Hx. apply list_elem_of_In in Hx. apply fetchedRecords_ids in Hx.
    apply list_elem_of_In. tauto. }
  rewrite <- (length_map cf_id). split.
  - intros Hlen. split.
    + apply NoDup_ListNoDup.
      apply (List.NoDup_incl_NoDup (l := map cf_id (fetchedRecords userId ids db)));
        [by apply NoDup_ListNoDup|lia|done].
    + intros id Hid.
      assert (Hback : incl ids (map cf_id (fetchedRecords userId ids db))).
      { apply List.NoDup_length_incl; [by apply NoDup_ListNoDup|lia|done]. }
      apply list_elem_of_In, Hback, list_elem_of_In in Hid.
      apply fetchedRecords_ids in Hid. tauto.
  - intros [Hids Hall]. apply Permutation_length, NoDup_Permutation; [done..|].
    intros x. rewrite fetchedRecords_ids. specialize (Hall x). tauto.
Qed.

(** The count guard, exactly.  For a valid request on an instance of the
    caller's, the route answers 404 SOME_CFS_NOT_FOUND, and changes
    nothing, whenever the requested ids are not distinct or one of them
    names no live record of the caller; and when the ids are distinct and
    each names a live record of the caller, the reply is never a 404. *)
Theorem deploy_count_guard userId requestBody st instance :
  primaryKey (personalCustomFormat (st_db st)) ->
  deployMultipleSchema requestBody = true ->
  fetchedInstance userId (dreq_instanceId requestBody) (st_db st) = Some instance ->
  let accepted :=
    NoDup (personalCFIds requestBody)
    /\ allOwnedLive userId (personalCFIds requestBody)
         (personalCustomFormat (st_db st)) in
  (~ accepted -> POST_deploy_multiple E userId requestBody st = (someNotFound, st))
  /\ (accepted -> status (POST_deploy_multiple E userId requestBody st).1 <> 404).
Proof.
  intros Hpk Hschema Hinst accepted.
  pose proof (fetchedRecords_count userId (personalCFIds requestBody) (st_db st) Hpk)
    as Hcount.
  unfold fetchedInstance in Hinst. unfold fetchedRecords in Hcount.
  split.
  - intros Hno. unfold POST_deploy_multiple. rewrite Hschema. simpl.
    unfold handle, bind at 1, serviceInstance_findFirst. rewrite Hinst.
    unfold bind at 1, personalCustomFormat_findMany.
    rewrite bool_decide_false; [done|]. intros Hlen. by apply Hno, Hcount.
  - intros Hyes. apply Hcount in Hyes.
    destruct (POST_deploy_multiple E userId requestBody st) as [reply st'] eqn:Hrun.
    simpl. revert Hrun. unfold POST_deploy_multiple. rewrite Hschema. simpl.
    unfold handle, bind at 1, serviceInstance_findFirst. rewrite Hinst.
    unfold bind at 1, personalCustomFormat_findMany.
    rewrite bool_decide_true by done. simpl.
    destruct (List.find _ (List.filter _ _)); [by intros [= <- <-]|].
    destruct (createArrApiClient E instance); [by intros [= <- <-]|].
    unfold bind at 1, arrClient_getCustomFormats, remoteCall.
    destruct (getCustomFormats E instance (st_world st)) as [existingFormats|e];
      [|by intros [= <- <-]].
    unfold bind at 1, setResults. unfold bind at 1.
    match goal with
    | |- context [forOf E ?body ?l ?s] =>
      destruct (deployLoop_run userId (dreq_instanceId requestBody) instance
                  (existingByNameOf existingFormats) l s)
        as (st1 & evs & Hloop & _);
      rewrite Hloop
    end.
    unfold bind, getResults, ret. simpl.
    by destruct (bool_decide _); intros [= <- <-].
Qed.

(** ** The ledger under any request *)

Lemma find_unique {A B} `{EqDecision B} (f : A -> B) (l : list A) (x : A) (k : B) :
  NoDup (map f l) -> x ∈ l -> f x = k ->
  List.find (fun y => bool_decide (f y = k)) l = Some x.
Proof.
  intros Hnd Hx <-. induction l as [|y l IH]; [by apply elem_of_nil in Hx|].
  change (NoDup (f y :: map f l)) in Hnd. apply NoDup_cons in Hnd as [Hny Hnd].
  simpl. case_bool_decide as Heq.
  - apply elem_of_cons in Hx as [->|Hx]; [done|]. exfalso. apply Hny. rewrite Heq.
    apply list_elem_of_fmap. by exists x.
  - apply elem_of_cons in Hx as [->|Hx]; [done|]. by apply IH.
Qed.

Lemma find_app_l {A} (p : A -> bool) (l k : list A) x :
  List.find p l = Some x -> List.find p (l ++ k) = Some x.
Proof.
  induction l as [|y l IH]; simpl; [done|]. by destruct (p y).
Qed.

Lemma recordsKept_refl rows : recordsKept rows rows.
Proof. intros id cf Hcf. by exists cf. Qed.

Lemma recordsKept_app rows new : recordsKept rows (rows ++ new).
Proof. intros id cf Hcf. exists cf. split; [by apply find_app_l|done]. Qed.

Lemma recordsKept_updatedRows id data t rows :
  recordsKept rows (updatedRows id data t rows).
Proof.
  intros k cf Hcf. unfold updatedRows. rewrite find_map_stable, Hcf.
  - eexists. split; [reflexivity|]. by destruct (bool_decide (cf_id cf = id)).
  - intros r. by destruct (bool_decide (cf_id r = id)).
Qed.

Lemma serve_recordsKept before currentUser request st :
  recordsKept (personalCustomFormat (st_db st))
    (personalCustomFormat (st_db (serve E before currentUser request st).2)).
Proof.
  destruct (serve_records before currentUser request st)
    as [->|[(row & -> & _)|(id & cf & data & t & _ & -> & _)]].
  - apply recordsKept_refl.
  - apply recordsKept_app.
  - apply recordsKept_updatedRows.
Qed.

Lemma rowOwned_transport db db' d d' :
  serviceInstance db' = serviceInstance db ->
  recordsKept (personalCustomFormat db) (personalCustomFormat db') ->
  ledgerKeys d' = ledgerKeys d ->
  rowOwned db d -> rowOwned db' d'.
Proof.
  intros Hinst Hkept [= Hu Hc Hi] (cf & i & Hrel & Hcf & Hin).
  unfold rowOwned, includeRelations in *. rewrite Hinst, Hu, Hc, Hi.
  destruct (List.find _ (personalCustomFormat db)) as [cf0|] eqn:Hcf0; [|done].
  destruct (List.find _ (serviceInstance db)) as [i0|] eqn:Hi0; [|done].
  injection Hrel as <- <-.
  destruct (Hkept _ _ Hcf0) as (cf' & -> & Hu').
  exists cf', i0. split_and!; [done|congruence|done].
Qed.

(** A row the deployment route adds: of the caller, for a record and an
    instance of the caller's. *)
Lemma rowOwned_new db d cf instance :
  primaryKey (personalCustomFormat db) ->
  instanceKey (serviceInstance db) ->
  cf ∈ personalCustomFormat db -> cf_id cf = dep_personalCFId d ->
  cf_userId cf = dep_userId d ->
  instance ∈ serviceInstance db -> inst_id instance = dep_instanceId d ->
  inst_userId instance = dep_userId d ->
  rowOwned db d.
Proof.
  intros Hpk Hik Hcf Hid Hu Hinst Hiid Hiu. exists cf, instance.
  unfold includeRelations.
  rewrite (find_unique cf_id _ cf) by done.
  by rewrite (find_unique inst_id _ instance).
Qed.

Lemma upsertRows_row instanceId personalCFId update create instanceCFId id t rows d' :
  d' ∈ upsertRows instanceId personalCFId update create instanceCFId id t rows ->
  (exists d, d ∈ rows /\ ledgerKeys d' = ledgerKeys d)
  \/ ledgerKeys d' = (new_userId create, new_personalCFId create, new_instanceId create).
Proof.
  unfold upsertRows. destruct (existsb _ _).
  - intros (d & -> & Hd)%list_elem_of_fmap. left. exists d. split; [done|].
    by destruct (ledgerKey instanceId personalCFId d).
  - intros [Hd| ->%list_elem_of_singleton]%elem_of_app; [|by right].
    left. by exists d'.
Qed.

Lemma deployOne_ledger_rows userId instanceId instance existingByName personalCF st d' :
  d' ∈ personalCFDeployment
         (st_db (deployOne E userId instanceId instance existingByName personalCF st).2) ->
  (exists d, d ∈ personalCFDeployment (st_db st) /\ ledgerKeys d' = ledgerKeys d)
  \/ ledgerKeys d' = (userId, cf_id personalCF, instanceId).
Proof.
  destruct (deployOne_run userId instanceId instance existingByName personalCF st)
    as (st' & evs & -> & _ & _ & _ & _ & _ & _ & _ & Hledger). simpl.
  destruct Hledger as [[-> _]|[_ (rid & w & ->)]].
  - intros Hd. left. by exists d'.
  - intros Hd. by apply upsertRows_row in Hd.
Qed.

Lemma deployLoop_ledger_rows userId instanceId instance existingByName personalCFs st d' :
  d' ∈ personalCFDeployment
         (st_db (forOf E (deployOne E userId instanceId instance existingByName)
                   personalCFs st).2) ->
  (exists d, d ∈ personalCFDeployment (st_db st) /\ ledgerKeys d' = ledgerKeys d)
  \/ exists personalCF,
       personalCF ∈ personalCFs
       /\ ledgerKeys d' = (userId, cf_id personalCF, instanceId).
Proof.
  revert st. induction personalCFs as [|personalCF rest IH]; intros st; simpl.
  { intros Hd. left. by exists d'. }
  unfold bind.
  pose proof (deployOne_ledger_rows userId instanceId instance existingByName
                personalCF st) as Hone.
  destruct (deployOne_run userId instanceId instance existingByName personalCF st)
    as (st1 & evs1 & Hrun1 & _).
  rewrite Hrun1 in *. simpl in Hone. intros Hd.
  destruct (IH st1 Hd) as [(d1 & Hd1 & Hk1)|(cf & Hcf & Hk)].
  - destruct (Hone d1 Hd1) as [(d & Hd0 & Hk0)|Hk0].
    + left. exists d. split; [done|congruence].
    + right. exists personalCF. split; [left|congruence].
  - right. exists cf. split; [by right|done].
Qed.

Lemma POST_deploy_multiple_ledger_rows userId requestBody st :
  let st' := (POST_deploy_multiple E userId requestBody st).2 in
  serviceInstance (st_db st') = serviceInstance (st_db st)
  /\ forall d',
       d' ∈ personalCFDeployment (st_db st') ->
       (exists d, d ∈ personalCFDeployment (st_db st) /\ ledgerKeys d' = ledgerKeys d)
       \/ exists personalCF instance,
            personalCF ∈ fetchedRecords userId (personalCFIds requestBody) (st_db st)
            /\ fetchedInstance userId (dreq_instanceId requestBody) (st_db st)
               = Some instance
            /\ ledgerKeys d'
               = (userId, cf_id personalCF, dreq_instanceId requestBody).
Proof.
  assert (Hsame : forall s : St E, forall d',
            d' ∈ personalCFDeployment (st_db s) ->
            (exists d, d ∈ personalCFDeployment (st_db s) /\ ledgerKeys d' = ledgerKeys d)
            \/ exists personalCF instance,
                 personalCF ∈ fetchedRecords userId (personalCFIds requestBody) (st_db st)
                 /\ fetchedInstance userId (dreq_instanceId requestBody) (st_db st)
                    = Some instance
                 /\ ledgerKeys d'
                    = (userId, cf_id personalCF, dreq_instanceId requestBody)).
  { intros s d' Hd. left. by exists d'. }
  cbv zeta.
  destruct (POST_deploy_multiple E userId requestBody st) as [reply st'] eqn:Hrun.
  simpl. revert Hrun. unfold POST_deploy_multiple.
  destruct (deployMultipleSchema requestBody); simpl;
    [|intros [= <- <-]; split; auto].
  unfold handle, bind at 1, serviceInstance_findFirst.
  destruct (List.find _ (serviceInstance (st_db st))) as [instance|] eqn:Hinst;
    [|intros [= <- <-]; split; auto].
  unfold bind at 1, personalCustomFormat_findMany.
  case_bool_decide; simpl; [|intros [= <- <-]; split; auto].
  destruct (List.find _ (List.filter _ _)); [intros [= <- <-]; split; auto|].
  destruct (createArrApiClient E instance); [intros [= <- <-]; split; auto|].
  unfold bind at 1, arrClient_getCustomFormats, remoteCall.
  destruct (getCustomFormats E instance (st_world st)) as [existingFormats|e];
    [|intros [= <- <-]; simpl; split; auto].
  unfold bind at 1, setResults. unfold bind at 1.
  match goal with
  | |- context [forOf E ?body ?l ?s] =>
    pose proof (deployLoop_ledger_rows userId (dreq_instanceId requestBody) instance
                  (existingByNameOf existingFormats) l s) as Hrows;
    destruct (deployLoop_run userId (dreq_instanceId requestBody) instance
                (existingByNameOf existingFormats) l s)
      as (st1 & evs & Hloop & _ & _ & _ & _ & _ & Hcf & Hinst' & _);
    rewrite Hloop in *
  end.
  unfold bind, getResults, ret. simpl in *.
  assert (Hgoal : forall d',
            d' ∈ personalCFDeployment (st_db st1) ->
            (exists d, d ∈ personalCFDeployment (st_db st) /\ ledgerKeys d' = ledgerKeys d)
            \/ exists personalCF instance0,
                 personalCF ∈ fetchedRecords userId (personalCFIds requestBody) (st_db st)
                 /\ fetchedInstance userId (dreq_instanceId requestBody) (st_db st)
                    = Some instance0
                 /\ ledgerKeys d'
                    = (userId, cf_id personalCF, dreq_instanceId requestBody)).
  { intros d' Hd. destruct (Hrows d' Hd) as [?|(cf & Hcf' & Hk)]; [by left|].
    right. exists cf, instance. by split_and!. }
  destruct (bool_decide _); intros [= <- <-]; split; auto.
Qed.

Lemma DELETE_deployments_id_ledger_rows userId id st :
  let st' := (DELETE_deployments_id E userId id st).2 in
  serviceInstance (st_db st') = serviceInstance (st_db st)
  /\ forall d', d' ∈ personalCFDeployment (st_db st') ->
       d' ∈ personalCFDeployment (st_db st).
Proof.
  cbv zeta.
  unfold DELETE_deployments_id, handle, bind, personalCFDeployment_findFirst,
    personalCFDeployment_delete.
  destruct (List.find _ (personalCFDeployment _)) as [d|]; [|done].
  destruct (List.find _ (personalCustomFormat _)); [|done].
  destruct (existsb _ _); [|done]. simpl. split; [done|].
  intros d' Hd. apply list_elem_of_In, filter_In in Hd as [Hd _].
  by apply list_elem_of_In.
Qed.

(** The three record routes that write leave the ledger and the instances
    as they are. *)
Lemma record_routes_keep_ledger userId id createBody updateBody st :
  let keeps (st' : St E) :=
    personalCFDeployment (st_db st') = personalCFDeployment (st_db st)
    /\ serviceInstance (st_db st') = serviceInstance (st_db st) in
  keeps (POST_root E userId createBody st).2
  /\ keeps (PUT_id E userId id updateBody st).2
  /\ keeps (DELETE_id E userId id st).2.
Proof.
  cbv zeta. split; [|split].
  - unfold POST_root. destruct (createPersonalCFSchema createBody); simpl; [|done].
    unfold handle, bind, personalCustomFormat_findFirst.
    destruct (List.find (liveNamed _ _ _) _); simpl; [done|].
    unfold personalCustomFormat_create.
    destruct (existsb _ _); simpl; [done|].
    by destruct (existsb (sameUniqueKey _) _).
  - destruct (PUT_id E userId id updateBody st) as [reply st'] eqn:Hrun.
    destruct (decide (status reply = 200)) as [Hok|Hno].
    + destruct (PUT_id_applied _ _ _ _ _ _ Hrun Hok) as (cf & _ & _ & _ & _ & ? & ? & _).
      by simpl.
    + pose proof (PUT_id_rejected userId id updateBody st) as Hrej.
      rewrite Hrun in Hrej. simpl in *. by rewrite Hrej.
  - unfold DELETE_id, handle, bind, personalCustomFormat_findFirst.
    destruct (List.find (ownedLive id userId) _) as [cf|]; [|done].
    unfold personalCustomFormat_update.
    destruct (List.find (fun r => bool_decide (cf_id r = id)) _); [|done].
    by destruct (existsb _ _).
Qed.

(** What a request can do to the ledger: every row there is afterwards has
    the owner, record and instance of a row that was there, or is a row of
    the caller's for a live record and an instance of the caller's. *)
Lemma serve_ledger_rows before currentUser request st :
  let userId := default EmptyString currentUser in
  let st' := (serve E before currentUser request st).2 in
  serviceInstance (st_db st') = serviceInstance (st_db st)
  /\ forall d',
       d' ∈ personalCFDeployment (st_db st') ->
       (exists d, d ∈ personalCFDeployment (st_db st) /\ ledgerKeys d' = ledgerKeys d)
       \/ exists personalCF instance,
            personalCF ∈ personalCustomFormat (st_db st)
            /\ instance ∈ serviceInstance (st_db st)
            /\ cf_userId personalCF = userId
            /\ inst_userId instance = userId
            /\ ledgerKeys d' = (userId, cf_id personalCF, inst_id instance).
Proof.
  cbv zeta.
  assert (Hsame : forall s : St E,
            personalCFDeployment (st_db s) = personalCFDeployment (st_db st) ->
            forall d', d' ∈ personalCFDeployment (st_db s) ->
              (exists d, d ∈ personalCFDeployment (st_db st)
                         /\ ledgerKeys d' = ledgerKeys d)
              \/ exists personalCF instance,
                   personalCF ∈ personalCustomFormat (st_db st)
                   /\ instance ∈ serviceInstance (st_db st)
                   /\ cf_userId personalCF = default EmptyString currentUser
                   /\ inst_userId instance = default EmptyString currentUser
                   /\ ledgerKeys d'
                      = (default EmptyString currentUser, cf_id personalCF,
                         inst_id instance)).
  { intros s Hs d' Hd. rewrite Hs in Hd. left. by exists d'. }
  unfold serve. destruct (preHandler currentUser); [by split; [|apply Hsame]|].
  set (userId := default EmptyString currentUser) in *.
  destruct request as [serviceType|id|requestBody|id requestBody|id|requestBody
                      |instanceId|instanceId serviceType|id]; simpl.
  - by split; [|apply Hsame].
  - rewrite (proj1 (reads_keep_state userId id None None st)).
    by split; [|apply Hsame].
  - destruct (record_routes_keep_ledger userId EmptyString requestBody
                (mkUpdateReq None None None) st) as [[Hl Hi] _].
    by split; [|apply Hsame].
  - destruct (record_routes_keep_ledger userId id
                (mkCreateReq EmptyString RADARR None []) requestBody st)
      as (_ & [Hl Hi] & _).
    by split; [|apply Hsame].
  - destruct (record_routes_keep_ledger userId id
                (mkCreateReq EmptyString RADARR None []) (mkUpdateReq None None None) st)
      as (_ & _ & [Hl Hi]).
    by split; [|apply Hsame].
  - destruct (POST_deploy_multiple_ledger_rows userId requestBody st) as [Hi Hrows].
    split; [done|]. intros d' Hd.
    destruct (Hrows d' Hd) as [?|(cf & instance & Hcf & Hinst & Hk)]; [by left|].
    right. exists cf, instance.
    apply list_elem_of_In, filter_In in Hcf as [Hin Hcf].
    unfold ownedLiveIn in Hcf. rewrite !andb_true_iff, !bool_decide_eq_true in Hcf.
    apply find_some in Hinst as [Hiin Hinst].
    rewrite andb_true_iff, !bool_decide_eq_true in Hinst.
    destruct Hinst as [Hiid Hiu].
    split_and!; [by apply list_elem_of_In|by apply list_elem_of_In|tauto|done|].
    by rewrite Hiid.
  - rewrite (proj1 (proj2 (reads_keep_state userId EmptyString instanceId None st))).
    by split; [|apply Hsame].
  - rewrite (proj2 (proj2 (reads_keep_state userId EmptyString instanceId serviceType st))).
    by split; [|apply Hsame].
  - destruct (DELETE_deployments_id_ledger_rows userId id st) as [Hi Hrows].
    split; [done|]. intros d' Hd. left. exists d'. split; [by apply Hrows|done].
Qed.

Lemma ledgerOwned_refIntegrity db : ledgerOwned db -> refIntegrity db.
Proof.
  intros Hown. apply Forall_forall. intros d Hd.
  destruct (Hown d Hd) as (cf & i & -> & _). by eexists.
Qed.

(** No request breaks the ownership of the ledger.  If the ids of records
    and of instances are distinct and every ledger row points to a record
    and an instance of the row's own user, then after any request, by any
    user and with any body, every ledger row still does; in particular the
    foreign keys of the ledger still resolve, so that the two list routes
    can join every row with its record and its instance. *)
Theorem serve_keeps_ledger_owned before currentUser request st :
  primaryKey (personalCustomFormat (st_db st)) ->
  instanceKey (serviceInstance (st_db st)) ->
  ledgerOwned (st_db st) ->
  ledgerOwned (st_db (serve E before currentUser request st).2)
  /\ refIntegrity (st_db (serve E before currentUser request st).2).
Proof.
  intros Hpk Hik Hown.
  assert (Hgoal : ledgerOwned (st_db (serve E before currentUser request st).2));
    [|split; [done|by apply ledgerOwned_refIntegrity]].
  pose proof (serve_recordsKept before currentUser request st) as Hkept.
  destruct (serve_ledger_rows before currentUser request st) as [Hinst Hrows].
  intros d' Hd.
  destruct (Hrows d' Hd) as [(d & Hd0 & Hk)|(cf & i & Hcf & Hi & Hu & Hiu & Hk)].
  - by apply (rowOwned_transport (st_db st) _ d d'); [..|apply Hown].
  - injection Hk as Hku Hkc Hki.
    apply (rowOwned_transport (st_db st) _ d' d'); [done..|].
    apply (rowOwned_new _ _ cf i); congruence.
Qed.

(** ** Deploying and reading back *)

Lemma filter_all {A} (p : A -> bool) (l : list A) :
  (forall x, x ∈ l -> p x = true) -> List.filter p l = l.
Proof.
  induction l as [|x l IH]; intros Hp; simpl; [done|].
  rewrite (Hp x) by left. f_equal. apply IH. intros y Hy. apply Hp. by right.
Qed.

(** A batch without a failure leaves no drift behind.  When the route
    answers 200, every record of the request has its one row in the ledger
    for the instance, at the record's version and with its specifications
    as snapshot; the entry the list routes compute for that row has
    [needsUpdate] false, and the updates route does not report it,
    whatever service type it is asked for. *)
Theorem clean_deploy_clears_drift userId requestBody st instance existingFormats :
  primaryKey (personalCustomFormat (st_db st)) ->
  tableUnique (personalCustomFormat (st_db st)) ->
  ledgerUnique (personalCFDeployment (st_db st)) ->
  batchStarts E userId requestBody st instance existingFormats ->
  status (POST_deploy_multiple E userId requestBody st).1 = 200 ->
  let st' := (POST_deploy_multiple E userId requestBody st).2 in
  forall personalCF,
    personalCF ∈ fetchedRecords userId (personalCFIds requestBody) (st_db st) ->
    ledgered (dreq_instanceId requestBody) personalCF (personalCFDeployment (st_db st'))
    /\ forall d cf i serviceType,
         inScope userId (Some (dreq_instanceId requestBody)) (st_db st') (d, cf, i) ->
         dep_personalCFId d = cf_id personalCF ->
         cf = personalCF
         /\ fd_deployedVersion (formatDeployment (d, cf, i)) = cf_version personalCF
         /\ fd_needsUpdate (formatDeployment (d, cf, i)) = false
         /\ hasDrift serviceType (d, cf, i) = false.
Proof.
  intros Hpk Hu Hlu Hstart Hok. cbv zeta.
  destruct (POST_deploy_multiple_run _ _ _ _ _ Hstart)
    as (st' & evs & Hrun & _ & Hbatch & Hrecs & _ & Hledgered).
  rewrite Hrun in *. simpl in *.
  destruct (omap failureOf evs) as [|failure failures] eqn:Hfailed;
    [|by rewrite bool_decide_false in Hok].
  destruct Hstart as (Hschema & _ & _ & Hmis & _).
  assert (Hwrites : omap ledgerWrite evs
                    = fetchedRecords userId (personalCFIds requestBody) (st_db st)).
  { eapply BatchLog_ledger_writes in Hbatch as ->;
      [|by eapply fetchedRecords_names_NoDup].
    rewrite Hfailed. apply filter_all. intros x _. apply negb_true_iff, bool_decide_eq_false.
    simpl. apply not_elem_of_nil. }
  intros personalCF HpersonalCF.
  assert (Hrow : ledgered (dreq_instanceId requestBody) personalCF
                   (personalCFDeployment (st_db st')))
    by (apply Hledgered; [done|done|by rewrite Hwrites]).
  split; [done|].
  intros d cf i serviceType (d0 & Hd0 & Hwhere & Hrel) Hid.
  destruct (includeRelations_record _ _ _ Hrel) as [Hd Hcf]. simpl in Hd, Hcf.
  subst d0. rewrite Hrecs in Hcf.
  assert (cf = personalCF) as ->.
  { apply list_elem_of_In, filter_In in HpersonalCF as [Hin _].
    apply list_elem_of_In in Hin.
    rewrite (find_unique cf_id _ personalCF) in Hcf by done. congruence. }
  destruct Hrow as (dl & Hfilter & Hversion & _).
  assert (dl = d) as ->.
  { assert (Hin : In d (List.filter (ledgerKey (dreq_instanceId requestBody)
                                        (cf_id personalCF))
                          (personalCFDeployment (st_db st')))).
    { apply filter_In. split; [by apply list_elem_of_In|].
      unfold ledgerWhere in Hwhere. apply andb_true_iff in Hwhere as [_ Hwhere].
      unfold deployMultipleSchema in Hschema.
      apply andb_true_iff in Hschema as [_ Hschema]. apply Nat.leb_le in Hschema.
      assert (truthyString (Some (dreq_instanceId requestBody)) = true) as Htruthy.
      { simpl. apply negb_true_iff, bool_decide_eq_false. intros Hempty.
        rewrite Hempty in Hschema. simpl in Hschema. lia. }
      rewrite Htruthy in Hwhere. apply bool_decide_eq_true in Hwhere.
      unfold ledgerKey. rewrite !bool_decide_true; [done|done|congruence]. }
    rewrite Hfilter in Hin. simpl in Hin. by destruct Hin. }
  clear Hfilter.
  split; [done|]. simpl. rewrite Hversion.
  assert (Hsame : (cf_version personalCF >? cf_version personalCF) = false)
    by (rewrite Z.gtb_ltb; apply Z.ltb_irrefl).
  split; [done|]. split; [done|].
  rewrite Hsame. by destruct (_ && _).
Qed.

(** ** Editing a deployed record *)

(** What an edit does to the deployments of a record.  After a PUT that is
    applied, every ledger row is still there and still joins with its
    record and instance; the entry of a row of another record is what it
    was.  For a row of the edited record: when the patch has
    specifications, the entry's current version is one above the old one,
    so that a row which was up to date is now flagged [needsUpdate] and
    reported by the updates route; when the patch has none (a rename, or
    a change of the rename flag), the entry shows the new name while
    [needsUpdate] is what it was: a rename alone is never reported as
    drift. *)
Theorem edit_flags_deployments userId id requestBody st reply st' d cf i :
  primaryKey (personalCustomFormat (st_db st)) ->
  PUT_id E userId id requestBody st = (reply, st') ->
  status reply = 200 ->
  d ∈ personalCFDeployment (st_db st) ->
  includeRelations (st_db st) d = Some (d, cf, i) ->
  exists cf',
    d ∈ personalCFDeployment (st_db st')
    /\ includeRelations (st_db st') d = Some (d, cf', i)
    /\ (dep_personalCFId d <> id -> cf' = cf)
    /\ (dep_personalCFId d = id ->
        (is_Some (ureq_specifications requestBody) ->
         fd_currentVersion (formatDeployment (d, cf', i)) = cf_version cf + 1
         /\ (dep_deployedVersion d = cf_version cf ->
             fd_needsUpdate (formatDeployment (d, cf', i)) = true
             /\ hasDrift None (d, cf', i) = true))
        /\ (ureq_specifications requestBody = None ->
            fd_personalCFName (formatDeployment (d, cf', i))
              = default (cf_name cf) (ureq_name requestBody)
            /\ fd_currentVersion (formatDeployment (d, cf', i)) = cf_version cf
            /\ fd_needsUpdate (formatDeployment (d, cf', i))
               = fd_needsUpdate (formatDeployment (d, cf, i)))).
Proof.
  intros Hpk Hrun Hok Hd Hrel.
  destruct (PUT_id_applied _ _ _ _ _ _ Hrun Hok)
    as (cf0 & Hvalid & Hcf0 & _ & Hrows & Hledger & Hinst & _).
  destruct (includeRelations_record _ _ _ Hrel) as [_ Hcf]. simpl in Hcf.
  pose proof Hcf as Hcf'. apply find_some in Hcf' as [Hin Hid].
  apply bool_decide_eq_true in Hid.
  unfold includeRelations in *. rewrite Hrows, Hinst, Hledger.
  unfold updatedRows. rewrite find_map_stable, Hcf
    by (intros r; by destruct (bool_decide (cf_id r = id))).
  rewrite Hcf in Hrel. simpl.
  destruct (List.find _ (serviceInstance (st_db st))) as [i0|]; [|done].
  injection Hrel as <-.
  eexists. split; [done|]. split; [reflexivity|]. split.
  - intros Hne. rewrite bool_decide_false; [done|congruence].
  - intros Heq. rewrite bool_decide_true by congruence.
    assert (cf = cf0) as ->.
    { apply list_elem_of_In, list_elem_of_lookup in Hin as [k Hk].
      eapply ownedLive_unique; [done..|congruence]. }
    split.
    + intros [specifications Hspecs]. unfold hasDrift, putData. simpl.
      rewrite Hspecs. simpl. split; [done|].
      intros ->. split; apply Z.gtb_gt; lia.
    + intros Hspecs. unfold putData. simpl. rewrite Hspecs. simpl. split; [|done].
      destruct (ureq_name requestBody) as [n|] eqn:Hn; [|done].
      by rewrite (schema_name_truthy _ _ Hvalid Hn).
Qed.

(** ** A deleted record *)

Lemma DELETE_id_run userId id st cf :
  tableUnique (personalCustomFormat (st_db st)) ->
  List.find (ownedLive id userId) (personalCustomFormat (st_db st)) = Some cf ->
  exists st',
    DELETE_id E userId id st
      = (mkReply 200
           (MessageBody ("Deleted custom format " +:+ quote +:+ cf_name cf +:+ quote)),
         st')
    /\ personalCustomFormat (st_db st')
       = updatedRows id
           (mkUpdateData None None None None (Some (now E (st_world st))))
           (now E (st_world st)) (personalCustomFormat (st_db st))
    /\ personalCFDeployment (st_db st') = personalCFDeployment (st_db st)
    /\ serviceInstance (st_db st') = serviceInstance (st_db st).
Proof.
  intros Hu Hcf. unfold DELETE_id.
  unfold handle, bind, personalCustomFormat_findFirst. rewrite Hcf.
  unfold personalCustomFormat_update.
  destruct (List.find (fun r => bool_decide (cf_id r = id)) _) as [old|] eqn:Hold.
  2:{ apply find_some in Hcf as [Hin Hlive]. apply ownedLive_id in Hlive.
      pose proof (find_none _ _ Hold _ Hin) as Hno. simpl in Hno.
      by rewrite bool_decide_true in Hno. }
  apply find_some in Hold as [Hold Hid]. apply bool_decide_eq_true in Hid.
  rewrite (existsb_other_key_false id _ old);
    [|done|by apply list_elem_of_In|done|].
  2:{ unfold sameUniqueKey. simpl. by rewrite !bool_decide_true. }
  eexists. split; [reflexivity|]. done.
Qed.

Lemma updatedRows_deleted_gone id userId t rows :
  List.find (ownedLive id userId)
    (updatedRows id (mkUpdateData None None None None (Some t)) t rows) = None.
Proof.
  apply find_ownedLive_None. intros r [r0 [-> Hr0]]%list_elem_of_fmap Hrid.
  right. simpl in *.
  destruct (bool_decide (cf_id r0 = id)) eqn:Hb; [done|].
  by apply bool_decide_eq_false in Hb.
Qed.

Lemma POST_deploy_multiple_some_not_found userId requestBody st instance :
  primaryKey (personalCustomFormat (st_db st)) ->
  deployMultipleSchema requestBody = true ->
  fetchedInstance userId (dreq_instanceId requestBody) (st_db st) = Some instance ->
  ~ allOwnedLive userId (personalCFIds requestBody) (personalCustomFormat (st_db st)) ->
  POST_deploy_multiple E userId requestBody st = (someNotFound, st).
Proof.
  intros Hpk Hschema Hinst Hno.
  pose proof (fetchedRecords_count userId (personalCFIds requestBody) (st_db st) Hpk)
    as Hcount.
  unfold fetchedInstance in Hinst. unfold fetchedRecords in Hcount.
  unfold POST_deploy_multiple. rewrite Hschema. simpl.
  unfold handle, bind at 1, serviceInstance_findFirst. rewrite Hinst.
  unfold bind at 1, personalCustomFormat_findMany.
  rewrite bool_decide_false; [done|]. intros Hlen. by apply Hno, Hcount.
Qed.

(** Once a record is soft-deleted it is out of reach of its owner: it is
    no longer in the list of [GET /], it cannot be edited (404), and every
    deployment request that names it, alone or among others, is refused
    with 404 SOME_CFS_NOT_FOUND before any call to the instance.  Its
    ledger rows are left in place. *)
Theorem deleted_record_is_out_of_reach userId id st cf :
  primaryKey (personalCustomFormat (st_db st)) ->
  tableUnique (personalCustomFormat (st_db st)) ->
  List.find (ownedLive id userId) (personalCustomFormat (st_db st)) = Some cf ->
  let st' := (DELETE_id E userId id st).2 in
  (forall before serviceType,
     exists customFormats,
       GET_root E before userId serviceType st' = (CustomFormatsList 200 customFormats, st')
       /\ forall r, r ∈ customFormats -> cf_id r <> id)
  /\ (forall requestBody,
        updatePersonalCFSchema requestBody = true ->
        PUT_id E userId id requestBody st' = (notFound, st'))
  /\ (forall requestBody instance,
        deployMultipleSchema requestBody = true ->
        fetchedInstance userId (dreq_instanceId requestBody) (st_db st) = Some instance ->
        id ∈ personalCFIds requestBody ->
        POST_deploy_multiple E userId requestBody st' = (someNotFound, st'))
  /\ personalCFDeployment (st_db st') = personalCFDeployment (st_db st).
Proof.
  intros Hpk Hu Hcf. cbv zeta.
  destruct (DELETE_id_run userId id st cf Hu Hcf)
    as (st' & -> & Hrows & Hledger & Hinst). simpl.
  pose proof (updatedRows_deleted_gone id userId (now E (st_world st))
                (personalCustomFormat (st_db st))) as Hgone.
  rewrite <- Hrows in Hgone.
  split_and!; [| | |done].
  - intros before serviceType. eexists. split; [reflexivity|].
    intros r Hr Hid. rewrite sortBy_Permutation in Hr.
    apply list_elem_of_In, filter_In in Hr as [Hin Hr].
    rewrite !andb_true_iff, !bool_decide_eq_true in Hr.
    pose proof (find_none _ _ Hgone _ Hin) as Hno.
    apply not_true_iff_false in Hno. apply Hno, ownedLive_spec. tauto.
  - intros requestBody Hvalid. unfold PUT_id. rewrite Hvalid. simpl.
    unfold handle, bind, personalCustomFormat_findFirst. by rewrite Hgone.
  - intros requestBody instance Hschema Hinstance Hid.
    apply (POST_deploy_multiple_some_not_found _ _ _ instance); [|done| |].
    + unfold primaryKey. by rewrite Hrows, updatedRows_ids.
    + unfold fetchedInstance in *. by rewrite Hinst.
    + intros Hall. destruct (Hall id Hid) as [x Hx]. by rewrite Hgone in Hx.
Qed.

(** ** The two list routes side by side *)

Lemma mapM_omap {A B} (f : A -> option B) (l : list A) (k : list B) :
  mapM f l = Some k -> omap f l = k /\ length k = length l.
Proof.
  rewrite mapM_Some. induction 1 as [|x y l k Hxy _ [<- IH2]]; simpl; [done|].
  rewrite Hxy. simpl. split; [done|]. by rewrite IH2.
Qed.

Lemma List_filter_Permutation {A} (p : A -> bool) (l k : list A) :
  l ≡ₚ k -> List.filter p l ≡ₚ List.filter p k.
Proof.
  induction 1 as [|x l k _ IH|x y l|l k m _ IH1 _ IH2]; simpl.
  - done.
  - destruct (p x); [by constructor|done].
  - destruct (p x), (p y); try done. apply perm_swap.
  - by etransitivity.
Qed.

Lemma List_filter_length_le {A} (p q : A -> bool) (l : list A) :
  (forall x, p x = true -> q x = true) ->
  (length (List.filter p l) <= length (List.filter q l))%nat.
Proof.
  intros Hpq. induction l as [|x l IH]; simpl; [done|].
  destruct (p x) eqn:Hp.
  - rewrite (Hpq x Hp). simpl. lia.
  - destruct (q x); simpl; lia.
Qed.

Lemma List_filter_map {A B} (p : B -> bool) (f : A -> B) (l : list A) :
  List.filter p (map f l) = map f (List.filter (fun x => p (f x)) l).
Proof.
  induction l as [|x l IH]; simpl; [done|]. destruct (p (f x)); simpl; by rewrite IH.
Qed.

(** The query of both list routes, when the foreign keys resolve: the
    rows in scope, ordered, each joined with its record and instance. *)
Lemma personalCFDeployment_findMany_joined userId instanceId orderBy st :
  refIntegrity (st_db st) ->
  (forall l, orderBy l ≡ₚ l) ->
  exists joined,
    personalCFDeployment_findMany E (ledgerWhere userId instanceId) orderBy st
      = (Returned joined, st)
    /\ joined
       ≡ₚ omap (includeRelations (st_db st))
            (List.filter (ledgerWhere userId instanceId) (personalCFDeployment (st_db st)))
    /\ length joined
       = length (List.filter (ledgerWhere userId instanceId)
                   (personalCFDeployment (st_db st))).
Proof.
  intros Href Hperm. unfold personalCFDeployment_findMany.
  destruct (mapM _ _) as [joined|] eqn:Hjoined.
  - exists joined. split; [done|].
    apply mapM_omap in Hjoined as [<- ->]. by rewrite !Hperm.
  - exfalso. apply eq_None_not_Some in Hjoined. apply Hjoined, mapM_is_Some.
    apply Forall_forall. intros d Hd. rewrite Hperm in Hd.
    apply list_elem_of_In, filter_In in Hd as [Hd _]. apply list_elem_of_In in Hd.
    unfold refIntegrity in Href. rewrite Forall_forall in Href. by apply Href.
Qed.

(** The two list routes agree.  When the foreign keys of the ledger
    resolve, [totalDeployed] of the updates route is the number of entries
    the deployments route lists for the same instance filter: the caller's
    ledger rows in scope, whatever service type was asked for.  Every
    update reported is the entry of a row the deployments route lists with
    [needsUpdate] true, with the same ids, name and versions; without a
    service type the outdated count is the number of flagged entries, with
    one it is at most that; and [hasUpdates] says whether the list of
    updates is not empty. *)
Theorem updates_agree_with_deployments userId instanceId serviceType st :
  refIntegrity (st_db st) ->
  exists deployments hasUpdates updates,
    GET_deployments E userId instanceId st
      = (mkReply 200 (DeploymentsBody deployments), st)
    /\ GET_updates E userId instanceId serviceType st
       = (mkReply 200
            (UpdatesBody hasUpdates updates (length deployments) (length updates)),
          st)
    /\ length deployments
       = length (List.filter (ledgerWhere userId instanceId)
                   (personalCFDeployment (st_db st)))
    /\ (length updates <= length (List.filter fd_needsUpdate deployments))%nat
    /\ (truthyString serviceType = false ->
        length updates = length (List.filter fd_needsUpdate deployments))
    /\ (hasUpdates = true <-> updates <> [])
    /\ forall u,
         u ∈ updates ->
         exists e,
           e ∈ deployments
           /\ fd_needsUpdate e = true
           /\ fd_id e = un_deploymentId u
           /\ fd_personalCFId e = un_personalCFId u
           /\ fd_personalCFName e = un_personalCFName u
           /\ fd_instanceId e = un_instanceId u
           /\ fd_deployedVersion e = un_deployedVersion u
           /\ fd_currentVersion e = un_currentVersion u.
Proof.
  intros Href.
  destruct (personalCFDeployment_findMany_joined userId instanceId
              orderByInstanceThenDate st Href orderByInstanceThenDate_Permutation)
    as (joined & Hrun & Hjoined & Hlen).
  destruct (personalCFDeployment_findMany_joined userId instanceId (fun l => l) st Href
              (fun l => reflexivity l))
    as (joined' & Hrun' & Hjoined' & Hlen').
  assert (Hperm : joined' ≡ₚ joined) by (by rewrite Hjoined, Hjoined').
  assert (Hflag : forall j, fd_needsUpdate (formatDeployment j) = hasDrift None j).
  { by intros [[d cf] i]. }
  assert (Hweaker : forall j, hasDrift serviceType j = true -> hasDrift None j = true).
  { intros [[d cf] i]. unfold hasDrift. simpl. by destruct (_ && _). }
  assert (Hflagged :
    length (List.filter fd_needsUpdate (map formatDeployment joined))
    = length (List.filter (hasDrift None) joined')).
  { rewrite List_filter_map, length_map.
    rewrite (List.filter_ext _ (hasDrift None)) by apply Hflag.
    apply Permutation_length. symmetry. by apply List_filter_Permutation. }
  eexists (map formatDeployment joined), _,
    (map toUpdateNotification (List.filter (hasDrift serviceType) joined')).
  unfold GET_deployments, GET_updates, handle, bind, ret.
  rewrite Hrun, Hrun'. simpl. rewrite !length_map.
  split; [done|]. split; [by rewrite Hlen, Hlen'|]. split; [done|].
  rewrite Hflagged. split; [by apply List_filter_length_le|]. split.
  { intros Hnone. f_equal. apply List.filter_ext. intros [[d cf] i].
    unfold hasDrift. by rewrite Hnone. }
  split.
  { rewrite bool_decide_eq_true.
    destruct (List.filter (hasDrift serviceType) joined'); simpl; [|split; [done|lia]].
    split; [lia|done]. }
  intros u (j & -> & Hj)%list_elem_of_fmap.
  apply list_elem_of_In, filter_In in Hj as [Hj Hdrift].
  exists (formatDeployment j). split.
  - apply list_elem_of_fmap. exists j. split; [done|].
    rewrite <- Hperm. by apply list_elem_of_In.
  - rewrite Hflag. split; [by apply Hweaker|]. by destruct j as [[d cf] i].
Qed.

(** ** Reads a write cannot change *)

Lemma mapM_fmap_ext {A B} (f f' : A -> option B) (g : B -> B) (l : list A) :
  (forall x, x ∈ l -> f' x = g <$> f x) ->
  mapM f' l = map g <$> mapM f l.
Proof.
  induction l as [|x l IH]; intros Hext; simpl; [done|].
  rewrite (Hext x) by left. rewrite IH by (intros y Hy; apply Hext; by right).
  destruct (f x); simpl; [|done]. by destruct (mapM f l).
Qed.

Lemma hasDrift_notification serviceType j j' :
  toUpdateNotification j' = toUpdateNotification j ->
  hasDrift serviceType j' = hasDrift serviceType j.
Proof.
  destruct j as [[d cf] i], j' as [[d' cf'] i']. intros [= _ _ _ _ _ Hs Hd Hv].
  unfold hasDrift. by rewrite Hs, Hd, Hv.
Qed.

(** The replies of the two list routes depend on the ledger rows and on
    what each row joins with, as far as the entries show it. *)
Lemma ledger_reads_ext userId instanceId serviceType (s s' : St E)
    (g : Joined -> Joined) :
  personalCFDeployment (st_db s') = personalCFDeployment (st_db s) ->
  (forall j, formatDeployment (g j) = formatDeployment j
             /\ toUpdateNotification (g j) = toUpdateNotification j) ->
  (forall d, d ∈ personalCFDeployment (st_db s) ->
     includeRelations (st_db s') d = g <$> includeRelations (st_db s) d) ->
  (GET_deployments E userId instanceId s').1 = (GET_deployments E userId instanceId s).1
  /\ (GET_updates E userId instanceId serviceType s').1
     = (GET_updates E userId instanceId serviceType s).1.
Proof.
  intros Hledger Hg Hrel.
  assert (Hmap : forall orderBy,
            (forall l x, x ∈ orderBy l -> x ∈ l) ->
            mapM (includeRelations (st_db s'))
              (orderBy (List.filter (ledgerWhere userId instanceId)
                          (personalCFDeployment (st_db s))))
            = map g <$> mapM (includeRelations (st_db s))
                          (orderBy (List.filter (ledgerWhere userId instanceId)
                                      (personalCFDeployment (st_db s))))).
  { intros orderBy Hsub. apply mapM_fmap_ext. intros d Hd. apply Hrel.
    apply Hsub, list_elem_of_In, filter_In in Hd as [Hd _]. by apply list_elem_of_In. }
  unfold GET_deployments, GET_updates, handle, bind, personalCFDeployment_findMany, ret.
  rewrite Hledger. split.
  - rewrite (Hmap orderByInstanceThenDate)
      by (intros l x; apply orderByInstanceThenDate_elem).
    destruct (mapM _ _) as [joined|]; simpl; [|done].
    do 2 f_equal. rewrite map_map. apply map_ext. intros j. apply Hg.
  - rewrite (Hmap (fun l => l)) by done.
    destruct (mapM _ _) as [joined|]; simpl; [|done].
    rewrite List_filter_map.
    rewrite (List.filter_ext (fun j => hasDrift serviceType (g j)) (hasDrift serviceType))
      by (intros j; apply hasDrift_notification, Hg).
    rewrite map_map, !length_map.
    rewrite (map_ext (fun j => toUpdateNotification (g j)) toUpdateNotification)
      by (intros j; apply Hg).
    done.
Qed.

Lemma POST_root_ledger_reads writer reader requestBody instanceId serviceType st :
  refIntegrity (st_db st) ->
  (GET_deployments E reader instanceId (POST_root E writer requestBody st).2).1
  = (GET_deployments E reader instanceId st).1
  /\ (GET_updates E reader instanceId serviceType (POST_root E writer requestBody st).2).1
     = (GET_updates E reader instanceId serviceType st).1.
Proof.
  intros Href.
  destruct (record_routes_keep_ledger writer EmptyString requestBody
              (mkUpdateReq None None None) st) as [[Hl Hi] _].
  apply (ledger_reads_ext _ _ _ _ _ (fun j => j)); [done|done|].
  intros d Hd. unfold refIntegrity in Href. rewrite Forall_forall in Href.
  destruct (Href d Hd) as [j Hj]. rewrite Hj. simpl.
  unfold includeRelations in *. rewrite Hi.
  destruct (POST_root_effect writer requestBody st) as [->|(row & -> & _)]; [done|].
  destruct (List.find _ (personalCustomFormat (st_db st))) as [cf|] eqn:Hcf; [|done].
  by rewrite (find_app_l _ _ _ _ Hcf).
Qed.

Lemma DELETE_id_ledger_reads writer reader id instanceId serviceType st :
  (GET_deployments E reader instanceId (DELETE_id E writer id st).2).1
  = (GET_deployments E reader instanceId st).1
  /\ (GET_updates E reader instanceId serviceType (DELETE_id E writer id st).2).1
     = (GET_updates E reader instanceId serviceType st).1.
Proof.
  destruct (record_routes_keep_ledger writer id
              (mkCreateReq EmptyString RADARR None []) (mkUpdateReq None None None) st)
    as (_ & _ & [Hl Hi]).
  destruct (DELETE_id_effect writer id st) as [->|(cf & _ & Hrows)]; [done|].
  set (f := fun r => if bool_decide (cf_id r = id)
                     then applyData
                            (mkUpdateData None None None None (Some (now E (st_world st))))
                            (now E (st_world st)) r
                     else r).
  apply (ledger_reads_ext _ _ _ _ _ (fun j => (j.1.1, f j.1.2, j.2))); [done| |].
  - intros [[d r] i]. unfold f. simpl. by destruct (bool_decide (cf_id r = id)).
  - intros d _. unfold includeRelations. rewrite Hrows, Hi. unfold updatedRows.
    rewrite find_map_stable by (intros r; by destruct (bool_decide (cf_id r = id))).
    destruct (List.find _ (personalCustomFormat (st_db st))); simpl; [|done].
    by destruct (List.find _ (serviceInstance (st_db st))).
Qed.

(** Creating a record and soft-deleting one are invisible to the two list
    routes of the ledger.  Whoever reads and whoever writes, for any
    instance filter and service type, [GET /deployments] and [GET
    /updates] give after a [POST /] and after a [DELETE /:id] the replies
    they gave before: a soft-deleted record keeps its deployments, under
    its name, with the same versions and the same [needsUpdate]. *)
Theorem ledger_reads_ignore_create_and_delete writer reader id requestBody
    instanceId serviceType st :
  refIntegrity (st_db st) ->
  let reads (s : St E) :=
    ((GET_deployments E reader instanceId s).1,
     (GET_updates E reader instanceId serviceType s).1) in
  reads (POST_root E writer requestBody st).2 = reads st
  /\ reads (DELETE_id E writer id st).2 = reads st.
Proof.
  intros Href. cbv zeta.
  destruct (POST_root_ledger_reads writer reader requestBody instanceId serviceType st
              Href) as [-> ->].
  by destruct (DELETE_id_ledger_reads writer reader id instanceId serviceType st)
    as [-> ->].
Qed.

(** ** The cache of the client *)



(** ** The editor and the record routes *)




(** Saving from the editor and the version.  When the update the editor
    sends is applied, the stored version goes up by one exactly when the
    specifications of the form, as [JSON.stringify] prints them, differ
    from those of the record the editor was opened on; a save that changes
    the name or the rename flag alone leaves version and specifications as
    they are, and a save that changes the name stores the name of the
    form. *)
Theorem editor_save_and_version isWhiteSpace JSON_stringify customFormat form
    userId payload st reply st' :
  handleSave isWhiteSpace JSON_stringify (Some customFormat) form
    = MutateAsync (useUpdatePersonalCustomFormat (cf_id customFormat) payload) ->
  PUT_id E userId (cf_id customFormat) payload st = (reply, st') ->
  status reply = 200 ->
  exists cf cf',
    List.find (ownedLive (cf_id customFormat) userId) (personalCustomFormat (st_db st))
      = Some cf
    /\ List.find (ownedLive (cf_id customFormat) userId)
         (personalCustomFormat (st_db st')) = Some cf'
    /\ (JSON_stringify (form_specifications form)
          <> JSON_stringify (cf_specifications customFormat) ->
        cf_version cf' = cf_version cf + 1
        /\ cf_specifications cf' = form_specifications form)
    /\ (JSON_stringify (form_specifications form)
          = JSON_stringify (cf_specifications customFormat) ->
        cf_version cf' = cf_version cf
        /\ cf_specifications cf' = cf_specifications cf)
    /\ (form_name form <> cf_name customFormat -> cf_name cf' = form_name form)
    /\ (form_name form = cf_name customFormat -> cf_name cf' = cf_name cf).
Proof.
  intros Hsave Hrun Hok.
  destruct (PUT_id_applied _ _ _ _ _ _ Hrun Hok)
    as (cf & Hvalid & Hcf & _ & Hrows & _).
  unfold handleSave in Hsave. destruct (validate isWhiteSpace form); [done|].
  injection Hsave as <-.
  exists cf, (applyData
                (putData cf
                   (mkUpdateReq
                      (if bool_decide (form_name form <> cf_name customFormat)
                       then Some (form_name form) else None)
                      (if bool_decide (form_includeWhenRenaming form
                                       <> cf_includeCustomFormatWhenRenaming customFormat)
                       then Some (form_includeWhenRenaming form) else None)
                      (if bool_decide (JSON_stringify (form_specifications form)
                                       <> JSON_stringify (cf_specifications customFormat))
                       then Some (form_specifications form) else None)))
                (now E (st_world st)) cf).
  pose proof Hcf as Hcf'. apply find_some in Hcf' as [_ Hlive].
  pose proof Hlive as Hid. apply ownedLive_spec in Hid as (Hid & _).
  split; [done|]. split.
  { rewrite Hrows. unfold updatedRows. rewrite find_map_stable, Hcf; simpl.
    - by rewrite Hid, bool_decide_true.
    - intros x. destruct (bool_decide (cf_id x = cf_id customFormat)); [|done].
      by apply ownedLive_applyData. }
  unfold putData. simpl. split_and!.
  - intros Hdiff. rewrite (bool_decide_true (JSON_stringify _ <> _)) by done. by simpl.
  - intros Hsame. rewrite (bool_decide_false (JSON_stringify _ <> _)) by (by intros ?).
    by simpl.
  - intros Hdiff.
    assert (Htruthy : truthyString (Some (form_name form)) = true).
    { apply (schema_name_truthy _ _ Hvalid). simpl. by rewrite bool_decide_true. }
    rewrite (bool_decide_true (form_name form <> _)) by done. by rewrite Htruthy.
  - intros Hsame. rewrite (bool_decide_false (form_name form <> _)) by (by intros ?).
    by simpl.
Qed.

(** Saving the form as the editor opened it sends an empty patch. *)
Lemma editor_unchanged_form_sends_empty_patch isWhiteSpace JSON_stringify
    customFormat initialServiceType :
  validate isWhiteSpace (initialForm (Some customFormat) initialServiceType) = None ->
  handleSave isWhiteSpace JSON_stringify (Some customFormat)
    (initialForm (Some customFormat) initialServiceType)
  = MutateAsync
      (useUpdatePersonalCustomFormat (cf_id customFormat) (mkUpdateReq None None None)).
Proof.
  intros Hvalid. unfold handleSave. rewrite Hvalid. simpl.
  by rewrite !bool_decide_false by (by intros ?).
Qed.

(** ** The specifications list of the editor *)

Lemma filterIndex_above {A} (n j : nat) (l : list A) :
  (n < j)%nat -> filterIndex (fun k => negb (bool_decide (k = n))) j l = l.
Proof.
  revert j. induction l as [|x l IH]; intros j Hlt; simpl; [done|].
  rewrite bool_decide_false by lia. simpl. f_equal. apply IH. lia.
Qed.

Lemma filterIndex_delete {A} (index i : nat) (l : list A) :
  filterIndex (fun k => negb (bool_decide (k = (i + index)%nat))) i l = delete index l.
Proof.
  revert index i. induction l as [|x l IH]; intros index i; [done|].
  destruct index as [|index]; cbn [filterIndex].
  - rewrite bool_decide_true by lia. cbn [negb]. apply filterIndex_above. lia.
  - rewrite bool_decide_false by lia. cbn [negb]. simpl. f_equal.
    replace (i + S index)%nat with (S i + index)%nat by lia. apply IH.
Qed.

(** Removing a condition in the editor removes the condition at the index
    and no other: the conditions before it stay, those after it move up
    by one, and an index outside the list changes nothing.  Removing the
    condition that was just added gives the list back. *)
Theorem removeSpecification_spec index specifications :
  removeSpecification index specifications = delete index specifications
  /\ (forall i, (i < index)%nat ->
        removeSpecification index specifications !! i = specifications !! i)
  /\ (forall i, (index <= i)%nat ->
        removeSpecification index specifications !! i = specifications !! S i)
  /\ ((length specifications <= index)%nat ->
      removeSpecification index specifications = specifications)
  /\ removeSpecification (length specifications) (addSpecification specifications)
     = specifications.
Proof.
  assert (Heq : forall k l, removeSpecification k l = delete k l).
  { intros k l. unfold removeSpecification.
    by rewrite <- (filterIndex_delete k 0 l). }
  split_and!.
  - apply Heq.
  - intros i Hi. rewrite Heq. by apply list_lookup_delete_lt.
  - intros i Hi. rewrite Heq. by apply list_lookup_delete_ge.
  - intros Hlen. rewrite Heq, delete_take_drop.
    by rewrite take_ge, drop_ge, app_nil_r by lia.
  - rewrite Heq. unfold addSpecification.
    by rewrite (delete_middle specifications []), app_nil_r.
Qed.

(** ** Deploying from the list *)

Lemma filter_unique_key {A B} (f : A -> B) (p : A -> bool) (l : list A) (x : A) :
  NoDup (map f l) -> x ∈ l -> p x = true ->
  (forall y, p y = true -> f y = f x) ->
  List.filter p l = [x].
Proof.
  intros Hnd Hx Hpx Hkey. induction l as [|y l IH]; [by apply elem_of_nil in Hx|].
  change (NoDup (f y :: map f l)) in Hnd. apply NoDup_cons in Hnd as [Hny Hnd].
  simpl. destruct (p y) eqn:Hpy.
  - assert (y = x) as ->.
    { apply elem_of_cons in Hx as [->|Hx]; [done|]. exfalso. apply Hny.
      rewrite (Hkey y Hpy). apply list_elem_of_fmap. by exists x. }
    f_equal. apply filter_nil_of_existsb. apply existsb_false_forall.
    intros z Hz. destruct (p z) eqn:Hpz; [|done]. exfalso. apply Hny.
    rewrite <- (Hkey z Hpz). apply list_elem_of_fmap. by exists z.
  - apply elem_of_cons in Hx as [->|Hx]; [congruence|]. by apply IH.
Qed.

Lemma POST_deploy_multiple_past_count_guard userId requestBody st instance :
  deployMultipleSchema requestBody = true ->
  fetchedInstance userId (dreq_instanceId requestBody) (st_db st) = Some instance ->
  length (fetchedRecords userId (personalCFIds requestBody) (st_db st))
    = length (personalCFIds requestBody) ->
  status (POST_deploy_multiple E userId requestBody st).1 <> 404.
Proof.
  intros Hschema Hinst Hcount. unfold fetchedInstance in Hinst.
  unfold fetchedRecords in Hcount.
  destruct (POST_deploy_multiple E userId requestBody st) as [reply st'] eqn:Hrun.
  simpl. revert Hrun. unfold POST_deploy_multiple. rewrite Hschema. simpl.
  unfold handle, bind at 1, serviceInstance_findFirst. rewrite Hinst.
  unfold bind at 1, personalCustomFormat_findMany.
  rewrite bool_decide_true by done. simpl.
  destruct (List.find _ (List.filter _ _)); [by intros [= <- <-]|].
  destruct (createArrApiClient E instance); [by intros [= <- <-]|].
  unfold bind at 1, arrClient_getCustomFormats, remoteCall.
  destruct (getCustomFormats E instance (st_world st)) as [existingFormats|e];
    [|by intros [= <- <-]].
  unfold bind at 1, setResults. unfold bind at 1.
  match goal with
  | |- context [forOf E ?body ?l ?s] =>
    destruct (deployLoop_run userId (dreq_instanceId requestBody) instance
                (existingByNameOf existingFormats) l s)
      as (st1 & evs & Hloop & _);
    rewrite Hloop
  end.
  unfold bind, getResults, ret. simpl.
  by destruct (bool_decide _); intros [= <- <-].
Qed.

(** The deploy button of the list.  A record the list route has just
    returned to the caller, deployed from its row to a selected instance
    of the caller's, makes a request of one id that passes the schema and
    the count guard of the deployment route: the route fetches exactly
    this record, and its reply is never a 404.  Without a selected
    instance the dialog sends nothing. *)
Theorem ui_deploy_passes_count_guard before userId serviceType st customFormats cf
    selectedInstanceId instance :
  primaryKey (personalCustomFormat (st_db st)) ->
  GET_root E before userId serviceType st = (CustomFormatsList 200 customFormats, st) ->
  cf ∈ customFormats ->
  fetchedInstance userId selectedInstanceId (st_db st) = Some instance ->
  handleDeploy (deployingCFs cf) EmptyString = ToastError "Please select an instance"
  /\ (selectedInstanceId <> EmptyString ->
      exists payload,
        handleDeploy (deployingCFs cf) selectedInstanceId
          = MutateAsync (useDeployMultiplePersonalCFs payload)
        /\ deployMultipleSchema payload = true
        /\ fetchedRecords userId (personalCFIds payload) (st_db st) = [cf]
        /\ status (POST_deploy_multiple E userId payload st).1 <> 404).
Proof.
  intros Hpk Hlist Hcf Hinst. split; [done|]. intros Hselected.
  injection Hlist as <-. rewrite sortBy_Permutation in Hcf.
  apply list_elem_of_In, filter_In in Hcf as [Hin Hcf]. apply list_elem_of_In in Hin.
  apply andb_true_iff in Hcf as [Hcf _].
  rewrite andb_true_iff, !bool_decide_eq_true in Hcf. destruct Hcf as [Hu Hlive].
  unfold handleDeploy. rewrite bool_decide_false by done.
  eexists. split; [reflexivity|].
  assert (Hschema : deployMultipleSchema
                      (mkDeployReq (map cf_id (deployingCFs cf)) selectedInstanceId) = true).
  { unfold deployMultipleSchema. simpl. destruct selectedInstanceId; [done|done]. }
  assert (Hfetched : fetchedRecords userId [cf_id cf] (st_db st) = [cf]).
  { apply (filter_unique_key cf_id); [done|done| |].
    - unfold ownedLiveIn. rewrite !andb_true_iff, !bool_decide_eq_true.
      split_and!; [by apply list_elem_of_singleton|done|done].
    - intros y Hy. unfold ownedLiveIn in Hy.
      rewrite !andb_true_iff, !bool_decide_eq_true in Hy.
      destruct Hy as [[Hy _] _]. by apply list_elem_of_singleton in Hy. }
  split; [done|]. split; [done|].
  apply (POST_deploy_multiple_past_count_guard _ _ _ instance); [done|done|].
  simpl. by rewrite Hfetched.
Qed.

(** ** The three lists of a batch, counted *)

Section BatchAccounting.

Context (instanceId : string) (existingByName : gmap string CustomFormat).

Lemma remoteEvent_ledgerFailure c r : ledgerFailure (remoteEvent c r) = None.
Proof. by destruct c. Qed.

Lemma ItemLog_accounting personalCF evs :
  ItemLog E instanceId existingByName personalCF evs ->
  (length (omap createdName evs) + length (omap updatedName evs)
   + length (omap failureOf evs) = 1 + length (omap ledgerFailure evs))%nat
  /\ (length (omap createdName evs) + length (omap updatedName evs) <= 1)%nat
  /\ (forall p, p ∈ omap ledgerFailure evs ->
        p = personalCF
        /\ cf_name p ∈ omap createdName evs ++ omap updatedName evs
        /\ cf_name p ∈ (omap failureOf evs).*1).
Proof.
  destruct 1 as [e|r o].
  - destruct (remoteEvent_no_success (plannedCall E existingByName personalCF) e)
      as [Hc Hu].
    simpl. rewrite Hc, Hu, remoteEvent_failure, remoteEvent_ledgerFailure. simpl.
    split; [done|]. split; [lia|]. by intros p ?%elem_of_nil.
  - pose proof (plannedCall_name existingByName personalCF) as Hname.
    destruct (plannedCall E existingByName personalCF) as [id payload|payload];
      simpl in Hname; destruct o as [[]|e]; simpl;
      (split; [lia|]); (split; [lia|]);
      first [by intros p ?%elem_of_nil
            |intros p ->%list_elem_of_singleton; rewrite Hname;
             split; [done|]; split; set_solver].
Qed.

Lemma BatchLog_accounting personalCFs evs :
  BatchLog E instanceId existingByName personalCFs evs ->
  (length (omap createdName evs) + length (omap updatedName evs)
   + length (omap failureOf evs)
   = length personalCFs + length (omap ledgerFailure evs))%nat
  /\ (length (omap createdName evs) + length (omap updatedName evs)
      <= length personalCFs)%nat
  /\ (forall p, p ∈ omap ledgerFailure evs ->
        p ∈ personalCFs
        /\ cf_name p ∈ omap createdName evs ++ omap updatedName evs
        /\ cf_name p ∈ (omap failureOf evs).*1).
Proof.
  induction 1 as [|personalCF rest evs1 evs Hitem _ (IH1 & IH2 & IH3)].
  { simpl. split; [done|]. split; [done|]. by intros p ?%elem_of_nil. }
  destruct (ItemLog_accounting _ _ Hitem) as (H1 & H2 & H3).
  rewrite !omap_app, !length_app, fmap_app. simpl. split; [lia|]. split; [lia|].
  intros p [Hp|Hp]%elem_of_app.
  - destruct (H3 p Hp) as (-> & Hs & Hf). split; [left|]. set_solver.
  - destruct (IH3 p Hp) as (Hin & Hs & Hf). split; [by right|]. set_solver.
Qed.

End BatchAccounting.

(** The three lists of the reply, counted.  In a batch that starts, every
    record is counted once in [created], [updated] or [failed], and a
    record whose remote call returned and whose ledger write threw is
    counted twice: it stays in [created] or [updated] (the instance has
    been changed) and is in [failed] as well.  So the three lists together
    have as many entries as the batch has records plus the ledger writes
    that threw; [created] and [updated] together never have more entries
    than there are records; and when no ledger write threw, the lists
    have one entry per record. *)
Theorem deploy_result_accounting userId requestBody st instance existingFormats :
  batchStarts E userId requestBody st instance existingFormats ->
  let personalCFs := fetchedRecords userId (personalCFIds requestBody) (st_db st) in
  exists st' evs code success created updated failed,
    POST_deploy_multiple E userId requestBody st
      = (mkReply code (DeployBody success created updated failed), st')
    /\ st_log st' = st_log st ++ EvGetCustomFormats (Returned existingFormats) :: evs
    /\ (length created + length updated + length failed
        = length personalCFs + length (omap ledgerFailure evs))%nat
    /\ (length created + length updated <= length personalCFs)%nat
    /\ (forall personalCF,
          personalCF ∈ omap ledgerFailure evs ->
          personalCF ∈ personalCFs
          /\ cf_name personalCF ∈ created ++ updated
          /\ cf_name personalCF ∈ failed.*1)
    /\ (omap ledgerFailure evs = [] ->
        (length created + length updated + length failed = length personalCFs)%nat).
Proof.
  intros Hstart personalCFs.
  destruct (POST_deploy_multiple_run _ _ _ _ _ Hstart)
    as (st' & evs & Hrun & Hlog & Hbatch & _).
  destruct (BatchLog_accounting _ _ _ _ Hbatch) as (H1 & H2 & H3).
  eexists st', evs, _, _, _, _, _. split; [exact Hrun|].
  split; [done|]. split; [done|]. split; [done|]. split; [done|].
  intros Hnone. rewrite Hnone in H1. simpl in H1. unfold personalCFs. lia.
Qed.

(** ** The selection of records *)

Section SelectionProperties.

Context {Number : Type} (parseInt : string -> Number).

Implicit Types prev acc selections : gmap string (@SelectionEntry Number).

Lemma setAll_acc_lookup value customFormats prev acc cfId :
  foldl (fun updated cf =>
           <[cf_id cf := mkSelection value (scoreOf prev (cf_id cf))]> updated)
    acc customFormats !! cfId
  = if bool_decide (cfId ∈ map cf_id customFormats)
    then Some (mkSelection value (scoreOf prev cfId))
    else acc !! cfId.
Proof.
  revert acc. induction customFormats as [|cf rest IH]; intros acc; simpl; [done|].
  rewrite IH. destruct (decide (cfId ∈ map cf_id rest)) as [Hin|Hout].
  - rewrite !bool_decide_true; [done|by right|done].
  - rewrite (bool_decide_false _ Hout). destruct (decide (cfId = cf_id cf)) as [->|Hne].
    + rewrite lookup_insert_eq. rewrite bool_decide_true; [done|left].
    + rewrite lookup_insert_ne by done. rewrite bool_decide_false; [done|].
      intros [?|?]%elem_of_cons; done.
Qed.

Lemma setAll_lookup value customFormats prev cfId :
  setAll value customFormats prev !! cfId
  = if bool_decide (cfId ∈ map cf_id customFormats)
    then Some (mkSelection value (scoreOf prev cfId))
    else prev !! cfId.
Proof. apply setAll_acc_lookup. Qed.

Lemma selectedCount_zero selections :
  selectedCount selections = 0%nat
  <-> forall cfId, isSelected selections cfId = false.
Proof.
  unfold selectedCount, isSelected. split.
  - intros Hzero cfId. destruct (selections !! cfId) as [entry|] eqn:Hentry; [|done].
    simpl. destruct (selected entry) eqn:Hsel; [|done]. exfalso.
    apply elem_of_map_to_list in Hentry.
    assert (Hin : In entry (List.filter selected (map snd (map_to_list selections)))).
    { apply filter_In. split; [|done]. apply in_map_iff. exists (cfId, entry).
      split; [done|]. by apply list_elem_of_In. }
    destruct (List.filter _ _); [done|discriminate].
  - intros Hnone. destruct (List.filter _ _) as [|entry rest] eqn:Hfilter; [done|].
    exfalso. assert (Hin : In entry (List.filter selected
                                       (map snd (map_to_list selections))))
      by (rewrite Hfilter; left; done).
    apply filter_In in Hin as [Hin Hsel].
    apply in_map_iff in Hin as ([cfId entry'] & <- & Hin).
    apply list_elem_of_In, elem_of_map_to_list in Hin.
    specialize (Hnone cfId). rewrite Hin in Hnone. simpl in *. congruence.
Qed.

(** Toggling a record and changing its score.  A toggle flips the
    selection of the one id, a missing entry counting as not selected, and
    keeps its score override; a score change keeps its selection; neither
    touches another id; and two toggles of an id leave every id selected
    or not, and with the score override, as before. *)
Theorem toggleCF_spec cfId score prev :
  isSelected (toggleCF cfId prev) cfId = negb (isSelected prev cfId)
  /\ scoreOf (toggleCF cfId prev) cfId = scoreOf prev cfId
  /\ isSelected (updateScore parseInt cfId score prev) cfId = isSelected prev cfId
  /\ scoreOf (updateScore parseInt cfId score prev) cfId
     = (if bool_decide (score = EmptyString) then None else Some (parseInt score))
  /\ (forall other, other <> cfId ->
        toggleCF cfId prev !! other = prev !! other
        /\ updateScore parseInt cfId score prev !! other = prev !! other)
  /\ (forall any,
        isSelected (toggleCF cfId (toggleCF cfId prev)) any = isSelected prev any
        /\ scoreOf (toggleCF cfId (toggleCF cfId prev)) any = scoreOf prev any).
Proof.
  unfold toggleCF, updateScore, isSelected, scoreOf.
  split_and!; rewrite ?lookup_insert_eq; simpl; try done.
  - intros other Hne. by rewrite !lookup_insert_ne.
  - intros any. destruct (decide (any = cfId)) as [->|Hne].
    + rewrite !lookup_insert_eq. simpl. by rewrite negb_involutive.
    + by rewrite !lookup_insert_ne.
Qed.

(** Select all and deselect all.  Both set the selection of the loaded
    records and of no other id, and keep every score override.  So after
    "deselect all" the counter of selected records is zero exactly when no
    id outside the loaded records was selected: a selection the list does
    not show stays, and is still counted. *)
Theorem selectAll_deselectAll_spec customFormats prev :
  (forall cfId,
     cfId ∈ map cf_id customFormats ->
     isSelected (selectAll customFormats prev) cfId = true
     /\ isSelected (deselectAll customFormats prev) cfId = false)
  /\ (forall cfId,
        cfId ∉ map cf_id customFormats ->
        selectAll customFormats prev !! cfId = prev !! cfId
        /\ deselectAll customFormats prev !! cfId = prev !! cfId)
  /\ (forall cfId,
        scoreOf (selectAll customFormats prev) cfId = scoreOf prev cfId
        /\ scoreOf (deselectAll customFormats prev) cfId = scoreOf prev cfId)
  /\ (selectedCount (deselectAll customFormats prev) = 0%nat
      <-> forall cfId, cfId ∉ map cf_id customFormats -> isSelected prev cfId = false)
  /\ deselectAll customFormats (selectAll customFormats prev)
     = deselectAll customFormats prev.
Proof.
  unfold selectAll, deselectAll. split_and!.
  - intros cfId Hin. unfold isSelected. rewrite !setAll_lookup.
    by rewrite !bool_decide_true.
  - intros cfId Hout. rewrite !setAll_lookup. by rewrite !bool_decide_false.
  - intros cfId. unfold scoreOf at 1 3. rewrite !setAll_lookup.
    by case_bool_decide.
  - rewrite selectedCount_zero. unfold isSelected. split.
    + intros Hnone cfId Hout. specialize (Hnone cfId).
      by rewrite setAll_lookup, bool_decide_false in Hnone.
    + intros Hnone cfId. rewrite setAll_lookup. case_bool_decide; [done|].
      by apply Hnone.
  - apply map_eq. intros cfId. rewrite !setAll_lookup.
    unfold scoreOf. rewrite setAll_lookup. by case_bool_decide.
Qed.

End SelectionProperties.

(** ** What no request undoes *)

Lemma serve_records_versions before currentUser request st :
  let userId := default EmptyString currentUser in
  let rows := personalCustomFormat (st_db st) in
  let rows' := personalCustomFormat (st_db (serve E before currentUser request st).2) in
  (exists new, rows' = rows ++ new)
  \/ (exists id cf data t,
        List.find (ownedLive id userId) rows = Some cf
        /\ rows' = updatedRows id data t rows
        /\ (data_version data = None
            \/ data_version data = Some (cf_version cf)
            \/ data_version data = Some (cf_version cf + 1))).
Proof.
  intros userId rows rows'. subst rows'. unfold serve.
  assert (Hsame : forall s : St E,
            personalCustomFormat (st_db s) = rows ->
            exists new, personalCustomFormat (st_db s) = rows ++ new).
  { intros s ->. exists []. by rewrite app_nil_r. }
  destruct (preHandler currentUser); [left; by apply Hsame|].
  fold userId. destruct request; simpl.
  - left. by apply Hsame.
  - left. apply Hsame. by rewrite (proj1 (reads_keep_state userId id None None st)).
  - left. destruct (POST_root_effect userId requestBody st) as [->|(row & -> & _)];
      [by apply Hsame|by eexists].
  - destruct (decide (status (PUT_id E userId id requestBody st).1 = 200)) as [Hok|Hno].
    + destruct (PUT_id E userId id requestBody st) as [reply st'] eqn:Hrun.
      destruct (PUT_id_applied _ _ _ _ _ _ Hrun Hok)
        as (cf & Hvalid & Hcf & Hname & Hrows & _).
      right. exists id, cf, (putData cf requestBody), (now E (st_world st)).
      split_and!; try done. simpl.
      destruct (truthyArray (ureq_specifications requestBody)); auto.
    + left. apply Hsame. by rewrite (PUT_id_rejected _ _ _ _ Hno).
  - destruct (DELETE_id_effect userId id st) as [->|(cf & Hcf & Hrows)];
      [left; by apply Hsame|].
    right. eexists id, cf, _, _. split_and!; try done. by left.
  - left. apply Hsame, POST_deploy_multiple_records.
  - left. apply Hsame.
    by rewrite (proj1 (proj2 (reads_keep_state userId EmptyString instanceId None st))).
  - left. apply Hsame.
    by rewrite (proj2 (proj2 (reads_keep_state userId EmptyString instanceId serviceType st))).
  - left. apply Hsame, DELETE_deployments_id_records.
Qed.

(** No request rewrites history.  Whatever is sent, by whom, every row of
    the records table is still there afterwards, at its place, with its
    id, owner, service type and creation instant; its version is the old
    one or the old one plus one, never less; a deletion stamp is never
    taken away; and a soft-deleted row is not changed at all, by any
    route. *)
Theorem serve_never_rewrites_history before currentUser request st i r :
  primaryKey (personalCustomFormat (st_db st)) ->
  personalCustomFormat (st_db st) !! i = Some r ->
  exists r',
    personalCustomFormat (st_db (serve E before currentUser request st).2) !! i = Some r'
    /\ cf_id r' = cf_id r
    /\ cf_userId r' = cf_userId r
    /\ cf_serviceType r' = cf_serviceType r
    /\ cf_createdAt r' = cf_createdAt r
    /\ (cf_version r' = cf_version r \/ cf_version r' = cf_version r + 1)
    /\ (cf_deletedAt r <> None -> r' = r).
Proof.
  intros Hpk Hr.
  destruct (serve_records_versions before currentUser request st)
    as [(new & ->)|(id & cf & data & t & Hcf & -> & Hversion)].
  - exists r. split; [by apply lookup_app_l_Some|]. split_and!; auto.
  - rewrite updatedRows_lookup, Hr. simpl. eexists. split; [reflexivity|].
    destruct (bool_decide (cf_id r = id)) eqn:Hid; [|split_and!; auto].
    apply bool_decide_eq_true in Hid.
    assert (r = cf) as -> by (by eapply ownedLive_unique).
    apply find_some in Hcf as [_ Hlive]. apply ownedLive_spec in Hlive as (_ & _ & Hdel).
    simpl. split_and!; try done.
    destruct Hversion as [->|[->| ->]]; simpl; auto.
Qed.

(** ** The ledger rows of other users *)

Lemma upsertRows_other_users userId instanceId personalCFId update create instanceCFId id t
    rows :
  (forall x, x ∈ rows -> dep_userId x <> userId -> dep_instanceId x <> instanceId) ->
  new_userId create = userId ->
  ledgerOfOthers userId
    (upsertRows instanceId personalCFId update create instanceCFId id t rows)
  = ledgerOfOthers userId rows.
Proof.
  intros Hfar Hu. unfold ledgerOfOthers, upsertRows.
  destruct (existsb (ledgerKey instanceId personalCFId) rows).
  - apply filter_map_fixed_in.
    + intros d. by destruct (ledgerKey instanceId personalCFId d).
    + intros d Hd Hother. destruct (ledgerKey instanceId personalCFId d) eqn:Hk; [|done].
      exfalso. unfold ledgerKey in Hk. apply andb_true_iff in Hk as [Hk _].
      apply bool_decide_eq_true in Hk.
      apply negb_true_iff, bool_decide_eq_false in Hother.
      apply list_elem_of_In in Hd. by apply (Hfar d Hd Hother).
  - rewrite List.filter_app. simpl. rewrite Hu, bool_decide_true by done.
    simpl. by rewrite app_nil_r.
Qed.

Lemma deployLoop_other_users userId instanceId instance existingByName personalCFs :
  forall st,
    (forall x, x ∈ personalCFDeployment (st_db st) ->
       dep_userId x <> userId -> dep_instanceId x <> instanceId) ->
    ledgerOfOthers userId
      (personalCFDeployment
         (st_db (forOf E (deployOne E userId instanceId instance existingByName)
                   personalCFs st).2))
    = ledgerOfOthers userId (personalCFDeployment (st_db st)).
Proof.
  induction personalCFs as [|personalCF rest IH]; intros st Hfar; simpl; [done|].
  unfold bind.
  destruct (deployOne_run userId instanceId instance existingByName personalCF st)
    as (st1 & evs1 & Hrun1 & _ & _ & _ & _ & _ & _ & _ & Hledger).
  rewrite Hrun1.
  assert (Hone : ledgerOfOthers userId (personalCFDeployment (st_db st1))
                 = ledgerOfOthers userId (personalCFDeployment (st_db st))).
  { destruct Hledger as [[-> _]|[_ (rid & w & ->)]]; [done|].
    by apply upsertRows_other_users. }
  rewrite IH, Hone; [done|].
  intros x Hx Hother. apply Hfar; [|done].
  assert (Hin : In x (ledgerOfOthers userId (personalCFDeployment (st_db st1)))).
  { apply filter_In. split; [by apply list_elem_of_In|].
    by apply negb_true_iff, bool_decide_eq_false. }
  rewrite Hone in Hin. apply filter_In in Hin as [Hin _]. by apply list_elem_of_In.
Qed.

Lemma POST_deploy_multiple_other_users userId requestBody st :
  instanceKey (serviceInstance (st_db st)) ->
  ledgerOwned (st_db st) ->
  ledgerOfOthers userId
    (personalCFDeployment (st_db (POST_deploy_multiple E userId requestBody st).2))
  = ledgerOfOthers userId (personalCFDeployment (st_db st)).
Proof.
  intros Hik Hown.
  destruct (POST_deploy_multiple E userId requestBody st) as [reply st'] eqn:Hrun.
  simpl. revert Hrun. unfold POST_deploy_multiple.
  destruct (deployMultipleSchema requestBody); simpl; [|by intros [= <- <-]].
  unfold handle, bind at 1, serviceInstance_findFirst.
  destruct (List.find _ (serviceInstance (st_db st))) as [instance|] eqn:Hinst;
    [|by intros [= <- <-]].
  unfold bind at 1, personalCustomFormat_findMany.
  case_bool_decide; simpl; [|by intros [= <- <-]].
  destruct (List.find _ (List.filter _ _)); [by intros [= <- <-]|].
  destruct (createArrApiClient E instance); [by intros [= <- <-]|].
  unfold bind at 1, arrClient_getCustomFormats, remoteCall.
  destruct (getCustomFormats E instance (st_world st)) as [existingFormats|e];
    [|by intros [= <- <-]].
  unfold bind at 1, setResults. unfold bind at 1.
  assert (Hfar : forall x,
            x ∈ personalCFDeployment (st_db st) ->
            dep_userId x <> userId -> dep_instanceId x <> dreq_instanceId requestBody).
  { intros x Hx Hother Hsame.
    destruct (Hown x Hx) as (cf & i & Hrel & _ & Hiu).
    apply find_some in Hinst as [Hin Hi].
    rewrite andb_true_iff, !bool_decide_eq_true in Hi. destruct Hi as [Hiid Hu].
    unfold includeRelations in Hrel.
    destruct (List.find _ (personalCustomFormat (st_db st))); [|done].
    rewrite (find_unique inst_id _ instance) in Hrel;
      [|done|by apply list_elem_of_In|congruence].
    injection Hrel as _ <-. congruence. }
  match goal with
  | |- context [forOf E ?body ?l ?s] =>
    pose proof (deployLoop_other_users userId (dreq_instanceId requestBody) instance
                  (existingByNameOf existingFormats) l s Hfar) as Hothers;
    destruct (deployLoop_run userId (dreq_instanceId requestBody) instance
                (existingByNameOf existingFormats) l s)
      as (st1 & evs & Hloop & _);
    rewrite Hloop in *
  end.
  unfold bind, getResults, ret. simpl in *.
  by destruct (bool_decide _); intros [= <- <-].
Qed.

Lemma filter_filter_absorb {A} (p q : A -> bool) (l : list A) :
  (forall x, x ∈ l -> p x = true -> q x = true) ->
  List.filter p (List.filter q l) = List.filter p l.
Proof.
  induction l as [|x l IH]; intros Hpq; simpl; [done|].
  assert (IH' : List.filter p (List.filter q l) = List.filter p l).
  { apply IH. intros y Hy. apply Hpq. by right. }
  destruct (q x) eqn:Hq; simpl.
  - by rewrite IH'.
  - destruct (p x) eqn:Hp; [|done].
    rewrite (Hpq x) in Hq; [done|left|done].
Qed.

Lemma DELETE_deployments_id_other_users userId id st :
  ledgerPrimaryKey (personalCFDeployment (st_db st)) ->
  ledgerOfOthers userId
    (personalCFDeployment (st_db (DELETE_deployments_id E userId id st).2))
  = ledgerOfOthers userId (personalCFDeployment (st_db st)).
Proof.
  intros Hpk.
  unfold DELETE_deployments_id, handle, bind, personalCFDeployment_findFirst,
    personalCFDeployment_delete.
  destruct (List.find _ (personalCFDeployment _)) as [d|] eqn:Hd; [|done].
  destruct (List.find _ (personalCustomFormat _)); [|done].
  destruct (existsb _ _); [|done]. simpl.
  apply find_some in Hd as [Hin Hd]. apply list_elem_of_In in Hin.
  rewrite andb_true_iff, !bool_decide_eq_true in Hd. destruct Hd as [Hid Hu].
  apply filter_filter_absorb. intros x Hx Hother.
  apply negb_true_iff, bool_decide_eq_false in Hother.
  apply negb_true_iff, bool_decide_eq_false. intros Hxid.
  pose proof (find_unique dep_id _ x id Hpk Hx Hxid) as Hfx.
  pose proof (find_unique dep_id _ d id Hpk Hin Hid) as Hfd.
  congruence.
Qed.

(** No request changes a ledger row of another user.  If the ids of
    instances and of ledger rows are distinct and every ledger row points
    to a record and an instance of the row's own user, then whatever a
    caller sends, to whichever route, the ledger rows of the other users
    are afterwards what they were, in the same order: a deployment
    overwrites and adds rows of the caller only, and stop-tracking removes
    a row of the caller only. *)
Theorem serve_isolates_ledger before currentUser request st :
  instanceKey (serviceInstance (st_db st)) ->
  ledgerPrimaryKey (personalCFDeployment (st_db st)) ->
  ledgerOwned (st_db st) ->
  ledgerOfOthers (default EmptyString currentUser)
    (personalCFDeployment (st_db (serve E before currentUser request st).2))
  = ledgerOfOthers (default EmptyString currentUser) (personalCFDeployment (st_db st)).
Proof.
  intros Hik Hpk Hown. unfold serve.
  destruct (preHandler currentUser); [done|].
  set (userId := default EmptyString currentUser).
  destruct request as [serviceType|id|requestBody|id requestBody|id|requestBody
                      |instanceId|instanceId serviceType|id]; simpl.
  - done.
  - by rewrite (proj1 (reads_keep_state userId id None None st)).
  - destruct (record_routes_keep_ledger userId EmptyString requestBody
                (mkUpdateReq None None None) st) as [[Hl _] _].
    by rewrite Hl.
  - destruct (record_routes_keep_ledger userId id
                (mkCreateReq EmptyString RADARR None []) requestBody st)
      as (_ & [Hl _] & _).
    by rewrite Hl.
  - destruct (record_routes_keep_ledger userId id
                (mkCreateReq EmptyString RADARR None []) (mkUpdateReq None None None) st)
      as (_ & _ & [Hl _]).
    by rewrite Hl.
  - by apply POST_deploy_multiple_other_users.
  - by rewrite (proj1 (proj2 (reads_keep_state userId EmptyString instanceId None st))).
  - by rewrite (proj2 (proj2 (reads_keep_state userId EmptyString instanceId serviceType st))).
  - by apply DELETE_deployments_id_other_users.
Qed.

End Properties.

(** * The routes at work

    Runs of the routes in the small world [demoEnv]. *)

(** C8 at work: a record is created (version 1), soft-deleted, and created
    again with the same owner, name and service type.  The second creation
    passes the route's duplicate check, which looks at live records only,
    and then fails on the unique index of the table: the route answers
    500 CREATE_FAILED where the record was to be created with version 1.
    The table keeps the soft-deleted row alone. *)
Theorem POST_after_soft_delete_fails :
  let request := mkCreateReq "HDR" RADARR None [demoSpec] in
  let r1 := POST_root demoEnv "alice" request (demoSt 1 [] []) in
  let r2 := DELETE_id demoEnv "alice" "b" r1.2 in
  let r3 := POST_root demoEnv "alice" request r2.2 in
  r1.1 = mkReply 201
           (CustomFormatBody
              (mkPersonalCF "b" "alice" "HDR" RADARR false [demoSpec] 1 1 1 None))
  /\ status r2.1 = 200
  /\ List.find (liveNamed "alice" "HDR" RADARR) (personalCustomFormat (st_db r2.2)) = None
  /\ r3.1 = mkReply 500
              (ErrorBody "CREATE_FAILED"
                 "Unique constraint failed on the fields: (`userId`,`name`,`serviceType`)")
  /\ personalCustomFormat (st_db r3.2) =
       [mkPersonalCF "b" "alice" "HDR" RADARR false [demoSpec] 1 1 2 (Some 2)].
Proof. vm_compute. repeat split. Qed.

(** C1 at work: the patch resubmits the stored specifications unchanged and
    the version still goes from 3 to 4. *)
Lemma PUT_version_increment_witness :
  exists cf cf',
    List.find (ownedLive "a" "alice") [demoCF "a" "HDR" 3 None] = Some cf
    /\ List.find (ownedLive "a" "alice")
         (personalCustomFormat
            (st_db (PUT_id demoEnv "alice" "a"
                      (mkUpdateReq None None (Some [demoSpec]))
                      (demoSt 1 [demoCF "a" "HDR" 3 None] [])).2)) = Some cf'
    /\ (cf_version cf' = cf_version cf + 1 <-> is_Some (Some [demoSpec]))
    /\ (cf_version cf' = cf_version cf <-> Some [demoSpec] = None).
Proof.
  apply (PUT_version_increment demoEnv "alice" "a"
           (mkUpdateReq None None (Some [demoSpec]))
           (demoSt 1 [demoCF "a" "HDR" 3 None] [])
           (PUT_id demoEnv "alice" "a" (mkUpdateReq None None (Some [demoSpec]))
              (demoSt 1 [demoCF "a" "HDR" 3 None] [])).1).
  - vm_compute. reflexivity.
  - vm_compute. reflexivity.
Defined.

(** C2 at work: the listing of the instance has "Zero" with id 0 and
    "Draft" with no id.  Both names are keys of the index, and both
    records are created, not updated.  In the batch of [demoRequest] the
    create call for "broken" is made and throws, and the name is in neither
    list. *)
Lemma deploy_indexed_name_is_created :
  let requestBody := mkDeployReq ["z"; "d"] "radarr-1" in
  let st := demoSt 1 [demoCF "z" "Zero" 1 None; demoCF "d" "Draft" 1 None] [] in
  let r := POST_deploy_multiple demoEnv "alice" requestBody st in
  let r' := POST_deploy_multiple demoEnv "alice" demoRequest (demoSt 1 demoRecords []) in
  batchStarts demoEnv "alice" requestBody st demoInstance demoExisting
  /\ is_Some (existingByNameOf demoExisting !! "Zero")
  /\ is_Some (existingByNameOf demoExisting !! "Draft")
  /\ omap remoteCallOf (st_log r.2)
     = [CallCreate (demoPayload None "Zero"); CallCreate (demoPayload None "Draft")]
  /\ r.1 = mkReply 200 (DeployBody true ["Zero"; "Draft"] [] [])
  /\ omap remoteCallOf (st_log r'.2)
     = [CallUpdate 7 (demoPayload (Some 7) "HDR");
        CallCreate (demoPayload None "broken");
        CallCreate (demoPayload None "DV")]
  /\ r'.1 = mkReply 400 (DeployBody false ["DV"] ["HDR"] [("broken", "Bad Request")]).
Proof. vm_compute. repeat split; by eexists. Qed.

Lemma deploy_reconciles_by_name_witness :
  let E := demoEnv in
  let userId := "alice" in
  let requestBody := demoRequest in
  let st := demoSt 1 demoRecords [] in
  let instance := demoInstance in
  let existingFormats := demoExisting in
  batchStarts E userId requestBody st instance existingFormats
  /\ exists st' evs code success failed,
       POST_deploy_multiple E userId requestBody st
         = (mkReply code
              (DeployBody success (omap createdName evs) (omap updatedName evs) failed),
            st')
       /\ st_log st' = st_log st ++ EvGetCustomFormats (Returned existingFormats) :: evs
       /\ List.filter isGetCustomFormats evs = []
       /\ (forall name,
             existingByNameOf existingFormats !! name
               = List.find (fun cf => bool_decide (rcf_name cf = name))
                   (rev existingFormats))
       /\ omap remoteCallOf evs
          = map (plannedCall E (existingByNameOf existingFormats))
              (fetchedRecords userId (personalCFIds requestBody) (st_db st)).
Proof.
  intros E userId requestBody st instance existingFormats.
  assert (Hstart : batchStarts E userId requestBody st instance existingFormats)
    by (vm_compute; repeat split).
  split; [exact Hstart|].
  exact (deploy_reconciles_by_name E userId requestBody st instance existingFormats
           Hstart).
Defined.

(** C3 at work: of three records the second is refused by the instance.
    [failed] names it alone, the other two are in [updated] and [created],
    and the ledger has a row for each of these two and none for the
    second. *)
Example deploy_three_second_fails :
  let r := POST_deploy_multiple demoEnv "alice" demoRequest (demoSt 1 demoRecords []) in
  body r.1 = DeployBody false ["DV"] ["HDR"] [("broken", "Bad Request")]
  /\ map dep_personalCFId (personalCFDeployment (st_db r.2)) = ["r1"; "r3"]
  /\ map dep_deployedVersion (personalCFDeployment (st_db r.2)) = [1; 4]
  /\ map dep_instanceCFId (personalCFDeployment (st_db r.2)) = [7; 105].
Proof. vm_compute. repeat split. Qed.

(** The instance accepts the record and the ledger write fails: the name is
    in [updated] and in [failed], and the ledger has no row. *)
Example deploy_ledger_write_fails :
  let r := POST_deploy_multiple demoEnv "alice" (mkDeployReq ["r1"] "radarr-1")
             (demoSt 5 demoRecords []) in
  r.1 = mkReply 400 (DeployBody false [] ["HDR"] [("HDR", "database is locked")])
  /\ personalCFDeployment (st_db r.2) = [].
Proof. vm_compute. repeat split. Qed.


(** C7 at work: one call of the batch threw and the reply has status 400,
    not 200; its body is the batch result. *)
Lemma batch_with_failure_answers_400 :
  let r := POST_deploy_multiple demoEnv "alice" demoRequest (demoSt 1 demoRecords []) in
  batchStarts demoEnv "alice" demoRequest (demoSt 1 demoRecords [])
    demoInstance demoExisting
  /\ EvCreateCustomFormat (demoPayload None "broken") (Threw (ErrorObject "Bad Request"))
     ∈ st_log r.2
  /\ r.1 = mkReply 400 (DeployBody false ["DV"] ["HDR"] [("broken", "Bad Request")])
  /\ status r.1 <> 200.
Proof.
  vm_compute. split_and!; try done.
  do 3 apply list_elem_of_further. apply list_elem_of_here.
Qed.

Lemma deploy_reply_status_witness :
  let E := demoEnv in
  let userId := "alice" in
  let requestBody := demoRequest in
  let st := demoSt 1 demoRecords [] in
  let instance := demoInstance in
  let existingFormats := demoExisting in
  batchStarts E userId requestBody st instance existingFormats
  /\ exists st' evs,
       st_log st' = st_log st ++ EvGetCustomFormats (Returned existingFormats) :: evs
       /\ (omap failureOf evs <> [] ->
           POST_deploy_multiple E userId requestBody st
             = (mkReply 400
                  (DeployBody false (omap createdName evs) (omap updatedName evs)
                     (omap failureOf evs)),
                st'))
       /\ (omap failureOf evs = [] ->
           POST_deploy_multiple E userId requestBody st
             = (mkReply 200
                  (DeployBody true (omap createdName evs) (omap updatedName evs) []),
                st'))
       /\ (forall c e, remoteEvent c (Threw e) ∈ evs -> omap failureOf evs <> []).
Proof.
  intros E userId requestBody st instance existingFormats.
  assert (Hstart : batchStarts E userId requestBody st instance existingFormats)
    by (vm_compute; repeat split).
  split; [exact Hstart|].
  exact (deploy_reply_status E userId requestBody st instance existingFormats Hstart).
Defined.

(** C4 at work: Radarr records sent to a Sonarr instance.  The route names
    the first offending record and the state is untouched. *)
Example deploy_service_mismatch :
  let st := demoSt 1 demoRecords [] in
  POST_deploy_multiple demoEnv "alice" (mkDeployReq ["r1"; "r3"] "sonarr-1") st
  = (mkReply 400
       (ErrorBody "SERVICE_MISMATCH"
          ("CF " +:+ quote +:+ "HDR" +:+ quote +:+ " is for RADARR, instance is SONARR")),
     st).
Proof. vm_compute. reflexivity. Qed.

Lemma deploy_guard_failure_witness :
  let E := demoEnv in
  let userId := "alice" in
  let requestBody := mkDeployReq ["r1"; "r3"] "sonarr-1" in
  let st := demoSt 1 demoRecords [] in
  (fetchedInstance userId (dreq_instanceId requestBody) (st_db st) = None
   \/ (length (fetchedRecords userId (personalCFIds requestBody) (st_db st))
       < length (personalCFIds requestBody))%nat
   \/ exists instance cf,
        fetchedInstance userId (dreq_instanceId requestBody) (st_db st) = Some instance
        /\ cf ∈ fetchedRecords userId (personalCFIds requestBody) (st_db st)
        /\ serviceTypeName (cf_serviceType cf) <> inst_service instance)
  /\ exists code error message,
       POST_deploy_multiple E userId requestBody st
         = (mkReply code (ErrorBody error message), st)
       /\ (code = 404 \/ code = 400).
Proof.
  intros E userId requestBody st.
  match goal with |- ?H /\ _ => assert (Hguard : H) end.
  { right; right. exists demoSonarr, (demoCF "r1" "HDR" 1 None).
    split; [vm_compute; reflexivity|]. split; [|vm_compute; discriminate].
    vm_compute. apply list_elem_of_here. }
  split; [exact Hguard|].
  exact (deploy_guard_failure E userId requestBody st Hguard).
Defined.

(** C9 at work: the one record of the request is valid, owned and live, and
    the request names it twice. *)
Lemma deploy_duplicate_ids_rejected_witness :
  let E := demoEnv in
  let userId := "alice" in
  let requestBody := mkDeployReq ["r1"; "r1"] "radarr-1" in
  let st := demoSt 1 demoRecords [] in
  (NoDup (map cf_id (personalCustomFormat (st_db st)))
   /\ ~ NoDup (personalCFIds requestBody)
   /\ dreq_instanceId requestBody <> EmptyString
   /\ fetchedInstance userId (dreq_instanceId requestBody) (st_db st) = Some demoInstance)
  /\ deployMultipleSchema requestBody = true
  /\ (length (fetchedRecords userId (personalCFIds requestBody) (st_db st))
      < length (personalCFIds requestBody))%nat
  /\ POST_deploy_multiple E userId requestBody st
     = (mkReply 404
          (ErrorBody "SOME_CFS_NOT_FOUND" "Some custom formats were not found"),
        st).
Proof.
  intros E userId requestBody st.
  assert (Hpk : NoDup (map cf_id (personalCustomFormat (st_db st))))
    by (apply (bool_decide_eq_true_1 _); vm_compute; reflexivity).
  assert (Hdup : ~ NoDup (personalCFIds requestBody))
    by (apply (bool_decide_eq_false_1 _); vm_compute; reflexivity).
  assert (Hid : dreq_instanceId requestBody <> EmptyString)
    by (vm_compute; discriminate).
  assert (Hinst : fetchedInstance userId (dreq_instanceId requestBody) (st_db st)
                  = Some demoInstance)
    by (vm_compute; reflexivity).
  split; [by split_and!|].
  exact (deploy_duplicate_ids_rejected E userId requestBody st demoInstance
           Hpk Hdup Hid Hinst).
Defined.

(** C5 at work: a record is deployed at version 1, edited, and deployed
    again.  The ledger keeps one row for the pair, now at version 2 and at
    the instant of the second deployment; the row of the other record is as
    it was. *)
Example redeploy_overwrites_entry :
  let st0 := demoSt 1 [demoCF "r1" "HDR" 1 None; demoCF "r9" "Old" 1 None] [] in
  let d1 := POST_deploy_multiple demoEnv "alice" (mkDeployReq ["r1"; "r9"] "radarr-1") st0 in
  let u1 := PUT_id demoEnv "alice" "r1" (mkUpdateReq None None (Some [demoSpec])) d1.2 in
  let d2 := POST_deploy_multiple demoEnv "alice" (mkDeployReq ["r1"] "radarr-1") u1.2 in
  personalCFDeployment (st_db d1.2)
  = [mkDeployment "d" "alice" "r1" "radarr-1" 7 1 [demoSpec] 3;
     mkDeployment "f" "alice" "r9" "radarr-1" 104 1 [demoSpec] 5]
  /\ d2.1 = mkReply 200 (DeployBody true [] ["HDR"] [])
  /\ personalCFDeployment (st_db d2.2)
     = [mkDeployment "d" "alice" "r1" "radarr-1" 7 2 [demoSpec] 9;
        mkDeployment "f" "alice" "r9" "radarr-1" 104 1 [demoSpec] 5].
Proof. vm_compute. repeat split. Qed.

Lemma ledger_upsert_keyed_witness :
  let E := demoEnv in
  let st := demoSt 9 [demoCF "r1" "HDR" 2 None]
              [mkDeployment "d" "alice" "r1" "radarr-1" 3 1 [] 3] in
  let personalCF := demoCF "r1" "HDR" 2 None in
  let st' := (recordDeployment E "alice" "radarr-1" personalCF (Some 7) st).2 in
  let rows := personalCFDeployment (st_db st) in
  let rows' := personalCFDeployment (st_db st') in
  ledgerUnique rows
  /\ (forall userId requestBody,
        ledgerUnique
          (personalCFDeployment
             (st_db (POST_deploy_multiple E userId requestBody st).2)))
  /\ (forall userId requestBody instance existingFormats,
        NoDup (map cf_id (personalCustomFormat (st_db st))) ->
        batchStarts E userId requestBody st instance existingFormats ->
        exists reply st' evs,
          POST_deploy_multiple E userId requestBody st = (reply, st')
          /\ st_log st'
             = st_log st ++ EvGetCustomFormats (Returned existingFormats) :: evs
          /\ forall personalCF,
               personalCF ∈ omap ledgerWrite evs ->
               ledgered (dreq_instanceId requestBody) personalCF
                 (personalCFDeployment (st_db st')))
  /\ ledgerUnique rows'
  /\ (exists d,
        List.filter (ledgerKey "radarr-1" (cf_id personalCF)) rows' = [d]
        /\ dep_deployedVersion d = cf_version personalCF
        /\ dep_deployedSpecsSnapshot d = cf_specifications personalCF
        /\ dep_deployedAt d = now E (st_world st)
        /\ dep_instanceCFId d = 7)
  /\ length rows'
     = (if existsb (ledgerKey "radarr-1" (cf_id personalCF)) rows
        then length rows else S (length rows))
  /\ (forall i c,
        (i, c) <> ("radarr-1", cf_id personalCF) ->
        List.filter (ledgerKey i c) rows' = List.filter (ledgerKey i c) rows).
Proof.
  intros E st personalCF st' rows rows'.
  assert (Hu : ledgerUnique rows).
  { intros i c. unfold rows. simpl. destruct (ledgerKey i c _); simpl; lia. }
  split; [exact Hu|].
  destruct (ledger_upsert_keyed E st Hu) as (Hroute & Hbatch & Hstep).
  split; [exact Hroute|]. split; [exact Hbatch|].
  apply (Hstep "alice" "radarr-1" personalCF 7 st').
  vm_compute. reflexivity.
Defined.

(** C6 at work: two records are deployed at version 1 and one of them is
    then edited.  Its entry reports [needsUpdate] true, the other entry
    false, and [GET /updates] reports the edited one alone. *)
Example drift_after_edit :
  let st0 := demoSt 1 [demoCF "r1" "HDR" 1 None; demoCF "r9" "Old" 1 None] [] in
  let d1 := POST_deploy_multiple demoEnv "alice" (mkDeployReq ["r1"; "r9"] "radarr-1") st0 in
  let u1 := PUT_id demoEnv "alice" "r1" (mkUpdateReq None None (Some [demoSpec])) d1.2 in
  (GET_deployments demoEnv "alice" None u1.2).1
  = mkReply 200
      (DeploymentsBody
         [mkFormattedDeployment "f" "r9" "Old" "radarr-1" "Radarr" 104 1 1 false 5;
          mkFormattedDeployment "d" "r1" "HDR" "radarr-1" "Radarr" 7 1 2 true 3])
  /\ (GET_updates demoEnv "alice" None None u1.2).1
     = mkReply 200
         (UpdatesBody true
            [mkUpdateNotification "d" "r1" "HDR" "radarr-1" "Radarr" RADARR 1 2]
            2 1).
Proof. vm_compute. repeat split. Qed.

Lemma drift_computed_on_read_witness :
  let E := demoEnv in
  let userId := "alice" in
  let instanceId : option string := None in
  let serviceType := Some "RADARR" in
  let st := demoLedgerSt in
  refIntegrity (st_db st)
  /\ exists joined joined',
       GET_deployments E userId instanceId st
         = (mkReply 200 (DeploymentsBody (map formatDeployment joined)), st)
       /\ GET_updates E userId instanceId serviceType st
          = (mkReply 200
               (UpdatesBody
                  (bool_decide (0 < length (List.filter (hasDrift serviceType) joined'))%nat)
                  (map toUpdateNotification (List.filter (hasDrift serviceType) joined'))
                  (length joined')
                  (length (List.filter (hasDrift serviceType) joined'))),
             st)
       /\ (forall j, j ∈ joined <-> inScope userId instanceId (st_db st) j)
       /\ (forall j, j ∈ joined' <-> inScope userId instanceId (st_db st) j)
       /\ (forall d cf i,
             inScope userId instanceId (st_db st) (d, cf, i) ->
             List.find (fun r => bool_decide (cf_id r = dep_personalCFId d))
               (personalCustomFormat (st_db st)) = Some cf
             /\ fd_deployedVersion (formatDeployment (d, cf, i)) = dep_deployedVersion d
             /\ fd_currentVersion (formatDeployment (d, cf, i)) = cf_version cf
             /\ (fd_needsUpdate (formatDeployment (d, cf, i)) = true
                 <-> cf_version cf > dep_deployedVersion d)
             /\ (cf_version cf = dep_deployedVersion d + 1 ->
                 fd_needsUpdate (formatDeployment (d, cf, i)) = true)
             /\ (cf_version cf = dep_deployedVersion d ->
                 fd_needsUpdate (formatDeployment (d, cf, i)) = false)
             /\ ((d, cf, i) ∈ List.filter (hasDrift serviceType) joined'
                 <-> cf_version cf > dep_deployedVersion d
                     /\ (truthyString serviceType = true ->
                         serviceType = Some (serviceTypeName (cf_serviceType cf))))).
Proof.
  intros E userId instanceId serviceType st.
  assert (Href : refIntegrity (st_db st))
    by (unfold refIntegrity; apply (bool_decide_eq_true_1 _); vm_compute; reflexivity).
  split; [exact Href|].
  exact (drift_computed_on_read E userId instanceId serviceType st Href).
Defined.

(** C10 at work: the record "r1" was soft-deleted at instant 8, one version
    ahead of its deployment. *)
Lemma tombstoned_record_still_listed_witness :
  let E := demoEnv in
  let userId := "alice" in
  let instanceId : option string := None in
  let st := demoLedgerSt in
  let d := mkDeployment "d" "alice" "r1" "radarr-1" 7 1 [demoSpec] 3 in
  let cf := demoCF "r1" "HDR" 2 (Some 8) in
  let i := demoInstance in
  (refIntegrity (st_db st)
   /\ inScope userId instanceId (st_db st) (d, cf, i)
   /\ cf_deletedAt cf = Some 8)
  /\ (exists deployments,
        GET_deployments E userId instanceId st
          = (mkReply 200 (DeploymentsBody deployments), st)
        /\ formatDeployment (d, cf, i) ∈ deployments
        /\ (fd_needsUpdate (formatDeployment (d, cf, i)) = true
            <-> cf_version cf > dep_deployedVersion d))
  /\ (cf_version cf > dep_deployedVersion d ->
      exists updates totalDeployed,
        GET_updates E userId instanceId None st
          = (mkReply 200 (UpdatesBody true updates totalDeployed (length updates)), st)
        /\ toUpdateNotification (d, cf, i) ∈ updates).
Proof.
  intros E userId instanceId st d cf i.
  assert (Href : refIntegrity (st_db st))
    by (unfold refIntegrity; apply (bool_decide_eq_true_1 _); vm_compute; reflexivity).
  assert (Hscope : inScope userId instanceId (st_db st) (d, cf, i)).
  { exists d. split; [apply list_elem_of_here|]. split; vm_compute; reflexivity. }
  assert (Hdel : cf_deletedAt cf = Some 8) by reflexivity.
  split; [by split_and!|].
  exact (tombstoned_record_still_listed E userId instanceId st d cf i 8
           Href Hscope Hdel).
Defined.

(** The soft-deleted record, as the two routes report it. *)
Example tombstoned_record_reported :
  (GET_deployments demoEnv "alice" None demoLedgerSt).1
  = mkReply 200
      (DeploymentsBody
         [mkFormattedDeployment "f" "r9" "Old" "radarr-1" "Radarr" 104 1 1 false 5;
          mkFormattedDeployment "d" "r1" "HDR" "radarr-1" "Radarr" 7 1 2 true 3])
  /\ (GET_updates demoEnv "alice" None None demoLedgerSt).1
     = mkReply 200
         (UpdatesBody true
            [mkUpdateNotification "d" "r1" "HDR" "radarr-1" "Radarr" RADARR 1 2]
            2 1).
Proof. vm_compute. repeat split. Qed.

(** ** The other routes at work *)

(** Alice asks for bob's record "o": reading, renaming and deleting all
    answer the 404 of a record that does not exist. *)
Lemma not_found_is_uniform_witness :
  let E := demoEnv in
  let userId := "alice" in
  let id := "o" in
  let requestBody := mkUpdateReq (Some "Mine") None None in
  let st := demoSt 1 demoTable [] in
  updatePersonalCFSchema requestBody = true
  /\ GET_id E userId id st = (notFound, st)
  /\ PUT_id E userId id requestBody st = (notFound, st)
  /\ DELETE_id E userId id st = (notFound, st).
Proof.
  intros E userId id requestBody st.
  assert (Hvalid : updatePersonalCFSchema requestBody = true) by (vm_compute; reflexivity).
  split; [exact Hvalid|].
  apply (not_found_is_uniform E userId id requestBody st Hvalid).
  intros cf Hcf Hid. apply list_elem_of_In in Hcf. simpl in Hcf.
  destruct Hcf as [<-|[<-|[<-|[<-|[]]]]]; try discriminate Hid.
  left. discriminate.
Defined.

(** Alice creates "New": the record gets the id "b" and version 1, and is
    read back. *)
Lemma POST_root_creates_witness :
  let E := demoEnv in
  let userId := "alice" in
  let requestBody := mkCreateReq "New" RADARR None [demoSpec] in
  let st := demoSt 1 demoTable [] in
  let cf := mkPersonalCF "b" "alice" "New" RADARR false [demoSpec] 1 1 1 None in
  createPersonalCFSchema requestBody = true
  /\ exists st',
       POST_root E userId requestBody st = (mkReply 201 (CustomFormatBody cf), st')
       /\ personalCustomFormat (st_db st') = personalCustomFormat (st_db st) ++ [cf]
       /\ personalCFDeployment (st_db st') = personalCFDeployment (st_db st)
       /\ GET_id E userId (cf_id cf) st' = (mkReply 200 (CustomFormatBody cf), st').
Proof.
  intros E userId requestBody st cf.
  assert (Hvalid : createPersonalCFSchema requestBody = true) by (vm_compute; reflexivity).
  split; [exact Hvalid|].
  apply (POST_root_creates E userId requestBody st Hvalid).
  - intros x Hx. apply list_elem_of_In in Hx. simpl in Hx.
    destruct Hx as [<-|[<-|[<-|[<-|[]]]]]; intros (_ & Hn & _); discriminate Hn.
  - intros x Hx. apply list_elem_of_In in Hx. simpl in Hx.
    destruct Hx as [<-|[<-|[<-|[<-|[]]]]]; discriminate.
Defined.

(** Alice renames "DV" to "HDR", the name of her record "r1": 409. *)
Lemma PUT_id_rename_conflict_witness :
  let E := demoEnv in
  let userId := "alice" in
  let requestBody := mkUpdateReq (Some "HDR") None None in
  let st := demoSt 1 demoTable [] in
  List.find (ownedLive "r3" userId) (personalCustomFormat (st_db st))
    = Some (demoCF "r3" "DV" 4 None)
  /\ liveNamed userId "HDR" RADARR (demoCF "r1" "HDR" 1 None) = true
  /\ PUT_id E userId "r3" requestBody st
     = (mkReply 409
          (ErrorBody "DUPLICATE_NAME" (duplicateNameMessage "HDR" RADARR)),
        st).
Proof.
  intros E userId requestBody st.
  assert (Hcf : List.find (ownedLive "r3" userId) (personalCustomFormat (st_db st))
                = Some (demoCF "r3" "DV" 4 None)) by (vm_compute; reflexivity).
  assert (Hlive : liveNamed userId "HDR" RADARR (demoCF "r1" "HDR" 1 None) = true)
    by (vm_compute; reflexivity).
  split; [exact Hcf|]. split; [exact Hlive|].
  apply (PUT_id_rename_conflict E userId "r3" requestBody st
           (demoCF "r3" "DV" 4 None) (demoCF "r1" "HDR" 1 None) "HDR").
  - vm_compute; reflexivity.
  - exact Hcf.
  - reflexivity.
  - discriminate.
  - apply list_elem_of_In. simpl. by left.
  - exact Hlive.
Defined.

(** Alice renames "DV" to "Dolby Vision": the row "r3" alone changes. *)
Lemma PUT_id_touches_one_record_witness :
  let E := demoEnv in
  let userId := "alice" in
  let id := "r3" in
  let requestBody := mkUpdateReq (Some "Dolby Vision") None None in
  let st := demoSt 1 demoTable [] in
  let st' := (PUT_id E userId id requestBody st).2 in
  status (PUT_id E userId id requestBody st).1 = 200
  /\ exists cf cf',
       List.find (ownedLive id userId) (personalCustomFormat (st_db st)) = Some cf
       /\ List.find (ownedLive id userId) (personalCustomFormat (st_db st')) = Some cf'
       /\ cf_id cf' = cf_id cf
       /\ cf_userId cf' = cf_userId cf
       /\ cf_serviceType cf' = cf_serviceType cf
       /\ cf_createdAt cf' = cf_createdAt cf
       /\ cf_deletedAt cf' = None
       /\ cf_updatedAt cf' = now E (st_world st)
       /\ cf_name cf' = default (cf_name cf) (ureq_name requestBody)
       /\ cf_includeCustomFormatWhenRenaming cf'
          = default (cf_includeCustomFormatWhenRenaming cf)
              (ureq_includeCustomFormatWhenRenaming requestBody)
       /\ cf_specifications cf'
          = default (cf_specifications cf) (ureq_specifications requestBody)
       /\ length (personalCustomFormat (st_db st'))
          = length (personalCustomFormat (st_db st))
       /\ (forall i r,
             personalCustomFormat (st_db st) !! i = Some r ->
             cf_id r <> id ->
             personalCustomFormat (st_db st') !! i = Some r)
       /\ personalCFDeployment (st_db st') = personalCFDeployment (st_db st).
Proof.
  intros E userId id requestBody st st'.
  assert (Hok : status (PUT_id E userId id requestBody st).1 = 200)
    by (vm_compute; reflexivity).
  split; [exact Hok|].
  apply (PUT_id_touches_one_record E userId id requestBody st
           (PUT_id E userId id requestBody st).1 st'); [|exact Hok].
  vm_compute. reflexivity.
Defined.

(** Alice deletes "r1": the row stays, stamped, and is no longer found. *)
Lemma DELETE_id_is_soft_witness :
  let E := demoEnv in
  let userId := "alice" in
  let id := "r1" in
  let st := demoSt 1 demoTable [] in
  let cf := demoCF "r1" "HDR" 1 None in
  tableUnique (personalCustomFormat (st_db st))
  /\ exists st',
       DELETE_id E userId id st
         = (mkReply 200
              (MessageBody ("Deleted custom format " +:+ quote +:+ cf_name cf +:+ quote)),
            st')
       /\ length (personalCustomFormat (st_db st'))
          = length (personalCustomFormat (st_db st))
       /\ (forall i r,
             personalCustomFormat (st_db st) !! i = Some r ->
             exists r',
               personalCustomFormat (st_db st') !! i = Some r'
               /\ cf_id r' = cf_id r /\ cf_userId r' = cf_userId r
               /\ cf_name r' = cf_name r /\ cf_serviceType r' = cf_serviceType r
               /\ cf_version r' = cf_version r
               /\ cf_specifications r' = cf_specifications r
               /\ (cf_id r = id -> cf_deletedAt r' = Some (now E (st_world st)))
               /\ (cf_id r <> id -> r' = r))
       /\ personalCFDeployment (st_db st') = personalCFDeployment (st_db st)
       /\ GET_id E userId id st' = (notFound, st')
       /\ DELETE_id E userId id st' = (notFound, st').
Proof.
  intros E userId id st cf.
  assert (Hu : tableUnique (personalCustomFormat (st_db st)))
    by (unfold tableUnique; apply (bool_decide_eq_true_1 _); vm_compute; reflexivity).
  split; [exact Hu|].
  apply (DELETE_id_is_soft E userId id st cf Hu). vm_compute. reflexivity.
Defined.

(** Alice stops tracking the deployment "d" of her record "r1". *)
Lemma stop_tracking_removes_row_only_witness :
  let E := demoEnv in
  let userId := "alice" in
  let id := "d" in
  let st := demoLedgerSt in
  let d := mkDeployment "d" "alice" "r1" "radarr-1" 7 1 [demoSpec] 3 in
  let personalCF := demoCF "r1" "HDR" 2 (Some 8) in
  exists st',
    DELETE_deployments_id E userId id st
      = (mkReply 200
           (MessageBody
              ("Stopped tracking deployment of " +:+ quote
               +:+ cf_name personalCF +:+ quote)),
         st')
    /\ personalCFDeployment (st_db st')
       = List.filter (fun d => negb (bool_decide (dep_id d = id)))
           (personalCFDeployment (st_db st))
    /\ (forall d', d' ∈ personalCFDeployment (st_db st') -> dep_id d' <> id)
    /\ personalCustomFormat (st_db st') = personalCustomFormat (st_db st)
    /\ serviceInstance (st_db st') = serviceInstance (st_db st)
    /\ st_log st' = st_log st
    /\ (ledgerUnique (personalCFDeployment (st_db st)) ->
        ledgerUnique (personalCFDeployment (st_db st')))
    /\ forall otherUser,
         otherUser <> userId ->
         (forall d', d' ∈ personalCFDeployment (st_db st) -> dep_id d' = id ->
            d' = d) ->
         DELETE_deployments_id E otherUser id st
           = (mkReply 404 (ErrorBody "NOT_FOUND" "Deployment record not found"), st).
Proof.
  intros E userId id st d personalCF.
  apply (stop_tracking_removes_row_only E userId id st d personalCF).
  - vm_compute. reflexivity.
  - vm_compute. reflexivity.
Defined.

(** Alice renames "DV" while the table holds bob's record and a deleted one:
    the ids stay distinct and the live names stay unique. *)
Lemma serve_keeps_invariants_witness :
  let E := demoEnv in
  let request := ReqUpdate "r3" (mkUpdateReq (Some "Dolby Vision") None None) in
  let st := demoSt 1 demoTable [] in
  primaryKey (personalCustomFormat (st_db st))
  /\ primaryKey
       (personalCustomFormat (st_db (serve E demoBefore (Some "alice") request st).2))
  /\ liveUnique
       (personalCustomFormat (st_db (serve E demoBefore (Some "alice") request st).2)).
Proof.
  intros E request st.
  assert (Hpk : primaryKey (personalCustomFormat (st_db st)))
    by (unfold primaryKey; apply (bool_decide_eq_true_1 _); vm_compute; reflexivity).
  split; [exact Hpk|].
  apply (serve_keeps_invariants E demoBefore (Some "alice") request st Hpk).
  apply tableUnique_liveUnique.
  unfold tableUnique; apply (bool_decide_eq_true_1 _); vm_compute; reflexivity.
Defined.

(** Alice deletes her record "r1": bob's rows are as they were.  The same
    request without a user is answered 401. *)
Lemma serve_isolates_owners_witness :
  let E := demoEnv in
  let request := ReqDelete "r1" in
  let st := demoSt 1 demoTable [] in
  primaryKey (personalCustomFormat (st_db st))
  /\ rowsOfOthers "alice"
       (personalCustomFormat (st_db (serve E demoBefore (Some "alice") request st).2))
     = [demoOther]
  /\ (serve E demoBefore None request st).1
     = Plain (mkReply 401 (ErrorBody "UNAUTHORIZED" "Authentication required")).
Proof.
  intros E request st.
  assert (Hpk : primaryKey (personalCustomFormat (st_db st)))
    by (unfold primaryKey; apply (bool_decide_eq_true_1 _); vm_compute; reflexivity).
  split; [exact Hpk|]. split.
  - exact (proj1 (serve_isolates_owners E demoBefore (Some "alice") request st Hpk)).
  - by rewrite (proj2 (serve_isolates_owners E demoBefore None request st Hpk) eq_refl).
Defined.

(** Alice deploys her records "r1" and "t"; "t" is deleted, and the
    request is refused.  With "r1" and "r3" the count guard is passed. *)
Lemma deploy_count_guard_witness :
  let E := demoEnv in
  let st := demoSt 1 demoTable [] in
  primaryKey (personalCustomFormat (st_db st))
  /\ POST_deploy_multiple E "alice" (mkDeployReq ["r1"; "t"] "radarr-1") st
     = (someNotFound, st)
  /\ status (POST_deploy_multiple E "alice" (mkDeployReq ["r1"; "r3"] "radarr-1") st).1
     <> 404.
Proof.
  intros E st.
  assert (Hpk : primaryKey (personalCustomFormat (st_db st)))
    by (unfold primaryKey; apply (bool_decide_eq_true_1 _); vm_compute; reflexivity).
  split; [exact Hpk|]. split.
  - apply (proj1 (deploy_count_guard E "alice" (mkDeployReq ["r1"; "t"] "radarr-1")
                    st demoInstance Hpk eq_refl eq_refl)).
    intros [_ Hall]. destruct (Hall "t") as [x Hx].
    + apply list_elem_of_In. simpl. tauto.
    + vm_compute in Hx. discriminate Hx.
  - apply (proj2 (deploy_count_guard E "alice" (mkDeployReq ["r1"; "r3"] "radarr-1")
                    st demoInstance Hpk eq_refl eq_refl)).
    split.
    + apply (bool_decide_eq_true_1 _). vm_compute. reflexivity.
    + intros id Hid. apply list_elem_of_In in Hid. simpl in Hid.
      destruct Hid as [<-|[<-|[]]]; eexists; vm_compute; reflexivity.
Defined.

(** Alice redeploys "r9" to her instance "radarr-1": the rows of the
    ledger still point to her records on her instances. *)
Lemma serve_keeps_ledger_owned_witness :
  let E := demoEnv in
  let request := ReqDeployMultiple (mkDeployReq ["r9"] "radarr-1") in
  let st := demoLedgerSt in
  ledgerOwned (st_db st)
  /\ ledgerOwned (st_db (serve E demoBefore (Some "alice") request st).2)
  /\ refIntegrity (st_db (serve E demoBefore (Some "alice") request st).2).
Proof.
  intros E request st.
  assert (Hown : ledgerOwned (st_db st)).
  { intros d Hd. apply list_elem_of_In in Hd. simpl in Hd.
    destruct Hd as [<-|[<-|[]]]; eexists _, _; vm_compute; repeat split. }
  split; [exact Hown|].
  apply (serve_keeps_ledger_owned E demoBefore (Some "alice") request st); [| |exact Hown].
  - unfold primaryKey. apply (bool_decide_eq_true_1 _). vm_compute. reflexivity.
  - unfold instanceKey. apply (bool_decide_eq_true_1 _). vm_compute. reflexivity.
Defined.

(** Alice deploys "HDR" and "DV" and both go through: "DV" is in the
    ledger at version 4 and no list route reports it as outdated. *)
Lemma clean_deploy_clears_drift_witness :
  let E := demoEnv in
  let userId := "alice" in
  let requestBody := mkDeployReq ["r1"; "r3"] "radarr-1" in
  let st := demoSt 1 demoCleanRecords [] in
  let st' := (POST_deploy_multiple E userId requestBody st).2 in
  let personalCF := demoCF "r3" "DV" 4 None in
  batchStarts E userId requestBody st demoInstance demoExisting
  /\ status (POST_deploy_multiple E userId requestBody st).1 = 200
  /\ ledgered (dreq_instanceId requestBody) personalCF (personalCFDeployment (st_db st'))
  /\ forall d cf i serviceType,
       inScope userId (Some (dreq_instanceId requestBody)) (st_db st') (d, cf, i) ->
       dep_personalCFId d = cf_id personalCF ->
       cf = personalCF
       /\ fd_deployedVersion (formatDeployment (d, cf, i)) = cf_version personalCF
       /\ fd_needsUpdate (formatDeployment (d, cf, i)) = false
       /\ hasDrift serviceType (d, cf, i) = false.
Proof.
  intros E userId requestBody st st' personalCF.
  assert (Hstart : batchStarts E userId requestBody st demoInstance demoExisting)
    by (vm_compute; repeat split).
  assert (Hok : status (POST_deploy_multiple E userId requestBody st).1 = 200)
    by (vm_compute; reflexivity).
  split; [exact Hstart|]. split; [exact Hok|].
  apply (clean_deploy_clears_drift E userId requestBody st demoInstance demoExisting).
  - unfold primaryKey. apply (bool_decide_eq_true_1 _). vm_compute. reflexivity.
  - unfold tableUnique. apply (bool_decide_eq_true_1 _). vm_compute. reflexivity.
  - intros i c. simpl. lia.
  - exact Hstart.
  - exact Hok.
  - apply list_elem_of_In. vm_compute. tauto.
Defined.

(** Alice edits the specifications of "r9", deployed at version 1: the
    entry of its deployment "f" now has current version 2 and is flagged. *)
Lemma edit_flags_deployments_witness :
  let E := demoEnv in
  let userId := "alice" in
  let id := "r9" in
  let requestBody := mkUpdateReq None None (Some [demoSpec; demoSpec]) in
  let st := demoLedgerSt in
  let st' := (PUT_id E userId id requestBody st).2 in
  let d := mkDeployment "f" "alice" "r9" "radarr-1" 104 1 [demoSpec] 5 in
  let cf := demoCF "r9" "Old" 1 None in
  let i := demoInstance in
  includeRelations (st_db st) d = Some (d, cf, i)
  /\ exists cf',
       d ∈ personalCFDeployment (st_db st')
       /\ includeRelations (st_db st') d = Some (d, cf', i)
       /\ (dep_personalCFId d <> id -> cf' = cf)
       /\ (dep_personalCFId d = id ->
           (is_Some (ureq_specifications requestBody) ->
            fd_currentVersion (formatDeployment (d, cf', i)) = cf_version cf + 1
            /\ (dep_deployedVersion d = cf_version cf ->
                fd_needsUpdate (formatDeployment (d, cf', i)) = true
                /\ hasDrift None (d, cf', i) = true))
           /\ (ureq_specifications requestBody = None ->
               fd_personalCFName (formatDeployment (d, cf', i))
                 = default (cf_name cf) (ureq_name requestBody)
               /\ fd_currentVersion (formatDeployment (d, cf', i)) = cf_version cf
               /\ fd_needsUpdate (formatDeployment (d, cf', i))
                  = fd_needsUpdate (formatDeployment (d, cf, i)))).
Proof.
  intros E userId id requestBody st st' d cf i.
  assert (Hrel : includeRelations (st_db st) d = Some (d, cf, i))
    by (vm_compute; reflexivity).
  split; [exact Hrel|].
  apply (edit_flags_deployments E userId id requestBody st
           (PUT_id E userId id requestBody st).1 st' d cf i); [| | | |exact Hrel].
  - unfold primaryKey. apply (bool_decide_eq_true_1 _). vm_compute. reflexivity.
  - vm_compute. reflexivity.
  - vm_compute. reflexivity.
  - apply list_elem_of_In. simpl. tauto.
Defined.

(** Alice deletes "r1" and then asks to deploy it with "r3": refused. *)
Lemma deleted_record_is_out_of_reach_witness :
  let E := demoEnv in
  let userId := "alice" in
  let id := "r1" in
  let st := demoSt 1 demoTable [] in
  let st' := (DELETE_id E userId id st).2 in
  List.find (ownedLive id userId) (personalCustomFormat (st_db st))
    = Some (demoCF "r1" "HDR" 1 None)
  /\ (forall before serviceType,
        exists customFormats,
          GET_root E before userId serviceType st'
            = (CustomFormatsList 200 customFormats, st')
          /\ forall r, r ∈ customFormats -> cf_id r <> id)
  /\ (forall requestBody,
        updatePersonalCFSchema requestBody = true ->
        PUT_id E userId id requestBody st' = (notFound, st'))
  /\ (forall requestBody instance,
        deployMultipleSchema requestBody = true ->
        fetchedInstance userId (dreq_instanceId requestBody) (st_db st) = Some instance ->
        id ∈ personalCFIds requestBody ->
        POST_deploy_multiple E userId requestBody st' = (someNotFound, st'))
  /\ personalCFDeployment (st_db st') = personalCFDeployment (st_db st).
Proof.
  intros E userId id st st'.
  assert (Hcf : List.find (ownedLive id userId) (personalCustomFormat (st_db st))
                = Some (demoCF "r1" "HDR" 1 None)) by (vm_compute; reflexivity).
  split; [exact Hcf|].
  apply (deleted_record_is_out_of_reach E userId id st (demoCF "r1" "HDR" 1 None));
    [| |exact Hcf].
  - unfold primaryKey. apply (bool_decide_eq_true_1 _). vm_compute. reflexivity.
  - unfold tableUnique. apply (bool_decide_eq_true_1 _). vm_compute. reflexivity.
Defined.

(** Alice's ledger has two rows, one of them outdated; she asks for the
    updates of SONARR records and gets none, with [totalDeployed] 2. *)
Lemma updates_agree_with_deployments_witness :
  let E := demoEnv in
  let userId := "alice" in
  let instanceId : option string := None in
  let serviceType := Some "SONARR" in
  let st := demoLedgerSt in
  refIntegrity (st_db st)
  /\ exists deployments hasUpdates updates,
       GET_deployments E userId instanceId st
         = (mkReply 200 (DeploymentsBody deployments), st)
       /\ GET_updates E userId instanceId serviceType st
          = (mkReply 200
               (UpdatesBody hasUpdates updates (length deployments) (length updates)),
             st)
       /\ length deployments
          = length (List.filter (ledgerWhere userId instanceId)
                      (personalCFDeployment (st_db st)))
       /\ (length updates <= length (List.filter fd_needsUpdate deployments))%nat
       /\ (truthyString serviceType = false ->
           length updates = length (List.filter fd_needsUpdate deployments))
       /\ (hasUpdates = true <-> updates <> [])
       /\ forall u,
            u ∈ updates ->
            exists e,
              e ∈ deployments
              /\ fd_needsUpdate e = true
              /\ fd_id e = un_deploymentId u
              /\ fd_personalCFId e = un_personalCFId u
              /\ fd_personalCFName e = un_personalCFName u
              /\ fd_instanceId e = un_instanceId u
              /\ fd_deployedVersion e = un_deployedVersion u
              /\ fd_currentVersion e = un_currentVersion u.
Proof.
  intros E userId instanceId serviceType st.
  assert (Href : refIntegrity (st_db st))
    by (unfold refIntegrity; apply (bool_decide_eq_true_1 _); vm_compute; reflexivity).
  split; [exact Href|].
  exact (updates_agree_with_deployments E userId instanceId serviceType st Href).
Defined.

(** Alice soft-deletes "r9", whose deployment "f" is in the ledger: both
    list routes answer as before. *)
Lemma ledger_reads_ignore_create_and_delete_witness :
  let E := demoEnv in
  let st := demoLedgerSt in
  let requestBody := mkCreateReq "New" RADARR None [demoSpec] in
  let reads (s : St E) :=
    ((GET_deployments E "alice" None s).1,
     (GET_updates E "alice" None (Some "RADARR") s).1) in
  refIntegrity (st_db st)
  /\ reads (POST_root E "alice" requestBody st).2 = reads st
  /\ reads (DELETE_id E "alice" "r9" st).2 = reads st.
Proof.
  intros E st requestBody reads.
  assert (Href : refIntegrity (st_db st))
    by (unfold refIntegrity; apply (bool_decide_eq_true_1 _); vm_compute; reflexivity).
  split; [exact Href|].
  exact (ledger_reads_ignore_create_and_delete E "alice" "alice" "r9" requestBody
           None (Some "RADARR") st Href).
Defined.


(** ** The client at work *)


(** Alice opens the editor on "DV" (version 4), changes the name and
    saves: the update carries the name alone and the version stays 4. *)
Lemma editor_save_and_version_witness :
  let E := demoEnv in
  let customFormat := demoCF "r3" "DV" 4 None in
  let form := mkForm "Dolby Vision" RADARR false [demoSpec] in
  let payload := mkUpdateReq (Some "Dolby Vision") None None in
  let st := demoSt 1 demoTable [] in
  let st' := (PUT_id E "alice" "r3" payload st).2 in
  handleSave Ascii.is_space demoStringify (Some customFormat) form
    = MutateAsync (useUpdatePersonalCustomFormat (cf_id customFormat) payload)
  /\ exists cf cf',
       List.find (ownedLive (cf_id customFormat) "alice")
         (personalCustomFormat (st_db st)) = Some cf
       /\ List.find (ownedLive (cf_id customFormat) "alice")
            (personalCustomFormat (st_db st')) = Some cf'
       /\ (demoStringify (form_specifications form)
             <> demoStringify (cf_specifications customFormat) ->
           cf_version cf' = cf_version cf + 1
           /\ cf_specifications cf' = form_specifications form)
       /\ (demoStringify (form_specifications form)
             = demoStringify (cf_specifications customFormat) ->
           cf_version cf' = cf_version cf
           /\ cf_specifications cf' = cf_specifications cf)
       /\ (form_name form <> cf_name customFormat -> cf_name cf' = form_name form)
       /\ (form_name form = cf_name customFormat -> cf_name cf' = cf_name cf).
Proof.
  intros E customFormat form payload st st'.
  assert (Hsave : handleSave Ascii.is_space demoStringify (Some customFormat) form
                  = MutateAsync
                      (useUpdatePersonalCustomFormat (cf_id customFormat) payload))
    by (vm_compute; reflexivity).
  split; [exact Hsave|].
  apply (editor_save_and_version E Ascii.is_space demoStringify customFormat form
           "alice" payload st (PUT_id E "alice" "r3" payload st).1 st' Hsave).
  - vm_compute. reflexivity.
  - vm_compute. reflexivity.
Defined.

(** Alice lists her RADARR records and deploys "DV" from its row to
    "radarr-1". *)
Lemma ui_deploy_passes_count_guard_witness :
  let E := demoEnv in
  let st := demoSt 1 demoTable [] in
  let cf := demoCF "r3" "DV" 4 None in
  GET_root E demoBefore "alice" (Some RADARR) st
    = (CustomFormatsList 200 [demoCF "r3" "DV" 4 None; demoCF "r1" "HDR" 1 None], st)
  /\ handleDeploy (deployingCFs cf) EmptyString = ToastError "Please select an instance"
  /\ ("radarr-1" <> EmptyString ->
      exists payload,
        handleDeploy (deployingCFs cf) "radarr-1"
          = MutateAsync (useDeployMultiplePersonalCFs payload)
        /\ deployMultipleSchema payload = true
        /\ fetchedRecords "alice" (personalCFIds payload) (st_db st) = [cf]
        /\ status (POST_deploy_multiple E "alice" payload st).1 <> 404).
Proof.
  intros E st cf.
  assert (Hlist : GET_root E demoBefore "alice" (Some RADARR) st
                  = (CustomFormatsList 200
                       [demoCF "r3" "DV" 4 None; demoCF "r1" "HDR" 1 None], st))
    by (vm_compute; reflexivity).
  split; [exact Hlist|].
  apply (ui_deploy_passes_count_guard E demoBefore "alice" (Some RADARR) st
           [demoCF "r3" "DV" 4 None; demoCF "r1" "HDR" 1 None] cf "radarr-1"
           demoInstance); [|exact Hlist| |].
  - unfold primaryKey. apply (bool_decide_eq_true_1 _). vm_compute. reflexivity.
  - apply list_elem_of_In. simpl. tauto.
  - vm_compute. reflexivity.
Defined.

(** The instance accepts "HDR" and the ledger write fails: one record,
    two entries. *)
Lemma deploy_result_accounting_witness :
  let E := demoEnv in
  let userId := "alice" in
  let requestBody := mkDeployReq ["r1"] "radarr-1" in
  let st := demoSt 5 demoRecords [] in
  let personalCFs := fetchedRecords userId (personalCFIds requestBody) (st_db st) in
  batchStarts E userId requestBody st demoInstance demoExisting
  /\ exists st' evs code success created updated failed,
       POST_deploy_multiple E userId requestBody st
         = (mkReply code (DeployBody success created updated failed), st')
       /\ st_log st' = st_log st ++ EvGetCustomFormats (Returned demoExisting) :: evs
       /\ (length created + length updated + length failed
           = length personalCFs + length (omap ledgerFailure evs))%nat
       /\ (length created + length updated <= length personalCFs)%nat
       /\ (forall personalCF,
             personalCF ∈ omap ledgerFailure evs ->
             personalCF ∈ personalCFs
             /\ cf_name personalCF ∈ created ++ updated
             /\ cf_name personalCF ∈ failed.*1)
       /\ (omap ledgerFailure evs = [] ->
           (length created + length updated + length failed = length personalCFs)%nat).
Proof.
  intros E userId requestBody st personalCFs.
  assert (Hstart : batchStarts E userId requestBody st demoInstance demoExisting)
    by (vm_compute; repeat split).
  split; [exact Hstart|].
  exact (deploy_result_accounting E userId requestBody st demoInstance demoExisting
           Hstart).
Defined.

(** "r1" and an id the list does not show are selected; after "deselect
    all" on the list the counter still says 1. *)
Example deselect_all_keeps_unlisted :
  let prev : gmap string (@SelectionEntry Z) :=
    <["r1" := mkSelection true None]> (<["gone" := mkSelection true (Some 5)]> ∅) in
  selectedCount prev = 2%nat
  /\ selectedCount (deselectAll [demoCF "r1" "HDR" 1 None] prev) = 1%nat
  /\ isSelected (deselectAll [demoCF "r1" "HDR" 1 None] prev) "gone" = true.
Proof. vm_compute. repeat split. Qed.

(** Alice edits the specifications of "DV", the fourth row of the table:
    the row keeps its identity and its version goes from 4 to 5. *)
Lemma serve_never_rewrites_history_witness :
  let E := demoEnv in
  let request := ReqUpdate "r3" (mkUpdateReq None None (Some [demoSpec; demoSpec])) in
  let st := demoSt 1 demoTable [] in
  let r := demoCF "r3" "DV" 4 None in
  personalCustomFormat (st_db st) !! 3%nat = Some r
  /\ exists r',
       personalCustomFormat (st_db (serve E demoBefore (Some "alice") request st).2)
         !! 3%nat = Some r'
       /\ cf_id r' = cf_id r
       /\ cf_userId r' = cf_userId r
       /\ cf_serviceType r' = cf_serviceType r
       /\ cf_createdAt r' = cf_createdAt r
       /\ (cf_version r' = cf_version r \/ cf_version r' = cf_version r + 1)
       /\ (cf_deletedAt r <> None -> r' = r).
Proof.
  intros E request st r.
  assert (Hr : personalCustomFormat (st_db st) !! 3%nat = Some r) by reflexivity.
  split; [exact Hr|].
  apply (serve_never_rewrites_history E demoBefore (Some "alice") request st 3 r);
    [|exact Hr].
  unfold primaryKey. apply (bool_decide_eq_true_1 _). vm_compute. reflexivity.
Defined.

(** Alice redeploys "r9": her ledger row is rewritten, bob's is as it was. *)
Lemma serve_isolates_ledger_witness :
  let E := demoEnv in
  let request := ReqDeployMultiple (mkDeployReq ["r9"] "radarr-1") in
  let st := demoSharedSt in
  ledgerOwned (st_db st)
  /\ personalCFDeployment (st_db (serve E demoBefore (Some "alice") request st).2)
     <> personalCFDeployment (st_db st)
  /\ ledgerOfOthers "alice"
       (personalCFDeployment (st_db (serve E demoBefore (Some "alice") request st).2))
     = [mkDeployment "g" "bob" "o" "radarr-b" 9 1 [] 6].
Proof.
  intros E request st.
  assert (Hown : ledgerOwned (st_db st)).
  { intros d Hd. apply list_elem_of_In in Hd. simpl in Hd.
    destruct Hd as [<-|[<-|[]]]; eexists _, _; vm_compute; repeat split. }
  split; [exact Hown|]. split; [vm_compute; discriminate|].
  apply (serve_isolates_ledger E demoBefore (Some "alice") request st); [| |exact Hown].
  - unfold instanceKey. apply (bool_decide_eq_true_1 _). vm_compute. reflexivity.
  - unfold ledgerPrimaryKey. apply (bool_decide_eq_true_1 _). vm_compute. reflexivity.
Defined.
